(** * Balance computation and caching core of the NetSuite add-in backend

    A shallow embedding of [backend/constants.py] and of the balance,
    caching and derived-metric paths of [backend/server.py], followed by
    the properties of the specification that were checked against it.

    Conventions of the embedding.
    - Python [float] is the kernel's binary64 [float]; [+] and [-] on
      amounts are [PrimFloat.add] and [PrimFloat.sub].
    - A result row of the ledger is a finite map from column names to
      cells.  A numeric cell [CNum f] stands for any JSON number or numeric
      string [v] with [float(v) = f]; [CStr] is used for identifiers and for
      text on which [float] raises.
    - SuiteQL text is kept as a syntax tree ([Sql]): every f-string
      template of the source becomes one constructor application, every
      interpolated fragment one field.
    - Global dictionaries are [gmap]s keyed by the very strings the source
      concatenates. *)

From Stdlib Require Import ZArith List String Ascii Floats.
From stdpp Require Import gmap strings list pretty.

Set Warnings "-inexact-float".

Local Open Scope string_scope.
Local Open Scope nat_scope.
Local Open Scope list_scope.
Local Open Scope stdpp_scope.

(* ================================================================== *)
(** * Part I: the program *)
(* ================================================================== *)

(** ** Python values and string helpers *)

Module Py.

Inductive Cell :=
| CNull
| CNum (f : float)
| CStr (s : string).

Abbreviation Row := (gmap string Cell).

(** [row.get(key)]: a missing key and a JSON null both read as [None]. *)
Definition get (row : Row) (key : string) : Cell :=
  default CNull (row !! key).

(** [str(c)] for a cell of an identifier column.  SuiteQL sends
    identifiers as strings or null; a numeric cell does not occur there
    and is read as the empty string. *)
Definition str (c : Cell) : string :=
  match c with
  | CStr s => s
  | CNull => "None"
  | CNum _ => ""
  end.

(** [str(row.get(key, ''))]. *)
Definition get_str (row : Row) (key : string) : string :=
  match row !! key with
  | Some c => str c
  | None => ""
  end.

(** Truthiness of a cell ([if row['balance']], [if row.get('parent')]). *)
Definition truthy (c : Cell) : bool :=
  match c with
  | CNull => false
  | CNum f => negb (PrimFloat.eqb f 0%float)
  | CStr s => negb (String.eqb s "")
  end.

(** Truthiness of a string ([if subsidiary], [if from_period]). *)
Definition nonempty (s : string) : bool := negb (String.eqb s "").

Fixpoint starts_with (p s : string) : bool :=
  match p, s with
  | EmptyString, _ => true
  | String a p', String b s' => Ascii.eqb a b && starts_with p' s'
  | String _ _, EmptyString => false
  end.

(** [needle in hay] on strings. *)
Fixpoint contains (needle hay : string) : bool :=
  starts_with needle hay
  || match hay with
     | EmptyString => false
     | String _ hay' => contains needle hay'
     end.

(** [s.replace(a, by)] for a one-character pattern. *)
Fixpoint replace_char (a : ascii) (by_ : string) (s : string) : string :=
  match s with
  | EmptyString => EmptyString
  | String c s' =>
      if Ascii.eqb c a then by_ +:+ replace_char a by_ s'
      else String c (replace_char a by_ s')
  end.

Definition is_digit (c : ascii) : bool :=
  let n := nat_of_ascii c in (48 <=? n)%nat && (n <=? 57)%nat.

(** [s.isdigit()] on ASCII text: non-empty and made of decimal digits. *)
Definition isdigit (s : string) : bool :=
  nonempty s && forallb is_digit (list_ascii_of_string s).

(** [", ".join(l)] and friends. *)
Fixpoint join (sep : string) (l : list string) : string :=
  match l with
  | [] => ""
  | [x] => x
  | x :: l' => x +:+ sep +:+ join sep l'
  end.

(** Texts are modelled as ASCII: a character stands for its code point,
    and the classes of characters below are Python's on the code points
    under 128.  [s.isascii()] tells the texts for which this is all of
    Python's behaviour; a property that depends on how Python classes a
    character outside ASCII assumes it. *)
Definition isascii (s : string) : bool :=
forallb (λ c, (nat_of_ascii c <? 128)%nat) (list_ascii_of_string s).

(** Whitespace as [str.strip] and [str.split] see it: the space, the
    characters 9 to 13 and the separators 28 to 31. *)
Definition is_space (c : ascii) : bool :=
let n := nat_of_ascii c in
(n =? 32)%nat || ((9 <=? n)%nat && (n <=? 13)%nat)
|| ((28 <=? n)%nat && (n <=? 31)%nat).

Fixpoint lstrip (s : string) : string :=
match s with
| String c s' => if is_space c then lstrip s' else s
| EmptyString => EmptyString
end.

(** Drops trailing whitespace: a character is kept when it is not a
    space or something kept follows it. *)
Fixpoint rstrip (s : string) : string :=
match s with
| EmptyString => EmptyString
| String c s' =>
    match rstrip s' with
    | EmptyString => if is_space c then EmptyString else String c EmptyString
    | r => String c r
    end
end.

(** [s.strip()]. *)
Definition strip (s : string) : string := rstrip (lstrip s).

Definition lower_char (c : ascii) : ascii :=
let n := nat_of_ascii c in
if (65 <=? n)%nat && (n <=? 90)%nat then ascii_of_nat (n + 32) else c.

(** [s.lower()] on ASCII text. *)
Fixpoint lower (s : string) : string :=
match s with
| EmptyString => EmptyString
| String c s' => String (lower_char c) (lower s')
end.

(** [s.split()]: the maximal runs of non-whitespace characters; [cur] is
    the run being read, reversed. *)
Fixpoint split_ws (cur : list ascii) (s : string) : list string :=
match s with
| EmptyString =>
    match cur with
    | [] => []
    | _ => [string_of_list_ascii (rev cur)]
    end
| String c s' =>
    if is_space c then
      match cur with
      | [] => split_ws [] s'
      | _ => string_of_list_ascii (rev cur) :: split_ws [] s'
      end
    else split_ws (c :: cur) s'
end.

Definition split (s : string) : list string := split_ws [] s.

(** The value of a string of decimal digits. *)
Definition int_of_digits (s : string) : N :=
fold_left (λ acc c, 10 * acc + (N_of_ascii c - 48))%N (list_ascii_of_string s) 0%N.

(** Membership in a [frozenset] or list of strings. *)
Definition mem (s : string) (l : list string) : bool := bool_decide (s ∈ l).

End Py.

Import Py.

(** ** backend/constants.py *)

Module AccountType.

Definition BANK := "Bank".
Definition ACCT_REC := "AcctRec".
Definition OTHER_CURR_ASSET := "OthCurrAsset".
Definition FIXED_ASSET := "FixedAsset".
Definition OTHER_ASSET := "OthAsset".
Definition DEFERRED_EXPENSE := "DeferExpense".
Definition UNBILLED_REC := "UnbilledRec".

Definition ACCT_PAY := "AcctPay".
Definition CRED_CARD := "CredCard".
Definition OTHER_CURR_LIAB := "OthCurrLiab".
Definition LONG_TERM_LIAB := "LongTermLiab".
Definition DEFERRED_REVENUE := "DeferRevenue".

Definition EQUITY := "Equity".
Definition RETAINED_EARNINGS := "RetainedEarnings".

Definition INCOME := "Income".
Definition OTHER_INCOME := "OthIncome".

Definition COGS := "COGS".
Definition COST_OF_GOODS_SOLD := "Cost of Goods Sold".
Definition EXPENSE := "Expense".
Definition OTHER_EXPENSE := "OthExpense".

Definition NON_POSTING := "NonPosting".
Definition STAT := "Stat".

Definition PL_TYPES : list string :=
  [INCOME; OTHER_INCOME; COGS; COST_OF_GOODS_SOLD; EXPENSE; OTHER_EXPENSE].

Definition BS_ASSET_TYPES : list string :=
  [BANK; ACCT_REC; OTHER_CURR_ASSET; FIXED_ASSET; OTHER_ASSET;
   DEFERRED_EXPENSE; UNBILLED_REC].

Definition BS_LIABILITY_TYPES : list string :=
  [ACCT_PAY; CRED_CARD; OTHER_CURR_LIAB; LONG_TERM_LIAB; DEFERRED_REVENUE].

Definition BS_EQUITY_TYPES : list string := [EQUITY; RETAINED_EARNINGS].

Definition BS_TYPES : list string :=
  BS_ASSET_TYPES ++ BS_LIABILITY_TYPES ++ BS_EQUITY_TYPES.

Definition SIGN_FLIP_TYPES : list string :=
  [ACCT_PAY; CRED_CARD; OTHER_CURR_LIAB; LONG_TERM_LIAB; DEFERRED_REVENUE;
   EQUITY; RETAINED_EARNINGS].

Definition NON_FINANCIAL_TYPES : list string := [NON_POSTING; STAT].

Definition is_balance_sheet (accttype : string) : bool :=
  negb (mem accttype PL_TYPES) && negb (mem accttype NON_FINANCIAL_TYPES).

Definition is_pl (accttype : string) : bool := mem accttype PL_TYPES.

Definition needs_sign_flip (accttype : string) : bool :=
  mem accttype SIGN_FLIP_TYPES.

End AccountType.

(** The SQL-ready strings of constants.py, kept as the lists of type names
    that appear between the parentheses of [IN (...)], in sorted order. *)
Definition PL_TYPES_SQL : list string :=
  ["COGS"; "Cost of Goods Sold"; "Expense"; "Income"; "OthExpense"; "OthIncome"].
Definition SIGN_FLIP_TYPES_SQL : list string :=
  ["AcctPay"; "CredCard"; "DeferRevenue"; "Equity"; "LongTermLiab";
   "OthCurrLiab"; "RetainedEarnings"].
Definition INCOME_TYPES_SQL : list string := ["Income"; "OthIncome"].
Definition BS_ASSET_TYPES_SQL : list string :=
  ["AcctRec"; "Bank"; "DeferExpense"; "FixedAsset"; "OthAsset"; "OthCurrAsset";
   "UnbilledRec"].
Definition BS_LIABILITY_TYPES_SQL : list string :=
  ["AcctPay"; "CredCard"; "DeferRevenue"; "LongTermLiab"; "OthCurrLiab"].
Definition BS_EQUITY_TYPES_SQL : list string := ["Equity"; "RetainedEarnings"].

Definition DEFAULT_ACCOUNTING_BOOK : string := "1".
Definition BALANCE_CACHE_TTL : Z := 300.

(** ** SuiteQL statements as syntax trees *)

(** Sixth argument of [BUILTIN.CONSOLIDATE]: the period whose exchange
    rate translates the line. *)
Inductive period_ref :=
| PostingPeriod                     (* t.postingperiod *)
| FixedPeriod (id : string)         (* an interpolated period id *)
| PeriodAlias (alias : string).     (* p_2025_01.id, target_period.id *)

(** The summed amount: [TO_NUMBER(BUILTIN.CONSOLIDATE(tal.amount, 'LEDGER',
    'DEFAULT', 'DEFAULT', target_sub, period, 'DEFAULT'))] or the bare
    [tal.amount]. *)
Inductive amount_expr :=
| Consolidate (target_sub : string) (period : period_ref)
| TalAmount.

(** The factor written after the amount: nothing, or
    [* CASE WHEN a.accttype IN (types) THEN -1 ELSE 1 END]. *)
Inductive sign_expr :=
| NoSign
| FlipTypes (types : list string).

(** One conjunct of a WHERE clause. *)
Inductive cond :=
| TPosting                                   (* t.posting = 'T' *)
| TalPosting                                 (* tal.posting = 'T' *)
| NoRows                                     (* 1=0 *)
| AccountFilter (column : string) (exact like : list string)
| SubsidiaryIn (ids : list string)           (* tl.subsidiary IN (...) *)
| SubsidiaryEq (id : string)                 (* tl.subsidiary = id *)
| ClassEq (id : string)                      (* tl.class = id *)
| DepartmentEq (id : string)                 (* tl.department = id *)
| LocationEq (id : string)                   (* tl.location = id *)
| AcctTypeIn (types : list string)           (* a.accttype IN (...) *)
| AcctTypeNotIn (types : list string)        (* a.accttype NOT IN (...) *)
| AcctTypeEq (type : string)                 (* a.accttype = '...' *)
| FullnameLike (pat : string)                (* LOWER(a.fullname) LIKE *)
| FullnameNotLike (pat : string)             (* LOWER(a.fullname) NOT LIKE *)
| AnyOf (c1 c2 : cond)                       (* (c1 OR c2) *)
| PeriodNameIn (names : list string)         (* apf.periodname IN (...) *)
| PeriodNameEq (name : string)               (* ap.periodname = '...' *)
| PostingPeriodGe (id : string)              (* t.postingperiod >= id *)
| PostingPeriodLe (id : string)              (* t.postingperiod <= id *)
| PostingPeriodEq (id : string)              (* t.postingperiod = id *)
| ApStartGe (date : string)                  (* ap.startdate >= date *)
| ApEndLe (date : string)                    (* ap.enddate <= date *)
| ApEndLt (date : string)                    (* ap.enddate < date *)
| TrandateLe (date : string)                 (* t.trandate <= TO_DATE(date) *)
| ApNotYear                                  (* ap.isyear = 'F' *)
| ApNotQuarter                               (* ap.isquarter = 'F' *)
| AccountingBook (book : string).            (* tal.accountingbook = book *)

(** [SELECT cols, SUM(amount sign) FROM TransactionAccountingLine tal JOIN
    ... WHERE conds GROUP BY cols]. *)
Record balance_query := {
  bq_group_by : list string;
  bq_amount : amount_expr;
  bq_sign : sign_expr;
  bq_line_join : bool;       (* JOIN TransactionLine tl *)
  bq_period_join : bool;     (* JOIN AccountingPeriod ap / apf *)
  bq_where : list cond
}.

(** The pivoted full-year statement: one row per account with the columns
    [account_number], [account_type] and [jan] .. [dec_month], column
    [k] summing the lines of the period that starts in month [k] of
    [pq_fiscal_year]; the inner SELECT is restricted to that year's
    periods and to [pq_where]. *)
Record pivot_query := {
  pq_fiscal_year : Z;
  pq_amount : amount_expr;
  pq_sign : sign_expr;
  pq_line_join : bool;
  pq_where : list cond
}.

Inductive Sql :=
| SelectBalance (q : balance_query)
| SelectPivotedYear (q : pivot_query)
| SelectAccountTypes (distinct : bool) (filter : cond)
| SelectAccountTypeOf (acctnumber : string)
| SelectSubsidiaryHierarchy
| SelectOther (text : string).

(** What [query_netsuite] returns: the [items] list, the error dictionary
    [{'error': ..., 'details': ...}] ([details] is absent when the request
    itself raised), or a payload that is neither. *)
Inductive QResult :=
| QRows (items : list Row)
| QError (error : string) (details : option string)
| QOther.

Definition is_error (r : QResult) : bool :=
  match r with QError _ _ => true | _ => false end.

Definition is_list (r : QResult) : bool :=
  match r with QRows _ => true | _ => false end.

(** The remote ledger: the reply to the [k]-th execution of a statement
    within one request. *)
Definition Ledger := Sql -> nat -> QResult.

(** The standard-library date conversion used all over server.py:
    [datetime.strptime(d, '%m/%d/%Y').strftime('%Y-%m-%d')], with the
    source's fallback to [d] itself when parsing raises. *)
Class DateLib := {
  to_iso_date : string -> string;
  (* datetime.strptime(m, '%Y-%m').strftime('%b %Y'); None when it raises *)
  month_to_period_name : string -> option string
}.

(** The SQL multiplier the ledger applies to a line of an account of type
    [accttype]. *)
Definition sign_multiplier (s : sign_expr) (accttype : string) : Z :=
  match s with
  | NoSign => 1
  | FlipTypes types => if mem accttype types then (-1) else 1
  end.

(** Conjuncts that bound the selected transactions from below in time. *)
Definition is_lower_bound (c : cond) : bool :=
  match c with
  | PostingPeriodGe _ | PostingPeriodEq _ | ApStartGe _
  | PeriodNameIn _ | PeriodNameEq _ => true
  | _ => false
  end.

(** Conjuncts that bound them from above. *)
Definition is_upper_bound (c : cond) : bool :=
  match c with
  | PostingPeriodLe _ | PostingPeriodEq _ | ApEndLe _ | ApEndLt _
  | TrandateLe _ | PeriodNameIn _ | PeriodNameEq _ => true
  | _ => false
  end.

Definition has_lower_bound (q : balance_query) : bool :=
  existsb is_lower_bound (bq_where q).

(** The period handed to [BUILTIN.CONSOLIDATE], if the statement calls it. *)
Definition consolidate_period (q : balance_query) : option period_ref :=
  match bq_amount q with
  | Consolidate _ p => Some p
  | TalAmount => None
  end.

(** ** Insertion-ordered dictionaries

    Python dictionaries iterate in insertion order and re-assigning a key
    keeps its place; where the source iterates over a dictionary the
    embedding uses an association list with that discipline. *)

Module ODict.
Section ODict.
Context {V : Type}.

Fixpoint set (k : string) (v : V) (d : list (string * V)) : list (string * V) :=
  match d with
  | [] => [(k, v)]
  | (k', v') :: d' =>
      if String.eqb k' k then (k, v) :: d' else (k', v') :: set k v d'
  end.

Fixpoint lookup (k : string) (d : list (string * V)) : option V :=
  match d with
  | [] => None
  | (k', v') :: d' => if String.eqb k' k then Some v' else lookup k d'
  end.

Definition keys (d : list (string * V)) : list string := map fst d.

Definition has (k : string) (d : list (string * V)) : bool :=
  match lookup k d with Some _ => true | None => false end.
End ODict.
End ODict.

(** ** Subsidiary hierarchy (server.py, get_subsidiaries_in_hierarchy) *)

Record SubInfo := { sub_parent : option string; sub_iselimination : bool }.

(** One row of [SELECT id, parent, iselimination FROM Subsidiary WHERE
    isinactive = 'F']: [sub_id], [parent_id], [is_elim]. *)
Definition hierarchy_row (row : Row) : string * SubInfo :=
  let sub_id := get_str row "id" in
  let parent_id :=
    if truthy (get row "parent") then Some (get_str row "parent") else None in
  let is_elim :=
    match row !! "iselimination" with
    | Some (CStr s) => String.eqb s "T"
    | _ => false
    end in
  (sub_id, {| sub_parent := parent_id; sub_iselimination := is_elim |}).

(** The [for row in result] loop: [all_subs] and [children_map]. *)
Definition hierarchy_step
    (st : list (string * SubInfo) * gmap string (list string)) (row : Row)
    : list (string * SubInfo) * gmap string (list string) :=
  let '(all_subs, children_map) := st in
  let '(sub_id, info) := hierarchy_row row in
  let all_subs := ODict.set sub_id info all_subs in
  match sub_parent info with
  | Some parent_id =>
      if nonempty parent_id
      then (all_subs,
            <[parent_id := default [] (children_map !! parent_id) ++ [sub_id]]>
              children_map)
      else (all_subs, children_map)
  | None => (all_subs, children_map)
  end.

Definition hierarchy_maps (result : list Row)
    : list (string * SubInfo) * gmap string (list string) :=
  fold_left hierarchy_step result ([], ∅).

(** The [for child_id in children_map[current]] loop. *)
Definition visit_child (st : list string * list string) (child_id : string)
    : list string * list string :=
  let '(hierarchy_ids, to_process) := st in
  if mem child_id hierarchy_ids then st
  else (hierarchy_ids ++ [child_id], to_process ++ [child_id]).

Definition visit_children (children : list string)
    (st : list string * list string) : list string * list string :=
  fold_left visit_child children st.

(** The [while to_process] loop; [None] when [fuel] iterations did not
    empty the queue. *)
Fixpoint descend (fuel : nat) (children_map : gmap string (list string))
    (hierarchy_ids to_process : list string) : option (list string) :=
  match to_process with
  | [] => Some hierarchy_ids
  | current :: to_process' =>
      match fuel with
      | O => None
      | S fuel' =>
          let '(hierarchy_ids', to_process'') :=
            match children_map !! current with
            | Some children =>
                visit_children children (hierarchy_ids, to_process')
            | None => (hierarchy_ids, to_process')
            end in
          descend fuel' children_map hierarchy_ids' to_process''
      end
  end.

(** The body of the [try] once the reply is known to be a list. *)
Definition hierarchy_of_rows (fuel : nat) (target_id : string)
    (result : list Row) : option (list string) :=
  let '(all_subs, children_map) := hierarchy_maps result in
  match ODict.lookup target_id all_subs with
  | Some {| sub_parent := None |} => Some (ODict.keys all_subs)
  | _ => descend fuel children_map [target_id] [target_id]
  end.

(** Iterations granted to the traversal: one per subsidiary row, plus
    one for the target. *)
Definition hierarchy_fuel (result : list Row) : nat := S (length result).

(** [get_subsidiaries_in_hierarchy(target_sub_id)] over the memo
    [subsidiary_hierarchy_cache]; returns the list and the new memo.  The
    outer [None] is a traversal that was cut short by the fuel. *)
Definition get_subsidiaries_in_hierarchy (ledger : Ledger)
    (subsidiary_hierarchy_cache : gmap string (list string))
    (target_id : string)
    : option (list string * gmap string (list string)) :=
  match subsidiary_hierarchy_cache !! target_id with
  | Some cached => Some (cached, subsidiary_hierarchy_cache)
  | None =>
      match ledger SelectSubsidiaryHierarchy 0%nat with
      | QRows result =>
          match hierarchy_of_rows (hierarchy_fuel result) target_id result with
          | Some hierarchy_ids =>
              Some (hierarchy_ids,
                    <[target_id := hierarchy_ids]> subsidiary_hierarchy_cache)
          | None => None
          end
      | _ => Some ([target_id], subsidiary_hierarchy_cache)
      end
  end.

(** ** Rate-limit retry (query_with_retry, query_with_retry_re) *)

Inductive Event :=
| Executed (sql : Sql) (k : nat)     (* query_netsuite(sql, 120) *)
| Slept (seconds : Z).               (* time.sleep(wait_time) *)

(** [isinstance(result, dict) and 'error' in result] followed by the test
    on [str(result.get('details', ''))]. *)
Definition rate_limited (r : QResult) : bool :=
  match r with
  | QError _ details =>
      let error_str := default "" details in
      contains "CONCURRENCY_LIMIT_EXCEEDED" error_str
      || contains "429" error_str
  | _ => false
  end.

(** [for attempt in range(max_retries)], entered at [attempt] with
    [remaining] iterations left; [result] is the variable of that name
    (unbound, [None], before the first execution). *)
Fixpoint retry_loop (ledger : Ledger) (sql : Sql) (remaining attempt : nat)
    (result : option QResult) (trace : list Event)
    : option QResult * list Event :=
  match remaining with
  | O => (result, trace)
  | S remaining' =>
      let r := ledger sql attempt in
      let trace := trace ++ [Executed sql attempt] in
      if rate_limited r then
        let wait_time := ((Z.of_nat attempt + 1) * 2)%Z in
        retry_loop ledger sql remaining' (S attempt) (Some r)
          (trace ++ [Slept wait_time])
      else (Some r, trace)
  end.

Definition query_with_retry (ledger : Ledger) (name : string) (sql : Sql)
    (max_retries : nat) : option QResult * list Event :=
  retry_loop ledger sql max_retries 0 None [].

Definition query_with_retry_re (ledger : Ledger) (name : string) (sql : Sql)
    (max_retries : nat) : option QResult * list Event :=
  retry_loop ledger sql max_retries 0 None [].

(** The default of the [max_retries] parameter; no caller overrides it. *)
Definition MAX_RETRIES : nat := 3.

(** ** Derived metrics (server.py, calculate_retained_earnings and
    calculate_cta) *)

(** What [get_fiscal_year_for_period] returns for a known period. *)
Record FyInfo := {
  fiscal_year_id : string;
  fy_start : string;
  fy_end : string;
  period_id : string;
  period_start : string;
  period_end : string
}.

Inductive Http (A : Type) :=
| Ok (body : A)                              (* jsonify(body), 200 *)
| Failed (status : Z) (error : string).      (* jsonify({'error': ...}), status *)
Arguments Ok {A} body.
Arguments Failed {A} status error.

(** [x if x else d] on an optional string. *)
Definition or_else (x : option string) (d : string) : string :=
  match x with
  | Some s => if nonempty s then s else d
  | None => d
  end.

(** [float(raw_value)] on a cell that is not [None]: the value, or the
    text of the exception it raises. *)
Definition float_of_cell (c : Cell) : string + float :=
  match c with
  | CNum f => inr f
  | CStr s => inl ("could not convert string to float: '" +:+ s +:+ "'")
  | CNull => inl "float() argument must be a string or a real number, not 'NoneType'"
  end.

(** Message of the exception raised when [query_with_retry] reaches its
    final [return result] without having bound [result]. *)
Definition unbound_result : string :=
  "cannot access local variable 'result' where it is not associated with a value".

(** The body of [for future in as_completed(futures)] shared by both
    endpoints: the parsed [value], and the entry appended to
    [query_errors] if any.  [None] as value means the [except] branch was
    taken before [value] was stored. *)
Definition read_component (name : string) (result : option QResult)
    : option float * list string :=
  match result with
  | None => (None, [name +:+ ": " +:+ unbound_result])
  | Some (QError error details) =>
      let error_msg := default error details in
      (Some 0%float, [name +:+ ": " +:+ error_msg])
  | Some (QRows (row :: _)) =>
      match get row "value" with
      | CNull => (Some 0%float, [])
      | raw_value =>
          match float_of_cell raw_value with
          | inr value => (Some value, [])
          | inl e => (None, [name +:+ ": " +:+ e])
          end
      end
  | Some (QRows []) => (Some 0%float, [])
  | Some QOther => (Some 0%float, [])
  end.

Definition segment_filters (sub_filter : list string)
    (department location classId : string) : list cond :=
  [SubsidiaryIn sub_filter]
  ++ (if nonempty department then [DepartmentEq department] else [])
  ++ (if nonempty location then [LocationEq location] else [])
  ++ (if nonempty classId then [ClassEq classId] else []).

Record ReComponents := {
  prior_years_pl : float;
  posted_re_adjustments : float
}.

Record ReBody := {
  re_value : float;
  re_period : string;
  re_components : ReComponents
}.

Record ReRun := {
  re_response : Http ReBody;
  re_query_errors : list string;
  re_hierarchy_cache : gmap string (list string)
}.

Section RetainedEarnings.
Context `{DateLib}.
Variable ledger : Ledger.
Variable default_subsidiary_id : option string.

Definition re_prior_pl_query (cons_amount : amount_expr)
    (fy_start_date accountingbook : string) (segment_where : list cond) : Sql :=
  SelectBalance {|
    bq_group_by := [];
    bq_amount := cons_amount;
    bq_sign := FlipTypes INCOME_TYPES_SQL;
    bq_line_join := true;
    bq_period_join := true;
    bq_where :=
      [TPosting; TalPosting; AcctTypeIn PL_TYPES_SQL; ApEndLt fy_start_date;
       AccountingBook accountingbook] ++ segment_where |}.

Definition re_posted_re_query (cons_amount : amount_expr)
    (period_end_date accountingbook : string) (segment_where : list cond) : Sql :=
  SelectBalance {|
    bq_group_by := [];
    bq_amount := cons_amount;
    bq_sign := NoSign;
    bq_line_join := true;
    bq_period_join := true;
    bq_where :=
      [TPosting; TalPosting;
       AnyOf (AcctTypeEq "RetainedEarnings") (FullnameLike "%retained earnings%");
       ApEndLe period_end_date; AccountingBook accountingbook]
      ++ segment_where |}.

Definition re_target_sub (subsidiary : option string) : string :=
  or_else subsidiary (or_else default_subsidiary_id "1").

(** [prior_pl_query] and [posted_re_query] of one request, under the
    names they are submitted with. *)
Definition re_request_queries (hierarchy_subs : list string)
    (subsidiary : option string)
    (accountingbook classId department location : string) (fy : FyInfo)
    : list (string * Sql) :=
  let target_sub := re_target_sub subsidiary in
  let segment_where :=
    segment_filters hierarchy_subs department location classId in
  let fy_start_date := to_iso_date (fy_start fy) in
  let target_period_id := period_id fy in
  let cons_amount :=
    if nonempty target_sub
    then Consolidate target_sub (FixedPeriod target_period_id)
    else TalAmount in
  let period_end_date := to_iso_date (period_end fy) in
  [ ("prior_pl",
     re_prior_pl_query cons_amount fy_start_date accountingbook segment_where);
    ("posted_re",
     re_posted_re_query cons_amount period_end_date accountingbook segment_where) ].

Definition re_run_query (q : string * Sql) : option float * list string :=
  read_component (fst q)
    (fst (query_with_retry_re ledger (fst q) (snd q) MAX_RETRIES)).

(** [subsidiary] is what [resolve_subsidiary_id] returned and [fy_info]
    what [get_fiscal_year_for_period] returned.  The two futures are
    taken in the order of submission, which only fixes the order of the
    entries of [query_errors]. *)
Definition calculate_retained_earnings
    (hierarchy_cache : gmap string (list string))
    (period_name : string) (subsidiary : option string)
    (accountingbook classId department location : string)
    (fy_info : option FyInfo) : option ReRun :=
  match fy_info with
  | None =>
      Some {| re_response :=
                Failed 400 ("Could not find fiscal year for period " +:+ period_name);
              re_query_errors := [];
              re_hierarchy_cache := hierarchy_cache |}
  | Some fy =>
      let target_sub := re_target_sub subsidiary in
      '(hierarchy_subs, hierarchy_cache') ←
        get_subsidiaries_in_hierarchy ledger hierarchy_cache target_sub;
      let queries :=
        re_request_queries hierarchy_subs subsidiary accountingbook classId
          department location fy in
      let r1 := re_run_query (default ("prior_pl", SelectOther "") (queries !! 0)) in
      let r2 := re_run_query (default ("posted_re", SelectOther "") (queries !! 1)) in
      let prior_pl := default 0%float (fst r1) in
      let posted_re := default 0%float (fst r2) in
      let query_errors := snd r1 ++ snd r2 in
      let retained_earnings := (prior_pl + posted_re)%float in
      Some {| re_response :=
                Ok {| re_value := retained_earnings;
                      re_period := period_name;
                      re_components :=
                        {| prior_years_pl := prior_pl;
                           posted_re_adjustments := posted_re |} |};
              re_query_errors := query_errors;
              re_hierarchy_cache := hierarchy_cache' |}
  end.

End RetainedEarnings.

Record CtaComponents := {
  total_assets : float;
  total_liabilities : float;
  total_equity : float;
  posted_equity : float;
  retained_earnings : float;
  net_income : float
}.

Record CtaBody := {
  cta_value : float;
  cta_period : string;
  cta_components : CtaComponents
}.

Record CtaRun := {
  cta_response : Http CtaBody;
  cta_query_errors : list string;
  cta_hierarchy_cache : gmap string (list string)
}.

Section CTA.
Context `{DateLib}.
Variable ledger : Ledger.
Variable default_subsidiary_id : option string.

(** The common shape of the six statements: no grouping, a join on the
    posting period and no join on TransactionLine. *)
Definition cta_query (cons_amount : amount_expr) (sign : sign_expr)
    (conds : list cond) (accountingbook : string) : Sql :=
  SelectBalance {|
    bq_group_by := [];
    bq_amount := cons_amount;
    bq_sign := sign;
    bq_line_join := false;
    bq_period_join := true;
    bq_where :=
      [TPosting; TalPosting] ++ conds
      ++ [ApNotYear; ApNotQuarter; AccountingBook accountingbook] |}.

(** The [queries] dictionary, in its order of insertion. *)
Definition cta_queries (cons_amount : amount_expr)
    (period_end_date fy_start_date accountingbook : string)
    : list (string * Sql) :=
  [ ("total_assets",
     cta_query cons_amount NoSign
       [AcctTypeIn BS_ASSET_TYPES_SQL; ApEndLe period_end_date] accountingbook);
    ("total_liabilities",
     cta_query cons_amount (FlipTypes INCOME_TYPES_SQL)
       [AcctTypeIn BS_LIABILITY_TYPES_SQL; ApEndLe period_end_date] accountingbook);
    ("posted_equity",
     cta_query cons_amount (FlipTypes INCOME_TYPES_SQL)
       [AcctTypeEq "Equity"; FullnameNotLike "%retained earnings%";
        ApEndLe period_end_date] accountingbook);
    ("prior_pl",
     cta_query cons_amount (FlipTypes INCOME_TYPES_SQL)
       [AcctTypeIn PL_TYPES_SQL; ApEndLt fy_start_date] accountingbook);
    ("posted_re",
     cta_query cons_amount NoSign
       [AnyOf (AcctTypeEq "RetainedEarnings") (FullnameLike "%retained earnings%");
        ApEndLe period_end_date] accountingbook);
    ("net_income",
     cta_query cons_amount (FlipTypes INCOME_TYPES_SQL)
       [AcctTypeIn PL_TYPES_SQL; ApStartGe fy_start_date; ApEndLe period_end_date]
       accountingbook) ].

(** One turn of [for future in as_completed(futures)]: the components
    run on their own workers, each against its own sequence of replies;
    the futures are taken here in the order of submission, which only
    fixes the order of the entries of [query_errors]. *)
Definition cta_collect (st : gmap string float * list string)
    (q : string * Sql) : gmap string float * list string :=
  let '(results, query_errors) := st in
  let '(name, sql) := q in
  let '(value, errs) :=
    read_component name (fst (query_with_retry ledger name sql MAX_RETRIES)) in
  (<[name := default 0%float value]> results, query_errors ++ errs).

(** [results.get(name, 0.0)]. *)
Definition component (results : gmap string float) (name : string) : float :=
  default 0%float (results !! name).

Definition cta_target_sub (subsidiary : option string) : string :=
  or_else subsidiary (or_else default_subsidiary_id "1").

(** The [queries] dictionary of one request. *)
Definition cta_request_queries (subsidiary : option string)
    (accountingbook : string) (fy : FyInfo) : list (string * Sql) :=
  let period_end_date := to_iso_date (period_end fy) in
  let fy_start_date := to_iso_date (fy_start fy) in
  let target_sub := cta_target_sub subsidiary in
  let target_period_id := period_id fy in
  let cons_amount :=
    if nonempty target_sub
    then Consolidate target_sub (FixedPeriod target_period_id)
    else TalAmount in
  cta_queries cons_amount period_end_date fy_start_date accountingbook.

(** [subsidiary] is what [resolve_subsidiary_id] returned and [fy_info]
    what [get_fiscal_year_for_period] returned. *)
Definition calculate_cta
    (hierarchy_cache : gmap string (list string))
    (period_name : string) (subsidiary : option string)
    (accountingbook : string) (fy_info : option FyInfo) : option CtaRun :=
  match fy_info with
  | None =>
      Some {| cta_response := Failed 400 ("Could not find period " +:+ period_name);
              cta_query_errors := [];
              cta_hierarchy_cache := hierarchy_cache |}
  | Some fy =>
      let target_sub := cta_target_sub subsidiary in
      '(hierarchy_subs, hierarchy_cache') ←
        get_subsidiaries_in_hierarchy ledger hierarchy_cache target_sub;
      let queries := cta_request_queries subsidiary accountingbook fy in
      let '(results, query_errors) := fold_left cta_collect queries (∅, []) in
      let total_assets := component results "total_assets" in
      let total_liabilities := component results "total_liabilities" in
      let posted_equity := component results "posted_equity" in
      let prior_pl := component results "prior_pl" in
      let posted_re := component results "posted_re" in
      let net_income := component results "net_income" in
      let total_equity := (total_assets - total_liabilities)%float in
      let retained_earnings := (prior_pl + posted_re)%float in
      let cta :=
        (total_equity - posted_equity - retained_earnings - net_income)%float in
      Some {| cta_response :=
                Ok {| cta_value := cta;
                      cta_period := period_name;
                      cta_components :=
                        {| total_assets := total_assets;
                           total_liabilities := total_liabilities;
                           total_equity := total_equity;
                           posted_equity := posted_equity;
                           retained_earnings := retained_earnings;
                           net_income := net_income |} |};
              cta_query_errors := query_errors;
              cta_hierarchy_cache := hierarchy_cache' |}
  end.

End CTA.

(** ** Statement builders (server.py, build_account_filter, build_pl_query,
    build_bs_query_single_period, build_bs_multi_period_query) *)

(** [escape_sql(text)]: single quotes are doubled. *)
Definition escape_sql (text : string) : string :=
  replace_char "'"%char "''" text.

(** [build_account_filter(accounts, column)]: ["1=0"] without accounts,
    otherwise the exact numbers of an [IN] list and the [LIKE] patterns
    (with [*] turned into [%]), joined by [OR]. *)
Definition build_account_filter (accounts : list string) (column : string) : cond :=
  match accounts with
  | [] => NoRows
  | _ =>
      let strs := map strip accounts in
      let exact_matches :=
        map escape_sql (filter (λ a, contains "*" a = false) strs) in
      let wildcard_patterns :=
        map (λ a, escape_sql (replace_char "*"%char "%" a))
            (filter (λ a, contains "*" a = true) strs) in
      AccountFilter column exact_matches wildcard_patterns
  end.

(** [AccountType.is_balance_sheet] under the name server.py calls it by. *)
Definition is_balance_sheet_account (accttype : string) : bool :=
  AccountType.is_balance_sheet accttype.

(** [{target_sub or 1}]. *)
Definition target_or_1 (target_sub : string) : string :=
  if nonempty target_sub then target_sub else "1".

Definition build_pl_query (accounts periods : list string)
    (base_where : list cond) (target_sub : string) (needs_line_join : bool)
    (accountingbook : string) : balance_query :=
  let account_filter := build_account_filter accounts "a.acctnumber" in
  let periods_in := map escape_sql periods in
  {| bq_group_by := ["a.acctnumber"; "ap.periodname"];
     bq_amount := Consolidate (target_or_1 target_sub) PostingPeriod;
     bq_sign := FlipTypes INCOME_TYPES_SQL;
     bq_line_join := needs_line_join;
     bq_period_join := true;
     bq_where :=
       base_where
       ++ [account_filter; PeriodNameIn periods_in; AcctTypeIn PL_TYPES_SQL;
           AccountingBook accountingbook] |}.

(** An entry of [period_info]: the end date and the period id, [None]
    for a period absent from the ledger's AccountingPeriod table. *)
Record PeriodInfo := { info_enddate : string; info_id : option string }.

Definition build_bs_query_single_period `{DateLib} (accounts : list string)
    (period_name : string) (period_info : PeriodInfo) (base_where : list cond)
    (target_sub : string) (needs_line_join : bool) (accountingbook : string)
    : balance_query :=
  let account_filter := build_account_filter accounts "a.acctnumber" in
  let end_date_str := to_iso_date (info_enddate period_info) in
  let amount_calc :=
    match info_id period_info with
    | Some period_id =>
        if nonempty period_id
        then Consolidate (target_or_1 target_sub) (FixedPeriod period_id)
        else TalAmount
    | None => TalAmount
    end in
  {| bq_group_by := ["a.acctnumber"];
     bq_amount := amount_calc;
     bq_sign := NoSign;
     bq_line_join := needs_line_join;
     bq_period_join := false;
     bq_where :=
       base_where
       ++ [account_filter; AcctTypeNotIn PL_TYPES_SQL; TrandateLe end_date_str;
           AccountingBook accountingbook] |}.

(** One [SUM(CASE WHEN ap.startdate <= alias.enddate THEN ... ELSE 0 END)]
    column of [build_bs_multi_period_query]: the amount it translates and
    the factor it applies. *)
Definition bs_multi_period_column (target_sub alias : string)
    : amount_expr * sign_expr :=
  (Consolidate target_sub (PeriodAlias alias), FlipTypes SIGN_FLIP_TYPES_SQL).

(** [should_use_consolidated(raw_subsidiary, subsidiary_id)] with
    [AUTO_CONSOLIDATE_ROOT = False]. *)
Definition should_use_consolidated (raw_subsidiary subsidiary_id : string) : bool :=
  nonempty raw_subsidiary && contains "(consolidated)" (lower raw_subsidiary).

(** The collaborators of the request handlers that answer from the
    lookup caches: [convert_name_to_id], [get_period_dates_from_name]
    (start date, end date, id) and the calendar fallback
    [calculate_period_end_date]. *)
Class Lookups := {
  convert_name_to_id : string -> string -> string;
  get_period_dates_from_name :
    string -> option string * option string * option string;
  calculate_period_end_date : string -> option string
}.

(** Truthiness of an optional string. *)
Definition present (x : option string) : bool :=
  match x with Some s => nonempty s | None => false end.

(** ** Batch balances (server.py, batch_balance) *)

(** [account -> {period -> amount}], in insertion order. *)
Abbreviation Balances := (list (string * list (string * float))).

(** [if account_num not in all_balances: all_balances[account_num] = {}]
    followed by [all_balances[account_num][period] = balance]. *)
Definition set_balance (all_balances : Balances) (account_num period : string)
    (balance : float) : Balances :=
  let inner := default [] (ODict.lookup account_num all_balances) in
  ODict.set account_num (ODict.set period balance inner) all_balances.

(** [row[key]]: the cell, or the text of the [KeyError]. *)
Definition row_item (row : Row) (key : string) : string + Cell :=
  match row !! key with
  | Some c => inr c
  | None => inl ("'" +:+ key +:+ "'")
  end.

(** [float(row['balance']) if row['balance'] else 0]. *)
Definition balance_of_row (row : Row) : string + float :=
  match row_item row "balance" with
  | inl e => inl e
  | inr c => if truthy c then float_of_cell c else inr 0%float
  end.

(** One row of a P&L reply: account, period and balance. *)
Definition read_pl_row (row : Row) : string + (string * string * float) :=
  match row_item row "acctnumber" with
  | inl e => inl e
  | inr account_num =>
      match row_item row "periodname" with
      | inl e => inl e
      | inr period_name =>
          match balance_of_row row with
          | inl e => inl e
          | inr balance => inr (str account_num, str period_name, balance)
          end
      end
  end.

(** The [for row in pl_result] loop; an exception leaves the handler. *)
Fixpoint store_pl_rows (rows : list Row) (all_balances : Balances)
    : string + Balances :=
  match rows with
  | [] => inr all_balances
  | row :: rows' =>
      match read_pl_row row with
      | inl e => inl e
      | inr (account_num, period_name, balance) =>
          store_pl_rows rows' (set_balance all_balances account_num period_name balance)
      end
  end.

(** One row of a Balance-Sheet reply. *)
Definition read_bs_row (row : Row) : string + (string * float) :=
  match row_item row "acctnumber" with
  | inl e => inl e
  | inr account_num =>
      match balance_of_row row with
      | inl e => inl e
      | inr balance => inr (str account_num, balance)
      end
  end.

(** The [for row in bs_result] loop inside the per-period [try]: an
    exception ends the period and keeps what was stored before it. *)
Fixpoint store_bs_rows (period : string) (rows : list Row)
    (all_balances : Balances) : Balances :=
  match rows with
  | [] => all_balances
  | row :: rows' =>
      match read_bs_row row with
      | inl _ => all_balances
      | inr (account_num, balance) =>
          store_bs_rows period rows' (set_balance all_balances account_num period balance)
      end
  end.

(** [f"{subsidiary}:{department}:{location}:{class_id}"]. *)
Definition filters_hash (subsidiary department location class_id : string) : string :=
  subsidiary +:+ ":" +:+ department +:+ ":" +:+ location +:+ ":" +:+ class_id.

(** [f"{account}:{period}:{filters_hash}"]. *)
Definition cache_key (account period fh : string) : string :=
  account +:+ ":" +:+ period +:+ ":" +:+ fh.

(** The [all_in_cache] flag after the two nested loops. *)
Definition all_in_cache (balance_cache : gmap string float)
    (accounts periods : list string) (fh : string) : bool :=
  forallb (λ account,
    forallb (λ period,
      bool_decide (is_Some (balance_cache !! cache_key account period fh)))
      periods) accounts.

(** [result_balances] of the cache-hit branch. *)
Definition serve_from_cache (balance_cache : gmap string float)
    (accounts periods : list string) (fh : string) : Balances :=
  fold_left (λ result_balances account,
    ODict.set account
      (fold_left (λ inner period,
         ODict.set period
           (default 0%float (balance_cache !! cache_key account period fh)) inner)
         periods [])
      result_balances) accounts [].

(** Clock readings are in microseconds; [(now - then).total_seconds() <
    seconds]. *)
Definition total_seconds_lt (now then_ seconds : Z) : bool :=
  (now - then_ <? seconds * 1000000)%Z.

Record BatchRequest := {
  req_accounts : list string;
  req_periods : list string;
  req_subsidiary : string;        (* raw_subsidiary *)
  req_class : string;
  req_department : string;
  req_location : string;
  req_accountingbook : string
}.

Record BatchBody := {
  balances : Balances;
  from_cache : bool               (* the key is present only on a cache hit *)
}.

(** The [period_info] dictionary. *)
Definition period_info_step `{Lookups} (period_info : list (string * PeriodInfo))
    (period : string) : list (string * PeriodInfo) :=
  match get_period_dates_from_name period with
  | (_, end_, period_id) =>
      if present end_ && present period_id then
        ODict.set period
          {| info_enddate := default "" end_; info_id := period_id |} period_info
      else
        match calculate_period_end_date period with
        | Some calc_end =>
            if nonempty calc_end then
              ODict.set period
                {| info_enddate := calc_end; info_id := None |} period_info
            else period_info
        | None => period_info
        end
  end.

(** Accounts of the type reply, split into P&L and Balance Sheet. *)
Definition classify_accounts (type_result : list Row)
    : list string * list string :=
  fold_left (λ '(pl_accounts, bs_accounts) row,
    let acct_num := str (get row "acctnumber") in
    let acct_type := get_str row "accttype" in
    if is_balance_sheet_account acct_type
    then (pl_accounts, bs_accounts ++ [acct_num])
    else (pl_accounts ++ [acct_num], bs_accounts)) type_result ([], []).

(** [if 'a.acctnumber' not in c] on a conjunct. *)
Definition mentions_acctnumber (c : cond) : bool :=
  match c with
  | AccountFilter column _ _ => contains "a.acctnumber" column
  | _ => false
  end.

(** [periods_by_year]: periods of the form ["Mon YYYY"] grouped by year. *)
Definition periods_by_year (periods : list string) : list (string * list string) :=
  fold_left (λ by_year p,
    match split p with
    | [_; year] =>
        ODict.set year (default [] (ODict.lookup year by_year) ++ [p]) by_year
    | _ => by_year
    end) periods [].

(** The wildcard pass: the sum, per period, over every stored account
    whose number starts with the pattern stripped of its stars. *)
Definition wildcard_totals (pattern : string) (all_balances : Balances)
    : list (string * float) :=
  fold_left (λ totals '(account_num, period_balances),
    if starts_with pattern account_num then
      fold_left (λ totals '(period, balance),
        ODict.set period
          (default 0%float (ODict.lookup period totals) + balance)%float totals)
        period_balances totals
    else totals) all_balances [].

Definition sum_wildcards (accounts : list string) (all_balances : Balances)
    : Balances :=
  fold_left (λ all_balances original_account,
    if contains "*" original_account then
      let pattern := replace_char "*"%char "" original_account in
      ODict.set original_account (wildcard_totals pattern all_balances) all_balances
    else all_balances) accounts all_balances.

(** The final zero fill. *)
Definition fill_zeros (accounts periods : list string) (all_balances : Balances)
    : Balances :=
  fold_left (λ all_balances account_num,
    let inner := default [] (ODict.lookup account_num all_balances) in
    ODict.set account_num
      (fold_left (λ inner period,
         if ODict.has period inner then inner
         else ODict.set period 0%float inner) periods inner)
      all_balances) accounts all_balances.

Section BatchBalance.
Context `{DateLib} `{Lookups}.
Variable ledger : Ledger.
Variable default_subsidiary_id : option string.

(** Step 2 of the handler: the P&L statement, split by year when more
    than 800 rows are expected.  [inl] carries the text of an exception
    that leaves the handler. *)
Definition batch_pl_stage (pl_accounts periods : list string)
    (where_clauses : list cond) (target_sub : string) (needs_line_join : bool)
    (accountingbook : string) (all_balances : Balances) : string + Balances :=
  match pl_accounts with
  | [] => inr all_balances
  | _ =>
      let pl_account_filter := build_account_filter pl_accounts "a.acctnumber" in
      let pl_where_clauses :=
        filter (λ c, mentions_acctnumber c = false) where_clauses
        ++ [pl_account_filter] in
      let expected_rows := length pl_accounts * length periods in
      if 800 <? expected_rows then
        fold_left (λ acc '(year, year_periods),
          match acc with
          | inl e => inl e
          | inr all_balances =>
              let year_query :=
                build_pl_query pl_accounts year_periods pl_where_clauses
                  target_sub needs_line_join accountingbook in
              match ledger (SelectBalance year_query) 0 with
              | QRows year_result => store_pl_rows year_result all_balances
              | _ => inr all_balances
              end
          end) (periods_by_year periods) (inr all_balances)
      else
        let pl_query :=
          build_pl_query pl_accounts periods pl_where_clauses target_sub
            needs_line_join accountingbook in
        match ledger (SelectBalance pl_query) 0 with
        | QRows pl_result => store_pl_rows pl_result all_balances
        | _ => inr all_balances
        end
  end.

(** The statement of step 3 for one period. *)
Definition batch_bs_query (bs_accounts : list string) (where_clauses : list cond)
    (target_sub : string) (needs_line_join : bool) (accountingbook : string)
    (period : string) (info : PeriodInfo) : balance_query :=
  let bs_account_filter := build_account_filter bs_accounts "a.acctnumber" in
  let bs_where_clauses :=
    filter (λ c, mentions_acctnumber c = false) where_clauses
    ++ [bs_account_filter] in
  build_bs_query_single_period bs_accounts period info bs_where_clauses
    target_sub needs_line_join accountingbook.

(** Step 3: one Balance-Sheet statement per period of [period_info]; a
    failed period is logged and skipped. *)
Definition batch_bs_stage (bs_accounts : list string)
    (period_info : list (string * PeriodInfo)) (where_clauses : list cond)
    (target_sub : string) (needs_line_join : bool) (accountingbook : string)
    (all_balances : Balances) : Balances :=
  match bs_accounts, period_info with
  | [], _ => all_balances
  | _, [] => all_balances
  | _, _ =>
      fold_left (λ all_balances '(period, info),
        let period_query :=
          batch_bs_query bs_accounts where_clauses target_sub needs_line_join
            accountingbook period info in
        match ledger (SelectBalance period_query) 0 with
        | QRows bs_result => store_bs_rows period bs_result all_balances
        | QError _ _ => all_balances
        | QOther => all_balances
        end) period_info all_balances
  end.

(** Everything below the cache check: the [try] block that queries the
    ledger.  The balance cache is not among its inputs. *)
Definition batch_balance_fresh (hierarchy_cache : gmap string (list string))
    (req : BatchRequest)
    : option (Http BatchBody * gmap string (list string)) :=
  let accounts := req_accounts req in
  let periods := req_periods req in
  let raw_subsidiary := req_subsidiary req in
  let accountingbook := req_accountingbook req in
  let subsidiary := convert_name_to_id "subsidiary" raw_subsidiary in
  let class_id := convert_name_to_id "class" (req_class req) in
  let department := convert_name_to_id "department" (req_department req) in
  let location := convert_name_to_id "location" (req_location req) in
  let wants_consolidated := should_use_consolidated raw_subsidiary subsidiary in
  let account_filter := build_account_filter accounts "a.acctnumber" in
  '(subsidiary_clause, hierarchy_cache') ←
    (if nonempty subsidiary then
       if wants_consolidated then
         '(hierarchy_subs, cache') ←
           get_subsidiaries_in_hierarchy ledger hierarchy_cache subsidiary;
         Some (SubsidiaryIn hierarchy_subs, cache')
       else Some (SubsidiaryEq subsidiary, hierarchy_cache)
     else
       '(hierarchy_subs, cache') ←
         get_subsidiaries_in_hierarchy ledger hierarchy_cache
           (or_else default_subsidiary_id "1");
       Some (SubsidiaryIn hierarchy_subs, cache'));
  let needs_line_join := true in
  let where_clauses :=
    [TPosting; TalPosting; account_filter; subsidiary_clause]
    ++ (if nonempty class_id then [ClassEq class_id] else [])
    ++ (if nonempty department then [DepartmentEq department] else [])
    ++ (if nonempty location then [LocationEq location] else []) in
  let period_info := fold_left period_info_step periods [] in
  let target_sub :=
    if nonempty subsidiary then subsidiary
    else or_else default_subsidiary_id "1" in
  let account_type_filter := build_account_filter accounts "acctnumber" in
  let type_result := ledger (SelectAccountTypes false account_type_filter) 0 in
  let '(pl_accounts, bs_accounts) :=
    match type_result with
    | QRows rows => classify_accounts rows
    | _ => (accounts, [])
    end in
  match batch_pl_stage pl_accounts periods where_clauses target_sub
          needs_line_join accountingbook [] with
  | inl e => Some (Failed 500 e, hierarchy_cache')
  | inr all_balances =>
      let all_balances :=
        batch_bs_stage bs_accounts period_info where_clauses target_sub
          needs_line_join accountingbook all_balances in
      let all_balances := sum_wildcards accounts all_balances in
      let all_balances := fill_zeros accounts periods all_balances in
      Some (Ok {| balances := all_balances; from_cache := false |},
            hierarchy_cache')
  end.

(** The cache test of the handler: a non-empty cache with a timestamp,
    younger than the TTL, holding every requested key. *)
Definition cache_hit (balance_cache : gmap string float)
    (balance_cache_timestamp : option Z) (now : Z)
    (accounts periods : list string) (fh : string) : bool :=
  negb (size balance_cache =? 0)
  && match balance_cache_timestamp with
     | Some stamp =>
         total_seconds_lt now stamp BALANCE_CACHE_TTL
         && all_in_cache balance_cache accounts periods fh
     | None => false
     end.

Definition batch_balance (balance_cache : gmap string float)
    (balance_cache_timestamp : option Z) (now : Z)
    (hierarchy_cache : gmap string (list string)) (req : BatchRequest)
    : option (Http BatchBody * gmap string (list string)) :=
  let accounts := req_accounts req in
  let periods := req_periods req in
  let subsidiary := convert_name_to_id "subsidiary" (req_subsidiary req) in
  let class_id := convert_name_to_id "class" (req_class req) in
  let department := convert_name_to_id "department" (req_department req) in
  let location := convert_name_to_id "location" (req_location req) in
  match accounts, periods with
  | [], _ | _, [] =>
      Some (Failed 400 "accounts and periods must be non-empty", hierarchy_cache)
  | _, _ =>
      let fh := filters_hash subsidiary department location class_id in
      if cache_hit balance_cache balance_cache_timestamp now accounts periods fh
      then
        Some (Ok {| balances := serve_from_cache balance_cache accounts periods fh;
                    from_cache := true |},
              hierarchy_cache)
      else batch_balance_fresh hierarchy_cache req
  end.

End BatchBalance.

(** ** Single balance (server.py, get_balance) *)

(** [is_year_only(period_str)] on ASCII text. *)
Definition is_year_only (period_str : string) : bool :=
  if (String.length period_str =? 4) && isdigit period_str then
    let year := int_of_digits period_str in
    (1900 <=? year)%N && (year <=? 2100)%N
  else false.

(** [expand_year_to_periods(year_str)]. *)
Definition expand_year_to_periods (year_str : string) : string * string :=
  ("Jan " +:+ year_str, "Dec " +:+ year_str).

Record BalanceRequest := {
  bal_account : string;
  bal_subsidiary : string;         (* raw_subsidiary *)
  bal_from_period : string;
  bal_to_period : string;
  bal_class : string;
  bal_department : string;
  bal_location : string;
  bal_accounting_book : string
}.

Section GetBalance.
Context `{DateLib} `{Lookups}.
Variable ledger : Ledger.
Variable default_subsidiary_id : option string.

(** The auto-detection block: [is_bs_account]. *)
Definition detect_bs_account (account : string) : bool :=
  if contains "*" account then
    let wildcard_filter := build_account_filter [account] "acctnumber" in
    match ledger (SelectAccountTypes true wildcard_filter) 0 with
    | QRows (r :: rs) =>
        let account_types := map (λ r, get_str r "accttype") (r :: rs) in
        let bs_types := filter (λ t, is_balance_sheet_account t = true) account_types in
        let pl_types := filter (λ t, is_balance_sheet_account t = false) account_types in
        match bs_types, pl_types with
        | _ :: _, [] => true
        | _, _ => false
        end
    | _ => false
    end
  else
    match ledger (SelectAccountTypeOf (escape_sql account)) 0 with
    | QRows (r :: _) => is_balance_sheet_account (get_str r "accttype")
    | _ => false
    end.

(** The conjuncts added by the [if from_period and to_period: ... elif
    from_period: ... elif to_period: ...] cascade. *)
Definition period_clauses (from_period to_period : string) : list cond :=
  if nonempty from_period && nonempty to_period then
    if isdigit from_period && isdigit to_period then
      [PostingPeriodGe from_period; PostingPeriodLe to_period]
    else
      match get_period_dates_from_name from_period,
            get_period_dates_from_name to_period with
      | (from_start, _, _), (_, to_end, _) =>
          if present from_start && present to_end
          then [ApStartGe (default "" from_start); ApEndLe (default "" to_end)]
          else [PeriodNameEq (escape_sql from_period)]
      end
  else if nonempty from_period then
    if isdigit from_period then [PostingPeriodEq from_period]
    else [PeriodNameEq (escape_sql from_period)]
  else if nonempty to_period then
    if isdigit to_period then [PostingPeriodLe to_period]
    else
      match get_period_dates_from_name to_period with
      | (_, to_end, _) =>
          if present to_end
          then [TrandateLe (to_iso_date (default "" to_end))]
          else [PeriodNameEq (escape_sql to_period)]
      end
  else [].

Record BalanceRun := {
  bal_is_bs : bool;                       (* is_bs_account *)
  bal_query : option balance_query;       (* the statement sent, if any *)
  bal_response : Http float;              (* str(total_balance) *)
  bal_hierarchy_cache : gmap string (list string)
}.

(** The handler with [include_breakdown] at its default, [false]. *)
Definition get_balance (hierarchy_cache : gmap string (list string))
    (req : BalanceRequest) : option BalanceRun :=
  let account := bal_account req in
  let raw_subsidiary := bal_subsidiary req in
  let from_period :=
    if is_year_only (bal_from_period req)
    then fst (expand_year_to_periods (bal_from_period req))
    else bal_from_period req in
  let to_period :=
    if is_year_only (bal_to_period req)
    then snd (expand_year_to_periods (bal_to_period req))
    else bal_to_period req in
  let subsidiary := convert_name_to_id "subsidiary" raw_subsidiary in
  let class_id := convert_name_to_id "class" (bal_class req) in
  let department := convert_name_to_id "department" (bal_department req) in
  let location := convert_name_to_id "location" (bal_location req) in
  let wants_consolidated := should_use_consolidated raw_subsidiary subsidiary in
  if negb (nonempty account) then
    Some {| bal_is_bs := false; bal_query := None;
            bal_response := Failed 400 "Account number required";
            bal_hierarchy_cache := hierarchy_cache |}
  else
    let accounting_book :=
      if nonempty (bal_accounting_book req) then bal_accounting_book req else "1" in
    let is_bs_account := detect_bs_account account in
    let from_period :=
      if is_bs_account && nonempty from_period && nonempty to_period
      then "" else from_period in
    let account_filter := build_account_filter [account] "a.acctnumber" in
    let use_hierarchy := wants_consolidated in
    let is_root_consolidated :=
      String.eqb subsidiary (default "None" default_subsidiary_id) && use_hierarchy in
    '(subsidiary_clauses, needs_line_join_for_subsidiary, hierarchy_cache') ←
      (if nonempty subsidiary then
         if is_root_consolidated then Some ([], false, hierarchy_cache)
         else if use_hierarchy then
           '(hierarchy_subs, cache') ←
             get_subsidiaries_in_hierarchy ledger hierarchy_cache subsidiary;
           Some ([SubsidiaryIn hierarchy_subs], true, cache')
         else Some ([SubsidiaryEq subsidiary], true, hierarchy_cache)
       else Some ([], false, hierarchy_cache));
    let where_clauses :=
      [TPosting; TalPosting; account_filter; AccountingBook accounting_book]
      ++ subsidiary_clauses
      ++ period_clauses from_period to_period
      ++ (if nonempty class_id then [ClassEq class_id] else [])
      ++ (if nonempty department then [DepartmentEq department] else [])
      ++ (if nonempty location then [LocationEq location] else []) in
    let target_sub :=
      if nonempty subsidiary then subsidiary
      else or_else default_subsidiary_id "1" in
    let needs_line_join :=
      needs_line_join_for_subsidiary || nonempty department
      || nonempty class_id || nonempty location in
    let is_cumulative_bs :=
      is_bs_account && negb (nonempty from_period) && nonempty to_period
      && negb (isdigit to_period) in
    let period_join :=
      if is_cumulative_bs then false
      else (nonempty from_period && negb (isdigit from_period))
           || (nonempty to_period && negb (isdigit to_period)) in
    let query :=
      {| bq_group_by := [];
         bq_amount := Consolidate target_sub PostingPeriod;
         bq_sign := FlipTypes INCOME_TYPES_SQL;
         bq_line_join := needs_line_join;
         bq_period_join := period_join;
         bq_where := where_clauses |} in
    let response :=
      match ledger (SelectBalance query) 0 with
      | QError error _ => Failed 500 error
      | QRows [] => Ok 0%float
      | QRows (row :: _) =>
          match get row "balance" with
          | CNull => Ok 0%float
          | balance =>
              match float_of_cell balance with
              | inr total_balance => Ok total_balance
              | inl e => Failed 500 e
              end
          end
      | QOther => Failed 500 "0"
      end in
    Some {| bal_is_bs := is_bs_account; bal_query := Some query;
            bal_response := response;
            bal_hierarchy_cache := hierarchy_cache' |}.

End GetBalance.

(** ** Full-year refresh (server.py, build_full_year_pl_query_pivoted,
    run_paginated_suiteql, convert_month_to_period_name,
    batch_full_year_refresh) *)

(** The [filters] dictionary of the handler.  A key is stored only with a
    non-empty value and the builders test [filters.get(key)] for truth, so
    an absent key is the empty string here. *)
Record Filters := {
  flt_subsidiary : string;
  flt_use_hierarchy : bool;
  flt_class : string;
  flt_department : string;
  flt_location : string
}.

(** [row.get(key)] on a text column as the handler goes on with it.
    SuiteQL sends such a column as text or null; null, a missing key and
    the empty text are all falsy, and a numeric cell does not occur there
    and is read as the empty text. *)
Definition get_text (row : Row) (key : string) : string :=
  match get row key with
  | CStr s => s
  | _ => ""
  end.

(** [float(row.get(key, 0))]. *)
Definition float_or_zero (row : Row) (key : string) : string + float :=
  match row !! key with
  | None => inr 0%float
  | Some c => float_of_cell c
  end.

(** [run_paginated_suiteql(base_query)], with the pages of one statement
    taken as one reply: the rows, or the text of the exception raised on a
    status other than 200.  A 200 without [items] reads as no rows. *)
Definition run_paginated_suiteql (ledger : Ledger) (base_query : Sql)
    : string + list Row :=
  match ledger base_query 0 with
  | QRows rows => inr rows
  | QError error _ => inl error
  | QOther => inr []
  end.

(** [convert_month_to_period_name(month_str)]. *)
Definition convert_month_to_period_name `{DateLib} (month_str : string) : string :=
  default month_str (month_to_period_name month_str).

Definition month_order : list string :=
  ["Jan"; "Feb"; "Mar"; "Apr"; "May"; "Jun";
   "Jul"; "Aug"; "Sep"; "Oct"; "Nov"; "Dec"].

(** [f"{month_abbrev} {fiscal_year}"]. *)
Definition period_of (month_abbrev : string) (fiscal_year : Z) : string :=
  month_abbrev +:+ " " +:+ pretty fiscal_year.

(** [month_mapping]: column name to period name. *)
Definition month_mapping (fiscal_year : Z) : list (string * string) :=
  [("jan", period_of "Jan" fiscal_year); ("feb", period_of "Feb" fiscal_year);
   ("mar", period_of "Mar" fiscal_year); ("apr", period_of "Apr" fiscal_year);
   ("may", period_of "May" fiscal_year); ("jun", period_of "Jun" fiscal_year);
   ("jul", period_of "Jul" fiscal_year); ("aug", period_of "Aug" fiscal_year);
   ("sep", period_of "Sep" fiscal_year); ("oct", period_of "Oct" fiscal_year);
   ("nov", period_of "Nov" fiscal_year);
   ("dec_month", period_of "Dec" fiscal_year)].

(** The body of [for col_name, period_name in month_mapping.items()]: a
    missing or null column is 0.0, and [float] may raise on the others. *)
Definition month_step (row : Row) (acc : string + list (string * float))
    (col : string * string) : string + list (string * float) :=
  let '(col_name, period_name) := col in
  match acc with
  | inl e => inl e
  | inr periods_data =>
      match get row col_name with
      | CNull => inr (ODict.set period_name 0%float periods_data)
      | amount =>
          match float_of_cell amount with
          | inl e => inl e
          | inr v => inr (ODict.set period_name v periods_data)
          end
      end
  end.

(** The twelve amounts of one pivoted row. *)
Definition read_month_columns (fiscal_year : Z) (row : Row)
    : string + list (string * float) :=
  fold_left (month_step row) (month_mapping fiscal_year) (inr []).

(** The [for row in items] loop over the pivoted reply. *)
Fixpoint store_pivot_rows (fiscal_year : Z) (items : list Row)
    (balances : Balances) (account_types : list (string * Cell))
    : string + (Balances * list (string * Cell)) :=
  match items with
  | [] => inr (balances, account_types)
  | row :: items' =>
      let account := get_text row "account_number" in
      let acct_type := default (CStr "") (row !! "account_type") in
      if nonempty account then
        match read_month_columns fiscal_year row with
        | inl e => inl e
        | inr periods_data =>
            store_pivot_rows fiscal_year items'
              (ODict.set account periods_data balances)
              (ODict.set account acct_type account_types)
        end
      else store_pivot_rows fiscal_year items' balances account_types
  end.

(** [balance_cache[f"{account}:{period}:{filters_hash}"] = amount] for
    every cell of [balances]. *)
Definition cache_balances (fh : string) (balances : Balances)
    (balance_cache : gmap string float) : gmap string float :=
  fold_left (λ balance_cache '(account, periods_data),
    fold_left (λ balance_cache '(period, amount),
      <[cache_key account period fh := amount]> balance_cache)
      periods_data balance_cache) balances balance_cache.

(** [f"activity:{account}:{period_name}:{filters_hash}"]. *)
Definition activity_cache_key (account period_name fh : string) : string :=
  "activity:" +:+ account +:+ ":" +:+ period_name +:+ ":" +:+ fh.

(** What the loop over the activity reply writes to: [bs_account_set],
    [bs_activity_data], [account_types] and [bs_activity_cache]. *)
Definition ActivityState : Type :=
  gset string * Balances * list (string * Cell) * gmap string float.

(** One row of the activity reply.  [float] is applied before the row is
    tested, so a null amount raises even on a row that would be skipped. *)
Definition store_activity_row `{DateLib} (fh : string) (row : Row)
    (st : ActivityState) : string + ActivityState :=
  let '(bs_account_set, bs_activity_data, account_types, bs_activity_cache) := st in
  let account := get_text row "account_number" in
  let acct_type := default (CStr "") (row !! "account_type") in
  let month_str := get_text row "month" in
  match float_or_zero row "amount" with
  | inl e => inl e
  | inr amount =>
      if nonempty account && nonempty month_str then
        let period_name := convert_month_to_period_name month_str in
        inr ({[account]} ∪ bs_account_set,
             set_balance bs_activity_data account period_name amount,
             (if ODict.has account bs_activity_data then account_types
              else ODict.set account acct_type account_types),
             <[activity_cache_key account period_name fh := amount]>
               bs_activity_cache)
      else inr st
  end.

(** The [for row in bs_items] loop: what was written, and the exception
    that ended it, if any. *)
Fixpoint store_activity_rows `{DateLib} (fh : string) (bs_items : list Row)
    (st : ActivityState) : ActivityState * option string :=
  match bs_items with
  | [] => (st, None)
  | row :: bs_items' =>
      match store_activity_row fh row st with
      | inl e => (st, Some e)
      | inr st' => store_activity_rows fh bs_items' st'
      end
  end.

(** The statement of the prior year's ending balances. *)
Definition prior_year_query (target_sub accountingbook : string)
    (accounts : list string) (prior_year : Z) : balance_query :=
  {| bq_group_by := ["a.acctnumber"];
     bq_amount := Consolidate target_sub PostingPeriod;
     bq_sign := NoSign;
     bq_line_join := false;
     bq_period_join := false;
     bq_where :=
       [TPosting; TalPosting; AccountingBook accountingbook;
        AccountFilter "a.acctnumber" (map escape_sql accounts) [];
        TrandateLe (pretty prior_year +:+ "-12-31")] |}.

(** The [for row in prior_result] loop inside its own [try]: an exception
    keeps the balances read before it. *)
Fixpoint read_prior_year_rows (prior_result : list Row)
    (prior_year_balances : gmap string float) : gmap string float :=
  match prior_result with
  | [] => prior_year_balances
  | row :: prior_result' =>
      let acc := get_str row "acctnumber" in
      match float_or_zero row "balance" with
      | inl _ => prior_year_balances
      | inr bal =>
          read_prior_year_rows prior_result' (<[acc := bal]> prior_year_balances)
      end
  end.

(** Step 1: [prior_year_balances]. *)
Definition fetch_prior_year_balances (ledger : Ledger)
    (target_sub accountingbook : string) (accounts : list string)
    (prior_year : Z) : gmap string float :=
  let bs_account_list := join "', '" (map escape_sql accounts) in
  if nonempty bs_account_list then
    match ledger (SelectBalance
                    (prior_year_query target_sub accountingbook accounts
                       prior_year)) 0 with
    | QRows prior_result => read_prior_year_rows prior_result ∅
    | _ => ∅
    end
  else ∅.

(** The body of [for month_abbrev in month_order]: the running total,
    [balances] and [balance_cache]. *)
Definition add_month (fiscal_year : Z) (fh account : string)
    (activity_by_period : list (string * float))
    (st : float * Balances * gmap string float) (month_abbrev : string)
    : float * Balances * gmap string float :=
  let '(cumulative, balances, balance_cache) := st in
  let period_name := period_of month_abbrev fiscal_year in
  let activity := default 0%float (ODict.lookup period_name activity_by_period) in
  let cumulative := (cumulative + activity)%float in
  let cumulative :=
    if PrimFloat.ltb (PrimFloat.abs cumulative) 0.01%float then 0%float
    else cumulative in
  (cumulative,
   set_balance balances account period_name cumulative,
   <[cache_key account period_name fh := cumulative]> balance_cache).

(** Step 2: the cumulative balances of every account of
    [bs_activity_data]. *)
Definition store_cumulative (fiscal_year : Z) (fh : string)
    (prior_year_balances : gmap string float) (bs_activity_data : Balances)
    (st : Balances * gmap string float) : Balances * gmap string float :=
  fold_left (λ '(balances, balance_cache) '(account, activity_by_period),
    let balances :=
      if ODict.has account balances then balances
      else ODict.set account [] balances in
    let cumulative := default 0%float (prior_year_balances !! account) in
    let '(_, balances, balance_cache) :=
      fold_left (add_month fiscal_year fh account activity_by_period)
        month_order (cumulative, balances, balance_cache) in
    (balances, balance_cache)) bs_activity_data st.

(** The request after the handler's defaulting: [rq_year] is the fiscal
    year it settles on, an integer. *)
Record RefreshRequest := {
  rq_year : Z;
  rq_subsidiary : string;         (* raw_subsidiary *)
  rq_class : string;
  rq_department : string;
  rq_location : string;
  rq_skip_bs : bool;
  rq_accountingbook : string
}.

(** The body of the answer; its timing fields, counters and the account
    names read back for display are left out. *)
Record RefreshBody := {
  fy_balances : Balances;
  fy_account_types : list (string * Cell);
  fy_pl_only : bool               (* the key is present only with skip_bs *)
}.

(** The module's global caches. *)
Record Caches := {
  balance_cache : gmap string float;
  balance_cache_timestamp : option Z;
  bs_activity_cache : gmap string float;
  bs_activity_cache_timestamp : option Z;
  bs_account_set : gset string
}.

Section FullYearRefresh.
Context `{DateLib} `{Lookups}.
Variable ledger : Ledger.
Variable default_subsidiary_id : option string.

(** The handler calls [build_full_year_bs_query(fiscal_year, target_sub,
    filters)] for the text of its activity statement.  Python looks the
    name up in the module's globals when the call is reached:
    [build_full_year_bs_query] is what the globals bind it to, [None]
    when they bind nothing, in which case the call raises [NameError]
    inside the Balance-Sheet [try]. *)
Variable build_full_year_bs_query : option (Z → string → Filters → Sql).

Definition build_full_year_pl_query_pivoted
    (hierarchy_cache : gmap string (list string)) (fiscal_year : Z)
    (target_sub : string) (filters : Filters) (accountingbook : string)
    : option (pivot_query * gmap string (list string)) :=
  '(subsidiary_clauses, hierarchy_cache') ←
    (if nonempty (flt_subsidiary filters) then
       if flt_use_hierarchy filters then
         '(hierarchy_subs, cache') ←
           get_subsidiaries_in_hierarchy ledger hierarchy_cache
             (flt_subsidiary filters);
         Some ([SubsidiaryIn hierarchy_subs], cache')
       else Some ([SubsidiaryEq (flt_subsidiary filters)], hierarchy_cache)
     else Some ([], hierarchy_cache));
  let filter_clauses :=
    subsidiary_clauses
    ++ (if nonempty (flt_department filters)
        then [DepartmentEq (flt_department filters)] else [])
    ++ (if nonempty (flt_location filters)
        then [LocationEq (flt_location filters)] else [])
    ++ (if nonempty (flt_class filters)
        then [ClassEq (flt_class filters)] else []) in
  let needs_line_join :=
    match filter_clauses with [] => false | _ => true end in
  Some ({| pq_fiscal_year := fiscal_year;
           pq_amount := Consolidate (target_or_1 target_sub) PostingPeriod;
           pq_sign := FlipTypes INCOME_TYPES_SQL;
           pq_line_join := needs_line_join;
           pq_where :=
             [TPosting; TalPosting; AccountingBook accountingbook;
              ApNotYear; ApNotQuarter; AcctTypeIn PL_TYPES_SQL]
             ++ filter_clauses |},
        hierarchy_cache').

(** Everything between [bs_account_set = set()] and the end of the
    Balance-Sheet [try]: [balances], [account_types], [balance_cache],
    [bs_activity_cache] and [bs_account_set] as the stage leaves them.
    An exception, the [NameError] of an unbound builder included, ends
    the stage and keeps what was written before it. *)
Definition refresh_bs_stage (fiscal_year : Z) (target_sub : string)
    (filters : Filters) (accountingbook fh : string) (balances : Balances)
    (account_types : list (string * Cell)) (balance_cache : gmap string float)
    : Balances * list (string * Cell) * gmap string float
      * gmap string float * gset string :=
  match build_full_year_bs_query with
  | None => (balances, account_types, balance_cache, ∅, ∅)
  | Some build =>
      let bs_query := build fiscal_year target_sub filters in
      match run_paginated_suiteql ledger bs_query with
      | inl _ => (balances, account_types, balance_cache, ∅, ∅)
      | inr bs_items =>
          match store_activity_rows fh bs_items (∅, [], account_types, ∅) with
          | ((bs_account_set, _, account_types, bs_activity_cache), Some _) =>
              (balances, account_types, balance_cache, bs_activity_cache,
               bs_account_set)
          | ((bs_account_set, bs_activity_data, account_types, bs_activity_cache),
             None) =>
              let prior_year := (fiscal_year - 1)%Z in
              let prior_year_balances :=
                fetch_prior_year_balances ledger target_sub accountingbook
                  (ODict.keys bs_activity_data) prior_year in
              let '(balances, balance_cache) :=
                store_cumulative fiscal_year fh prior_year_balances
                  bs_activity_data (balances, balance_cache) in
              (balances, account_types, balance_cache, bs_activity_cache,
               bs_account_set)
          end
      end
  end.

(** The handler: the answer, the global caches after it and the
    hierarchy memo.  [now] and [now_bs] are the two readings of the clock
    that stamp the caches. *)
Definition batch_full_year_refresh (caches : Caches) (now now_bs : Z)
    (hierarchy_cache : gmap string (list string)) (req : RefreshRequest)
    : option (Http RefreshBody * Caches * gmap string (list string)) :=
  let fiscal_year := rq_year req in
  let raw_subsidiary := rq_subsidiary req in
  let skip_bs := rq_skip_bs req in
  let accountingbook := rq_accountingbook req in
  let subsidiary := convert_name_to_id "subsidiary" raw_subsidiary in
  let class_id := convert_name_to_id "class" (rq_class req) in
  let department := convert_name_to_id "department" (rq_department req) in
  let location := convert_name_to_id "location" (rq_location req) in
  let wants_consolidated := should_use_consolidated raw_subsidiary subsidiary in
  let target_sub :=
    if nonempty subsidiary then subsidiary
    else or_else default_subsidiary_id "1" in
  let filters :=
    {| flt_subsidiary := subsidiary;
       flt_use_hierarchy := nonempty subsidiary && wants_consolidated;
       flt_class := class_id;
       flt_department := department;
       flt_location := location |} in
  '(base_query, hierarchy_cache') ←
    build_full_year_pl_query_pivoted hierarchy_cache fiscal_year target_sub
      filters accountingbook;
  match run_paginated_suiteql ledger (SelectPivotedYear base_query) with
  | inl e =>
      Some (Failed 500 ("NetSuite query failed: " +:+ e), caches,
            hierarchy_cache')
  | inr items =>
      match store_pivot_rows fiscal_year items [] [] with
      | inl e => Some (Failed 500 e, caches, hierarchy_cache')
      | inr (balances, account_types) =>
          let fh := filters_hash subsidiary department location class_id in
          let balance_cache := cache_balances fh balances ∅ in
          if skip_bs then
            Some (Ok {| fy_balances := balances;
                        fy_account_types := account_types;
                        fy_pl_only := true |},
                  {| balance_cache := balance_cache;
                     balance_cache_timestamp := Some now;
                     bs_activity_cache := bs_activity_cache caches;
                     bs_activity_cache_timestamp :=
                       bs_activity_cache_timestamp caches;
                     bs_account_set := bs_account_set caches |},
                  hierarchy_cache')
          else
            let '(balances, account_types, balance_cache, activity_cache,
                  account_set) :=
              refresh_bs_stage fiscal_year target_sub filters accountingbook
                fh balances account_types balance_cache in
            Some (Ok {| fy_balances := balances;
                        fy_account_types := account_types;
                        fy_pl_only := false |},
                  {| balance_cache := balance_cache;
                     balance_cache_timestamp := Some now;
                     bs_activity_cache := activity_cache;
                     bs_activity_cache_timestamp := Some now_bs;
                     bs_account_set := account_set |},
                  hierarchy_cache')
      end
  end.

End FullYearRefresh.

(** What the repository binds [build_full_year_bs_query] to: nothing.
    server.py defines no function of that name and imports none, by
    name or by a star import; the call in the handler is the name's one
    occurrence in the sources. *)
Definition server_build_full_year_bs_query
    : option (Z → string → Filters → Sql) := None.

(** ** Paginated statements (server.py, query_netsuite_paginated) *)

(** [f"{sql_query} ORDER BY {order_by} OFFSET {offset} ROWS FETCH NEXT
    {page_size} ROWS ONLY"]. *)
Definition paginated_query (sql_query order_by : string)
    (offset page_size : Z) : Sql :=
  SelectOther (sql_query +:+ " ORDER BY " +:+ order_by +:+ " OFFSET "
               +:+ pretty offset +:+ " ROWS FETCH NEXT " +:+ pretty page_size
               +:+ " ROWS ONLY").

(** Message of the error dictionary returned for a reply that is neither
    a list nor an error dictionary; the name of the reply's type, which
    the embedding does not keep, would follow it. *)
Definition unexpected_result_type : string := "Unexpected result type: ".

(** The safety limit on [offset]. *)
Definition PAGINATION_SAFETY_LIMIT : Z := 100000.

(** The [while True] loop, entered at [offset] with the rows read so far;
    [offsets] records the offsets requested.  [None] when [fuel]
    iterations did not end it. *)
Fixpoint paginate (fuel : nat) (ledger : Ledger) (sql_query order_by : string)
    (page_size offset : Z) (all_results : list Row) (offsets : list Z)
    : option (QResult * list Z) :=
  match fuel with
  | O => None
  | S fuel' =>
      let offsets := offsets ++ [offset] in
      match ledger (paginated_query sql_query order_by offset page_size) 0 with
      | QError error details => Some (QError error details, offsets)
      | QOther => Some (QError unexpected_result_type None, offsets)
      | QRows result =>
          let rows_returned := Z.of_nat (length result) in
          let all_results := all_results ++ result in
          if (rows_returned <? page_size)%Z then Some (QRows all_results, offsets)
          else
            let offset := (offset + page_size)%Z in
            if (PAGINATION_SAFETY_LIMIT <? offset)%Z
            then Some (QRows all_results, offsets)
            else
              paginate fuel' ledger sql_query order_by page_size offset
                all_results offsets
      end
  end.

(** [query_netsuite_paginated(sql_query, page_size=..., order_by=...)]: the
    result and the offsets requested.  The fuel covers every offset up to
    the safety limit; with a page size below 1 the source's loop need not
    end, and the result is then [None]. *)
Definition query_netsuite_paginated (ledger : Ledger) (sql_query : string)
    (page_size : Z) (order_by : string) : option (QResult * list Z) :=
  let page_size := Z.min page_size 1000 in
  paginate (S (Z.to_nat (PAGINATION_SAFETY_LIMIT / page_size))) ledger sql_query
    order_by page_size 0 [] [].

(** ** Quarterly chunks (server.py, generate_quarterly_chunks) *)

(** The digits of [int(s)]: decimal digits with single underscores
    between them; [prev_digit] tells whether the last character read was
    a digit. *)
Fixpoint int_digits (s : string) (acc : N) (prev_digit : bool) : option N :=
  match s with
  | EmptyString => if prev_digit then Some acc else None
  | String c s' =>
      if is_digit c
      then int_digits s' (10 * acc + (N_of_ascii c - 48))%N true
      else if Ascii.eqb c "_"%char
      then (if prev_digit then int_digits s' acc false else None)
      else None
  end.

(** [int(s)] on ASCII text: surrounding whitespace is dropped, then an
    optional sign and the digits are read; [None] where Python raises
    [ValueError].  Integers are unbounded, as in Python.  The interpreter
    may refuse to read or print an integer of very many digits (more than
    4300 by default, and never fewer than 640): that limit is not
    modelled, and a property that reads or prints a year assumes a text
    too short to reach it. *)
Definition py_int (s : string) : option Z :=
  match strip s with
  | String "+" s' => Z.of_N <$> int_digits s' 0%N false
  | String "-" s' => (λ n, - Z.of_N n)%Z <$> int_digits s' 0%N false
  | s' => Z.of_N <$> int_digits s' 0%N false
  end.

Definition month_map : list (string * Z) :=
  [("jan", 1); ("feb", 2); ("mar", 3); ("apr", 4); ("may", 5); ("jun", 6);
   ("jul", 7); ("aug", 8); ("sep", 9); ("oct", 10); ("nov", 11); ("dec", 12)]%Z.

Definition month_names : list string :=
  [""; "Jan"; "Feb"; "Mar"; "Apr"; "May"; "Jun";
   "Jul"; "Aug"; "Sep"; "Oct"; "Nov"; "Dec"].

(** [f"{month_names[month]} {year}"] for a month between 1 and 12. *)
Definition chunk_period (month year : Z) : string :=
  default "" (month_names !! Z.to_nat month) +:+ " " +:+ pretty year.

(** The [while] loop over quarters.  It runs at most 21 times, the
    iteration that appends the 21st chunk ending it, so [fuel] starts at
    21 and is never used up. *)
Fixpoint chunk_loop (fuel : nat) (current_month current_year to_month to_year : Z)
    (chunks : list (string * string)) : list (string * string) :=
  match fuel with
  | O => chunks
  | S fuel' =>
      if ((current_year <? to_year)
          || ((current_year =? to_year) && (current_month <=? to_month)))%Z
      then
        let chunk_end_month := Z.min (current_month + 2) 12 in
        let chunk_end_year := current_year in
        let '(chunk_end_month, chunk_end_year) :=
          if ((to_year <? chunk_end_year)
              || ((chunk_end_year =? to_year) && (to_month <? chunk_end_month)))%Z
          then (to_month, to_year)
          else (chunk_end_month, chunk_end_year) in
        let chunk_from := chunk_period current_month current_year in
        let chunk_to := chunk_period chunk_end_month chunk_end_year in
        let chunks := chunks ++ [(chunk_from, chunk_to)] in
        let current_month := (chunk_end_month + 1)%Z in
        let '(current_month, current_year) :=
          if (12 <? current_month)%Z then (1%Z, (current_year + 1)%Z)
          else (current_month, current_year) in
        if 20 <? length chunks then chunks
        else chunk_loop fuel' current_month current_year to_month to_year chunks
      else chunks
  end.

(** [generate_quarterly_chunks(from_period, to_period)]. *)
Definition generate_quarterly_chunks (from_period to_period : string)
    : list (string * string) :=
  match split from_period, split to_period with
  | [from_name; from_year_text], [to_name; to_year_text] =>
      let from_month := ODict.lookup (String.substring 0 3 (lower from_name)) month_map in
      match py_int from_year_text with
      | None => [(from_period, to_period)]
      | Some from_year =>
          let to_month := ODict.lookup (String.substring 0 3 (lower to_name)) month_map in
          match py_int to_year_text with
          | None => [(from_period, to_period)]
          | Some to_year =>
              match from_month, to_month with
              | Some from_month, Some to_month =>
                  match chunk_loop 21 from_month from_year to_month to_year [] with
                  | [] => [(from_period, to_period)]
                  | chunks => chunks
                  end
              | _, _ => [(from_period, to_period)]
              end
          end
      end
  | _, _ => [(from_period, to_period)]
  end.

(** ** Vocabulary of the properties *)

(** The identifier and the parent the hierarchy loop reads off a row. *)
Definition row_id (row : Row) : string := fst (hierarchy_row row).
Definition row_parent (row : Row) : option string :=
  sub_parent (snd (hierarchy_row row)).

(** Every memoised hierarchy contains the subsidiary it was computed for. *)
Definition memo_sound (cache : gmap string (list string)) : Prop :=
  ∀ k ids, cache !! k = Some ids → k ∈ ids.

(** The statement submitted under [name]. *)
Definition statement (queries : list (string * Sql)) (name : string) : Sql :=
  default (SelectOther "") (ODict.lookup name queries).

(** Run through the retry loop, [sql] ends with a list whose first row
    holds [v] in its [value] column. *)
Definition yields (ledger : Ledger) (sql : Sql) (v : float) : Prop :=
  ∃ row rest,
    fst (retry_loop ledger sql MAX_RETRIES 0 None []) = Some (QRows (row :: rest))
    ∧ get row "value" = CNum v.


Definition is_executed (e : Event) : bool :=
  match e with Executed _ _ => true | Slept _ => false end.

Definition waits (trace : list Event) : list Z :=
  omap (λ e, match e with Slept s => Some s | Executed _ _ => None end) trace.

(** The sign table of §4.3 of the specification: the multiplier it
    prescribes for each account category. *)
Definition spec_sign_table (accttype : string) : option Z :=
  if mem accttype ["Income"; "OthIncome"] then Some (-1)%Z
  else if mem accttype ["COGS"; "Cost of Goods Sold"; "Expense"; "OthExpense"]
  then Some 1%Z
  else if mem accttype AccountType.BS_ASSET_TYPES then Some 1%Z
  else if mem accttype AccountType.BS_LIABILITY_TYPES then Some (-1)%Z
  else if mem accttype AccountType.BS_EQUITY_TYPES then Some (-1)%Z
  else None.

(** The request with its start period blanked. *)
Definition without_from_period (req : BalanceRequest) : BalanceRequest :=
  {| bal_account := bal_account req;
     bal_subsidiary := bal_subsidiary req;
     bal_from_period := "";
     bal_to_period := bal_to_period req;
     bal_class := bal_class req;
     bal_department := bal_department req;
     bal_location := bal_location req;
     bal_accounting_book := bal_accounting_book req |}.



(** The amount the body reports for an account and a period. *)
Definition reported (b : Balances) (account period : string) : option float :=
  ODict.lookup account b ≫= ODict.lookup period.

(** The start and end period of a single-balance request after the
    year-only expansion. *)
Definition requested_from (req : BalanceRequest) : string :=
  if is_year_only (bal_from_period req)
  then fst (expand_year_to_periods (bal_from_period req))
  else bal_from_period req.

Definition requested_to (req : BalanceRequest) : string :=
  if is_year_only (bal_to_period req)
  then snd (expand_year_to_periods (bal_to_period req))
  else bal_to_period req.

(** The start period the handler goes on with once the account is
    classified. *)
Definition effective_from (is_bs_account : bool) (req : BalanceRequest) : string :=
  if is_bs_account && nonempty (requested_from req) && nonempty (requested_to req)
  then "" else requested_from req.

(** The handler's rounding of a running total: an amount whose absolute
    value is below 0.01 becomes 0. *)
Definition snap_small (cumulative : float) : float :=
  if PrimFloat.ltb (PrimFloat.abs cumulative) 0.01%float then 0%float
  else cumulative.

(** The running total over [periods]: from [start], each period's
    activity is added in order and the sum is rounded by [snap_small]
    after every period. *)
Definition running_total (start : float) (activity : string → float)
    (periods : list string) : float :=
  fold_left (λ cumulative period, snap_small (cumulative + activity period)%float)
    periods start.

(** The activity recorded for a period, 0 where none is. *)
Definition activity_in (activity_by_period : list (string * float))
    (period : string) : float :=
  default 0%float (ODict.lookup period activity_by_period).

(** The period names of [months] in a fiscal year. *)
Definition periods_of (fiscal_year : Z) (months : list string) : list string :=
  map (λ month_abbrev, period_of month_abbrev fiscal_year) months.

(** [bs_activity_data] as the handler reads it off an activity reply,
    when no row raises. *)
Definition activity_data `{DateLib} (fh : string) (bs_items : list Row)
    : option Balances :=
  match store_activity_rows fh bs_items (∅, [], [], ∅) with
  | ((_, bs_activity_data, _, _), None) => Some bs_activity_data
  | (_, Some _) => None
  end.

(** The subsidiary id, consolidation target, [filters] dictionary and
    filter fingerprint a refresh request resolves to. *)
Section RefreshVocabulary.
Context `{Lookups}.
Variable default_subsidiary_id : option string.

Definition refresh_subsidiary (req : RefreshRequest) : string :=
  convert_name_to_id "subsidiary" (rq_subsidiary req).

Definition refresh_target_sub (req : RefreshRequest) : string :=
  if nonempty (refresh_subsidiary req) then refresh_subsidiary req
  else or_else default_subsidiary_id "1".

Definition refresh_filters (req : RefreshRequest) : Filters :=
  {| flt_subsidiary := refresh_subsidiary req;
     flt_use_hierarchy :=
       nonempty (refresh_subsidiary req)
       && should_use_consolidated (rq_subsidiary req) (refresh_subsidiary req);
     flt_class := convert_name_to_id "class" (rq_class req);
     flt_department := convert_name_to_id "department" (rq_department req);
     flt_location := convert_name_to_id "location" (rq_location req) |}.

Definition refresh_fingerprint (req : RefreshRequest) : string :=
  filters_hash (refresh_subsidiary req)
    (convert_name_to_id "department" (rq_department req))
    (convert_name_to_id "location" (rq_location req))
    (convert_name_to_id "class" (rq_class req)).
End RefreshVocabulary.

(** A balance-cache key written by a refresh of [fiscal_year] under the
    fingerprint [fh]: some account, and a month of that year. *)
Definition own_key (fiscal_year : Z) (fh k : string) : Prop :=
  ∃ account month_abbrev,
    month_abbrev ∈ month_order
    ∧ k = cache_key account (period_of month_abbrev fiscal_year) fh.

(** A period name of [fiscal_year]. *)
Definition year_period (fiscal_year : Z) (p : string) : Prop :=
  ∃ month_abbrev, month_abbrev ∈ month_order ∧ p = period_of month_abbrev fiscal_year.

(** A period name of [fiscal_year]. *)
(** Every period of [b] is one of [fiscal_year]. *)
Definition year_periods (fiscal_year : Z) (b : Balances) : Prop :=
  ∀ account periods_data, (account, periods_data) ∈ b →
    ∀ p, p ∈ ODict.keys periods_data → year_period fiscal_year p.

(** A balance-cache key written by a refresh of [fiscal_year] under the
    fingerprint [fh]: some account, and a month of that year. *)
(** Every key of [cache] is the refresh's own. *)
Definition own_keys (fiscal_year : Z) (fh : string) (cache : gmap string float) : Prop :=
  ∀ k, is_Some (cache !! k) → own_key fiscal_year fh k.

(** The events of [k] rate-limited executions starting at [attempt]: each
    execution followed by its sleep. *)
Fixpoint throttled_events (sql : Sql) (attempt k : nat) : list Event :=
  match k with
  | 0 => []
  | S k' =>
      [Executed sql attempt; Slept ((Z.of_nat attempt + 1) * 2)%Z]
      ++ throttled_events sql (S attempt) k'
  end.

(** [child] is listed under [parent] in the parent-to-children map. *)
Definition child_of (children_map : gmap string (list string))
    (parent child : string) : Prop :=
  ∃ children, children_map !! parent = Some children ∧ child ∈ children.

(** The reply does not list [target_id] as a root: the last row that
    carries its id, if any, has a parent. *)
Definition not_root (result : list Row) (target_id : string) : Prop :=
  ∀ info, ODict.lookup target_id (fst (hierarchy_maps result)) = Some info →
    sub_parent info ≠ None.

(** What the [while to_process] loop keeps true of [hierarchy_ids] and
    [to_process]: no duplicates, everything queued is listed, everything
    listed is reachable from the target, and whatever is listed and no
    longer queued has all its children listed. *)
Definition traversal_inv (children_map : gmap string (list string))
    (target_id : string) (h q : list string) : Prop :=
  NoDup h
  ∧ (∀ x, x ∈ q → x ∈ h)
  ∧ (∀ x, x ∈ h → rtc (child_of children_map) target_id x)
  ∧ (∀ x, x ∈ h → x ∈ q ∨ ∀ c, child_of children_map x c → c ∈ h).

(** The text a SQL string literal with body [s] denotes: two quotes read
    as one, and a quote on its own ends the literal too early ([None]). *)
Fixpoint sql_literal_text (s : string) : option string :=
  match s with
  | EmptyString => Some EmptyString
  | String c s' =>
      if Ascii.eqb c "'"%char then
        match s' with
        | String c' s'' =>
            if Ascii.eqb c' "'"%char
            then String "'"%char <$> sql_literal_text s''
            else None
        | EmptyString => None
        end
      else String c <$> sql_literal_text s'
  end.

(** A chunk as numbers: first month and year, last month and year. *)
Definition Range : Type := (Z * Z) * (Z * Z).

(** Months counted from year 0. *)
Definition month_index (my : Z * Z) : Z := 12 * snd my + fst my.

Definition format_range (r : Range) : string * string :=
  (chunk_period (fst (fst r)) (snd (fst r)),
   chunk_period (fst (snd r)) (snd (snd r))).

(** The loop of [generate_quarterly_chunks] with the chunks kept as
    numbers; [count] is the number of chunks appended before. *)
Fixpoint chunk_ranges (fuel count : nat)
    (current_month current_year to_month to_year : Z) : list Range :=
  match fuel with
  | O => []
  | S fuel' =>
      if ((current_year <? to_year)
          || ((current_year =? to_year) && (current_month <=? to_month)))%Z
      then
        let chunk_end_month := Z.min (current_month + 2) 12 in
        let '(chunk_end_month, chunk_end_year) :=
          if ((to_year <? current_year)
              || ((current_year =? to_year) && (to_month <? chunk_end_month)))%Z
          then (to_month, to_year)
          else (chunk_end_month, current_year) in
        let r : Range :=
          ((current_month, current_year), (chunk_end_month, chunk_end_year)) in
        let '(next_month, next_year) :=
          if (12 <? chunk_end_month + 1)%Z then (1%Z, (current_year + 1)%Z)
          else ((chunk_end_month + 1)%Z, current_year) in
        if 20 <? S count then [r]
        else r :: chunk_ranges fuel' (S count) next_month next_year to_month to_year
      else []
  end.

(** A chunk that starts at month [start], lies within one calendar year
    and spans one to three months. *)
Definition chunk_ok (start : Z) (r : Range) : Prop :=
  month_index (fst r) = start
  ∧ snd (fst r) = snd (snd r)
  ∧ (1 ≤ fst (fst r) ≤ fst (snd r))%Z
  ∧ (fst (snd r) ≤ 12)%Z
  ∧ (fst (snd r) ≤ fst (fst r) + 2)%Z.

(** Chunks that follow one another without gap or overlap from [start]. *)
Fixpoint chained (start : Z) (rs : list Range) : Prop :=
  match rs with
  | [] => True
  | r :: rs' => chunk_ok start r ∧ chained (month_index (snd r) + 1) rs'
  end.

(** The month after the last chunk. *)
Definition next_start (start : Z) (rs : list Range) : Z :=
  fold_left (λ _ r, month_index (snd r) + 1)%Z rs start.

(** The month and year that [generate_quarterly_chunks] reads from a
    period, [None] where it gives up: not two words, a first word whose
    first three letters name no month, or a second word that is no
    integer. *)
Definition parse_period (period : string) : option (Z * Z) :=
  match split period with
  | [name; year_text] =>
      month ← ODict.lookup (String.substring 0 3 (lower name)) month_map;
      year ← py_int year_text;
      Some (month, year)
  | _ => None
  end.

(** The account number and the account type that the classification
    loop reads from a row of the type reply. *)
Definition row_account (row : Row) : string := str (get row "acctnumber").

Definition row_type (row : Row) : string := get_str row "accttype".

(** The request with each period that is a year replaced by the month
    the handler reads it as: January for the first period, December for
    the second. *)
Definition expand_periods (req : BalanceRequest) : BalanceRequest :=
  {| bal_account := bal_account req;
     bal_subsidiary := bal_subsidiary req;
     bal_from_period :=
       if is_year_only (bal_from_period req)
       then "Jan " +:+ bal_from_period req else bal_from_period req;
     bal_to_period :=
       if is_year_only (bal_to_period req)
       then "Dec " +:+ bal_to_period req else bal_to_period req;
     bal_class := bal_class req;
     bal_department := bal_department req;
     bal_location := bal_location req;
     bal_accounting_book := bal_accounting_book req |}.

(** The ten decimal digits and the texts of four of them. *)
Definition digit_chars : list ascii :=
  ["0"; "1"; "2"; "3"; "4"; "5"; "6"; "7"; "8"; "9"]%char.

Definition four_digit_texts : list string :=
  a ← digit_chars; b ← digit_chars; c ← digit_chars; d ← digit_chars;
  [String a (String b (String c (String d EmptyString)))].


(** A key of the BS activity cache written under the fingerprint [fh]. *)
Definition own_activity_key (fh k : string) : Prop :=
  ∃ account period_name, k = activity_cache_key account period_name fh.


(** [ledger'] answers the statement [sql] with no rows and every other
    statement as [ledger] does. *)
Definition answers_empty_instead (ledger ledger' : Ledger) (sql : Sql) : Prop :=
  ∀ s, (∀ k, ledger' s k = ledger s k) ∨ (s = sql ∧ ∀ k, ledger' s k = QRows []).

(** The conjuncts of a WHERE clause that bound the selected transactions
    in time, from below or from above, in the order they are written. *)
Definition period_bounds (where_clauses : list cond) : list cond :=
  filter (λ c, is_lower_bound c || is_upper_bound c = true) where_clauses.

(** A cell that a reply fills: account, period and amount. *)
Definition Filled : Type := string * string * float.






(** [cells] stored one after the other. *)
Definition store_cells (cells : list Filled) (b : Balances) : Balances :=
  fold_left (λ b '(a, p, v), set_balance b a p v) cells b.



(** ** Sample data *)

Definition sample_subsidiary (id : string) (parent : Cell) (elim : string) : Row :=
  <["id" := CStr id]> (<["parent" := parent]> (<["iselimination" := CStr elim]> ∅)).

(** A parent company [1] with subsidiary [2], its child [3] and an
    elimination entity [4] under [1]. *)
Definition sample_subsidiaries : list Row :=
  [ sample_subsidiary "1" CNull "F";
    sample_subsidiary "2" (CStr "1") "F";
    sample_subsidiary "3" (CStr "2") "F";
    sample_subsidiary "4" (CStr "1") "T" ].

Definition value_row (v : float) : Row := <["value" := CNum v]> ∅.

Definition type_row (acctnumber accttype : string) : Row :=
  <["acctnumber" := CStr acctnumber]> (<["accttype" := CStr accttype]> ∅).

Definition first_cond_types (q : balance_query) : list string :=
  match bq_where q with
  | _ :: _ :: AcctTypeIn tys :: _ => tys
  | _ :: _ :: AcctTypeEq ty :: _ => [ty]
  | _ => []
  end.

(** A ledger that answers the hierarchy statement with
    [sample_subsidiaries] and each aggregate by the account types it
    selects: assets 1000, liabilities 400, equity 250, P&L 120 before the
    fiscal year and 80 within it, retained-earnings postings 50.  It
    knows account 1000 as a bank account, 2000 as accounts payable and
    4010 as income. *)
Definition sample_ledger : Ledger := λ sql _,
  match sql with
  | SelectSubsidiaryHierarchy => QRows sample_subsidiaries
  | SelectBalance q =>
      match first_cond_types q with
      | ["AcctRec"; _; _; _; _; _; _] => QRows [value_row 1000]
      | ["AcctPay"; _; _; _; _] => QRows [value_row 400]
      | ["Equity"] => QRows [value_row 250]
      | ["COGS"; _; _; _; _; _] =>
          if existsb (λ c, match c with ApEndLt _ => true | _ => false end) (bq_where q)
          then QRows [value_row 120] else QRows [value_row 80]
      | _ => QRows [value_row 50]
      end
  | SelectAccountTypeOf "1000" => QRows [type_row "1000" "Bank"]
  | SelectAccountTypeOf "2000" => QRows [type_row "2000" "AcctPay"]
  | SelectAccountTypeOf "4010" => QRows [type_row "4010" "Income"]
  | _ => QRows []
  end.


(** The same ledger with the liabilities aggregate coming back empty. *)
Definition sample_ledger_liabilities_empty : Ledger := λ sql k,
  match sql with
  | SelectBalance q =>
      match first_cond_types q with
      | ["AcctPay"; _; _; _; _] => QRows []
      | _ => sample_ledger sql k
      end
  | _ => sample_ledger sql k
  end.

(** A ledger that answers every execution with the concurrency error. *)
Definition throttled_ledger : Ledger := λ _ _,
  QError "NetSuite error: 429"
    (Some "CONCURRENCY_LIMIT_EXCEEDED: Request limit exceeded").

(** ['YYYY-MM'] to ['Mon YYYY'] for a two-digit month between 01 and 12. *)
Definition sample_month_to_period_name (m : string) : option string :=
  match m with
  | String a (String b (String c (String d (String "-" month)))) =>
      if isdigit month then
        match N.to_nat (int_of_digits month) with
        | 0 => None
        | S k =>
            abbrev ← ["Jan"; "Feb"; "Mar"; "Apr"; "May"; "Jun";
                      "Jul"; "Aug"; "Sep"; "Oct"; "Nov"; "Dec"] !! k;
            Some (abbrev +:+ " " +:+ String a (String b (String c (String d ""))))
        end
      else None
  | _ => None
  end.

(** A date library for data that is already in ISO form. *)
Definition sample_dates : DateLib :=
  {| to_iso_date := λ d, d;
     month_to_period_name := sample_month_to_period_name |}.

Definition sample_fy : FyInfo :=
  {| fiscal_year_id := "100"; fy_start := "2025-01-01"; fy_end := "2025-12-31";
     period_id := "103"; period_start := "2025-03-01"; period_end := "2025-03-31" |}.

(** Lookups that take identifiers as they come and know one period,
    Jan 2025, with id 101. *)
Definition sample_lookups : Lookups :=
  {| convert_name_to_id := λ _ value, value;
     get_period_dates_from_name := λ period_name,
       if String.eqb period_name "Jan 2025"
       then (Some "1/1/2025", Some "1/31/2025", Some "101")
       else (None, None, None);
     calculate_period_end_date := λ _, None |}.

Definition sample_balance_request (account from_period to_period : string)
    : BalanceRequest :=
  {| bal_account := account; bal_subsidiary := "";
     bal_from_period := from_period; bal_to_period := to_period;
     bal_class := ""; bal_department := ""; bal_location := "";
     bal_accounting_book := "" |}.

Definition pl_row (acctnumber periodname : string) (balance : float) : Row :=
  <["acctnumber" := CStr acctnumber]>
    (<["periodname" := CStr periodname]> (<["balance" := CNum balance]> ∅)).

Definition bs_row (acctnumber : string) (balance : float) : Row :=
  <["acctnumber" := CStr acctnumber]> (<["balance" := CNum balance]> ∅).

(** A ledger for batch requests: income account 4010 with 12,400,000 in
    Jan 2025 and payables account 2000 with a cumulative -500. *)
Definition batch_ledger : Ledger := λ sql _,
  match sql with
  | SelectSubsidiaryHierarchy => QRows sample_subsidiaries
  | SelectAccountTypes _ _ =>
      QRows [type_row "4010" "Income"; type_row "2000" "AcctPay"]
  | SelectBalance q =>
      if bq_period_join q then QRows [pl_row "4010" "Jan 2025" 12400000]
      else QRows [bs_row "2000" (-500)]
  | _ => QRows []
  end.


Definition sample_batch_request (periods : list string) : BatchRequest :=
  {| req_accounts := ["4010"; "2000"]; req_periods := periods;
     req_subsidiary := ""; req_class := ""; req_department := "";
     req_location := ""; req_accountingbook := "1" |}.

(** A balance cache filled for Jan 2025 only, stamped at time 0. *)
Definition sample_balance_cache : gmap string float :=
  <["4010:Jan 2025::::" := 12400000%float]>
    (<["2000:Jan 2025::::" := (-500)%float]> ∅).

(** A builder for a module that binds one: the activity statement of
    the sample refresh. *)
Definition sample_bs_builder : Z → string → Filters → Sql :=
  λ _ _ _, SelectOther "full-year balance-sheet activity".

Definition pivot_row (account_number account_type : string) (jan feb : float)
    : Row :=
  <["account_number" := CStr account_number]>
    (<["account_type" := CStr account_type]>
       (<["jan" := CNum jan]> (<["feb" := CNum feb]> ∅))).

Definition activity_row (account_number month : string) (amount : float) : Row :=
  <["account_number" := CStr account_number]>
    (<["account_type" := CStr "Bank"]>
       (<["month" := CStr month]> (<["amount" := CNum amount]> ∅))).

(** A ledger for full-year refreshes: income account 4010 with 100 in
    January and 200 in February; bank account 1000 that closed the prior
    year at 100, lost 99.9921875 in January and gained 50 in February. *)
Definition refresh_ledger : Ledger := λ sql _,
  match sql with
  | SelectSubsidiaryHierarchy => QRows sample_subsidiaries
  | SelectPivotedYear _ => QRows [pivot_row "4010" "Income" 100 200]
  | SelectOther "full-year balance-sheet activity" =>
      QRows [activity_row "1000" "2025-01" (-99.9921875);
             activity_row "1000" "2025-02" 50]
  | SelectBalance _ => QRows [bs_row "1000" 100]
  | _ => QRows []
  end.

(** The same ledger with the pivoted statement failing. *)
Definition refresh_ledger_pl_down : Ledger := λ sql k,
  match sql with
  | SelectPivotedYear _ => QError "NetSuite API error: 500" None
  | _ => refresh_ledger sql k
  end.

Definition sample_refresh_request (skip_bs : bool) : RefreshRequest :=
  {| rq_year := 2025; rq_subsidiary := ""; rq_class := ""; rq_department := "";
     rq_location := ""; rq_skip_bs := skip_bs; rq_accountingbook := "1" |}.

(** Caches left by an earlier refresh for 2024 under subsidiary 7. *)
Definition sample_old_caches : Caches :=
  {| balance_cache := {[ "9999:Jan 2024:7:::" := 1%float ]};
     balance_cache_timestamp := Some 0%Z;
     bs_activity_cache := {[ "activity:9999:Jan 2024:7:::" := 1%float ]};
     bs_activity_cache_timestamp := Some 0%Z;
     bs_account_set := {[ "9999" ]} |}.

(** A ledger that is throttled once and then answers. *)
Definition throttled_once_ledger : Ledger := λ sql k,
  match k with
  | 0 => throttled_ledger sql k
  | _ => QRows [value_row 7]
  end.

(** A statement with five rows, served in pages of the size asked for. *)
Definition paged_rows : list Row :=
  [value_row 1; value_row 2; value_row 3; value_row 4; value_row 5].

Definition paged_ledger : Ledger := λ sql _,
  match sql with
  | SelectOther text =>
      if contains "OFFSET 0 " text then QRows (take 2 paged_rows)
      else if contains "OFFSET 2 " text then QRows (take 2 (drop 2 paged_rows))
      else if contains "OFFSET 4 " text then QRows (drop 4 paged_rows)
      else QRows []
  | _ => QRows []
  end.

(** The same statement when the third page cannot be read. *)
Definition paged_ledger_third_down : Ledger := λ sql k,
  match sql with
  | SelectOther text =>
      if contains "OFFSET 4 " text
      then QError "NetSuite error: 500" (Some "Search timed out")
      else paged_ledger sql k
  | _ => paged_ledger sql k
  end.

(** The sample ledger with the liabilities aggregate throttled at every
    execution. *)
Definition sample_ledger_liabilities_throttled : Ledger := λ sql k,
  match sql with
  | SelectBalance q =>
      match first_cond_types q with
      | ["AcctPay"; _; _; _; _] => throttled_ledger sql k
      | _ => sample_ledger sql k
      end
  | _ => sample_ledger sql k
  end.


(* ================================================================== *)
(** * Part II: properties *)
(* ================================================================== *)

(** ** Insertion-ordered dictionaries *)

Section ODictFacts.
Context {V : Type}.
Implicit Types (d : list (string * V)) (k : string) (v : V).

Lemma odict_lookup_set_eq d k v : ODict.lookup k (ODict.set k v d) = Some v.
Proof.
  induction d as [|[k' v'] d IH]; simpl.
  - by rewrite String.eqb_refl.
  - destruct (String.eqb k' k) eqn:E; simpl.
    + by rewrite String.eqb_refl.
    + by rewrite E.
Qed.

Lemma odict_lookup_set_ne d k k' v :
  k ≠ k' → ODict.lookup k' (ODict.set k v d) = ODict.lookup k' d.
Proof.
  intros Hne. induction d as [|[k0 v0] d IH]; simpl.
  - destruct (String.eqb k k') eqn:E; [|done].
    apply String.eqb_eq in E. contradiction.
  - destruct (String.eqb k0 k) eqn:E; simpl.
    + apply String.eqb_eq in E. subst k0.
      destruct (String.eqb k k') eqn:E'; [|done].
      apply String.eqb_eq in E'. contradiction.
    + by rewrite IH.
Qed.

Lemma odict_keys_set_same d k v : k ∈ ODict.keys (ODict.set k v d).
Proof.
  unfold ODict.keys. induction d as [|[k' v'] d IH]; simpl.
  - apply list_elem_of_here.
  - destruct (String.eqb k' k); simpl.
    + apply list_elem_of_here.
    + by apply list_elem_of_further.
Qed.

Lemma odict_keys_set_mono d k k' v :
  k' ∈ ODict.keys d → k' ∈ ODict.keys (ODict.set k v d).
Proof.
  unfold ODict.keys. induction d as [|[k0 v0] d IH]; simpl.
  - by intros ?%elem_of_nil.
  - destruct (String.eqb k0 k) eqn:E; simpl.
    + apply String.eqb_eq in E. subst k0.
      intros [->|?]%elem_of_cons; [apply list_elem_of_here|].
      by apply list_elem_of_further.
    + intros [->|?]%elem_of_cons; [apply list_elem_of_here|].
      apply list_elem_of_further. by apply IH.
Qed.

Lemma odict_lookup_keys d k v : ODict.lookup k d = Some v → k ∈ ODict.keys d.
Proof.
  unfold ODict.keys. induction d as [|[k0 v0] d IH]; simpl; [done|].
  destruct (String.eqb k0 k) eqn:E.
  - apply String.eqb_eq in E. subst. intros _. apply list_elem_of_here.
  - intros ?. apply list_elem_of_further. by apply IH.
Qed.
End ODictFacts.

(** ** Subsidiary hierarchy *)

Lemma hierarchy_maps_snoc rows row :
  hierarchy_maps (rows ++ [row]) = hierarchy_step (hierarchy_maps rows) row.
Proof. unfold hierarchy_maps. by rewrite fold_left_app. Qed.

Lemma hierarchy_step_fst all_subs children_map row :
  fst (hierarchy_step (all_subs, children_map) row)
  = ODict.set (row_id row) (snd (hierarchy_row row)) all_subs.
Proof.
  unfold hierarchy_step, row_id.
  destruct (hierarchy_row row) as [sub_id info]; simpl.
  destruct (sub_parent info) as [p|]; [|done].
  by destruct (nonempty p).
Qed.

Lemma hierarchy_step_snd all_subs children_map row k cs :
  snd (hierarchy_step (all_subs, children_map) row) !! k = Some cs →
  children_map !! k = Some cs
  ∨ ∃ cs0, cs = cs0 ++ [row_id row]
           ∧ (children_map !! k = Some cs0 ∨ cs0 = []).
Proof.
  unfold hierarchy_step, row_id.
  destruct (hierarchy_row row) as [sub_id info]; simpl.
  destruct (sub_parent info) as [p|]; [|by left].
  destruct (nonempty p); [|by left]. simpl.
  destruct (decide (p = k)) as [->|Hne].
  - rewrite lookup_insert_eq. intros [= <-]. right.
    destruct (children_map !! k) as [cs0|]; simpl.
    + exists cs0. split; [done|by left].
    + exists []. split; [done|by right].
  - rewrite lookup_insert_ne; [|done]. by left.
Qed.

Lemma all_subs_contains_rows rows row :
  row ∈ rows → row_id row ∈ ODict.keys (fst (hierarchy_maps rows)).
Proof.
  induction rows as [|r rows IH] using rev_ind; [by intros ?%elem_of_nil|].
  rewrite hierarchy_maps_snoc.
  destruct (hierarchy_maps rows) as [all_subs children_map] eqn:E.
  rewrite hierarchy_step_fst. simpl in IH.
  intros [Hin|Hin%list_elem_of_singleton]%elem_of_app.
  - apply odict_keys_set_mono. by apply IH.
  - subst r. apply odict_keys_set_same.
Qed.

Lemma all_subs_root rows s :
  (∃ row, row ∈ rows ∧ row_id row = s) →
  (∀ row, row ∈ rows → row_id row = s → row_parent row = None) →
  ∃ info, ODict.lookup s (fst (hierarchy_maps rows)) = Some info
          ∧ sub_parent info = None.
Proof.
  induction rows as [|r rows IH] using rev_ind.
  - intros (row & Hin & _). by apply elem_of_nil in Hin.
  - intros (row & Hin & Hid) Hall.
    rewrite hierarchy_maps_snoc.
    destruct (hierarchy_maps rows) as [all_subs children_map] eqn:E.
    rewrite hierarchy_step_fst. simpl in IH.
    destruct (decide (row_id r = s)) as [Heq|Hne].
    + rewrite Heq, odict_lookup_set_eq. eexists; split; [done|].
      apply (Hall r); [|done]. apply elem_of_app. right.
      by apply list_elem_of_singleton.
    + rewrite odict_lookup_set_ne; [|done]. apply IH.
      * apply elem_of_app in Hin as [Hin|Hin%list_elem_of_singleton].
        -- by exists row.
        -- subst r. contradiction.
      * intros r' Hr'. apply Hall. apply elem_of_app. by left.
Qed.

Lemma children_are_rows rows k cs c :
  snd (hierarchy_maps rows) !! k = Some cs → c ∈ cs →
  ∃ row, row ∈ rows ∧ row_id row = c.
Proof.
  revert k cs c.
  induction rows as [|r rows IH] using rev_ind; intros k cs c.
  - unfold hierarchy_maps. simpl. by rewrite lookup_empty.
  - rewrite hierarchy_maps_snoc.
    destruct (hierarchy_maps rows) as [all_subs children_map] eqn:E.
    simpl in IH.
    intros [Hold|(cs0 & -> & Hcs0)]%hierarchy_step_snd Hc.
    + destruct (IH _ _ _ Hold Hc) as (row & Hin & Hid).
      exists row. split; [|done]. apply elem_of_app. by left.
    + apply elem_of_app in Hc as [Hc|Hc%list_elem_of_singleton].
      * destruct Hcs0 as [Hcs0| ->]; [|by apply elem_of_nil in Hc].
        destruct (IH _ _ _ Hcs0 Hc) as (row & Hin & Hid).
        exists row. split; [|done]. apply elem_of_app. by left.
      * exists r. split; [|done]. apply elem_of_app. right.
        by apply list_elem_of_singleton.
Qed.

(** The traversal terminates: every identifier enters [hierarchy_ids] at
    most once and all of them come from a finite universe [U]. *)
Section Descend.
Variable U : gset string.

Lemma nodup_length_le_size (h : list string) :
  NoDup h → (∀ x, x ∈ h → x ∈ U) → length h ≤ size U.
Proof.
  intros Hnd Hsub.
  rewrite <- (size_list_to_set (C := gset string) h Hnd).
  apply subseteq_size. intros x Hx%elem_of_list_to_set. by apply Hsub.
Qed.

Lemma visit_child_inv (h q : list string) (c : string) :
  NoDup h → (∀ x, x ∈ h → x ∈ U) → c ∈ U →
  ∃ h' q', visit_child (h, q) c = (h', q')
    ∧ NoDup h' ∧ (∀ x, x ∈ h' → x ∈ U)
    ∧ length h' + length q = length h + length q'
    ∧ (∀ x, x ∈ h → x ∈ h').
Proof.
  intros Hnd Hsub Hc. unfold visit_child, mem.
  case_bool_decide as Hin.
  - exists h, q. repeat split; auto.
  - exists (h ++ [c]), (q ++ [c]). repeat split.
    + apply NoDup_app. repeat split; [done| |apply NoDup_singleton].
      intros x Hx ->%list_elem_of_singleton. contradiction.
    + intros x [Hx| ->%list_elem_of_singleton]%elem_of_app; auto.
    + rewrite !length_app. simpl. lia.
    + intros x Hx. apply elem_of_app. by left.
Qed.

Lemma visit_children_inv (children h q : list string) :
  NoDup h → (∀ x, x ∈ h → x ∈ U) → (∀ c, c ∈ children → c ∈ U) →
  ∃ h' q', visit_children children (h, q) = (h', q')
    ∧ NoDup h' ∧ (∀ x, x ∈ h' → x ∈ U)
    ∧ length h' + length q = length h + length q'
    ∧ (∀ x, x ∈ h → x ∈ h').
Proof.
  revert h q. unfold visit_children.
  induction children as [|c children IH]; intros h q Hnd Hsub Hcs;
    cbn [fold_left].
  - exists h, q. repeat split; auto.
  - destruct (visit_child_inv h q c Hnd Hsub) as (h1 & q1 & E1 & Hnd1 & Hsub1 & Hlen1 & Hmono1).
    { apply Hcs. apply list_elem_of_here. }
    rewrite E1.
    destruct (IH h1 q1 Hnd1 Hsub1) as (h2 & q2 & E2 & Hnd2 & Hsub2 & Hlen2 & Hmono2).
    { intros c' Hc'. apply Hcs. by apply list_elem_of_further. }
    exists h2, q2. repeat split; auto. lia.
Qed.

Lemma descend_total (children_map : gmap string (list string)) :
  (∀ k cs c, children_map !! k = Some cs → c ∈ cs → c ∈ U) →
  ∀ fuel (h q : list string),
    NoDup h → (∀ x, x ∈ h → x ∈ U) →
    size U + length q ≤ fuel + length h →
    ∃ r, descend fuel children_map h q = Some r ∧ (∀ x, x ∈ h → x ∈ r).
Proof.
  intros Hcm fuel.
  induction fuel as [|fuel IH]; intros h q Hnd Hsub Hfuel.
  - pose proof (nodup_length_le_size h Hnd Hsub) as Hle.
    destruct q as [|c q]; simpl in *; [|lia].
    exists h. by split.
  - destruct q as [|current q]; simpl in *.
    { exists h. by split. }
    destruct (children_map !! current) as [children|] eqn:Ecur.
    + destruct (visit_children_inv children h q Hnd Hsub)
        as (h' & q' & E & Hnd' & Hsub' & Hlen & Hmono).
      { intros c Hc. by apply (Hcm current children). }
      rewrite E.
      destruct (IH h' q' Hnd' Hsub') as (r & Hr & Hin); [lia|].
      exists r. split; [done|]. auto.
    + destruct (IH h q Hnd Hsub) as (r & Hr & Hin); [lia|].
      exists r. by split.
Qed.
End Descend.

Lemma size_list_to_set_le (l : list string) :
  size (list_to_set l : gset string) ≤ length l.
Proof.
  induction l as [|x l IH].
  - rewrite list_to_set_nil, size_empty. simpl. lia.
  - rewrite list_to_set_cons, size_union_alt, size_singleton. simpl.
    assert (Hle : size (list_to_set l ∖ {[x]} : gset string)
                  ≤ size (list_to_set l : gset string)).
    { apply subseteq_size. by intros y [Hy _]%elem_of_difference. }
    lia.
Qed.

(** With one unit of fuel per row and one for the target, the body of
    the [try] always produces its list, and the target is in it. *)
Lemma hierarchy_of_rows_total (target_id : string) (result : list Row) :
  ∃ hierarchy_ids,
    hierarchy_of_rows (hierarchy_fuel result) target_id result = Some hierarchy_ids
    ∧ target_id ∈ hierarchy_ids.
Proof.
  unfold hierarchy_of_rows.
  destruct (hierarchy_maps result) as [all_subs children_map] eqn:E.
  assert (Hgen :
    ∃ r, descend (hierarchy_fuel result) children_map [target_id] [target_id] = Some r
         ∧ target_id ∈ r).
  { set (U := (list_to_set (target_id :: (row_id <$> result)) : gset string)).
    destruct (descend_total U children_map) with
      (fuel := hierarchy_fuel result) (h := [target_id]) (q := [target_id])
      as (r & Hr & Hin).
    - intros k cs c Hk Hc.
      destruct (children_are_rows result k cs c) as (row & Hrow & Hid).
      { by rewrite E. } { done. }
      subst c. apply elem_of_list_to_set, list_elem_of_further.
      by apply list_elem_of_fmap_2.
    - apply NoDup_singleton.
    - intros x ->%list_elem_of_singleton.
      apply elem_of_list_to_set, list_elem_of_here.
    - unfold hierarchy_fuel.
      pose proof (size_list_to_set_le (target_id :: (row_id <$> result))) as Hle.
      cbn [length] in *. rewrite length_fmap in Hle. fold U in Hle. lia.
    - exists r. split; [done|]. apply Hin. apply list_elem_of_here. }
  destruct (ODict.lookup target_id all_subs) as [[[p|] e]|] eqn:El; try exact Hgen.
  eexists. split; [done|]. by apply odict_lookup_keys in El.
Qed.

Lemma memo_sound_empty : memo_sound ∅.
Proof. intros k ids Hk. by rewrite lookup_empty in Hk. Qed.

Lemma memo_sound_insert cache k ids :
  memo_sound cache → k ∈ ids → memo_sound (<[k := ids]> cache).
Proof.
  intros Hc Hk k' ids'. destruct (decide (k = k')) as [->|Hne].
  - rewrite lookup_insert_eq. by intros [= <-].
  - rewrite lookup_insert_ne; [|done]. apply Hc.
Qed.

(** The lookup never fails to return, whatever the ledger replies. *)
Lemma get_subsidiaries_in_hierarchy_total ledger cache s :
  ∃ ids cache', get_subsidiaries_in_hierarchy ledger cache s = Some (ids, cache').
Proof.
  unfold get_subsidiaries_in_hierarchy.
  destruct (cache !! s); [eauto|].
  destruct (ledger SelectSubsidiaryHierarchy 0); [|eauto..].
  destruct (hierarchy_of_rows_total s items) as (ids & -> & _). eauto.
Qed.

(** C8. For every subsidiary id [s] and every sound memo, hierarchy
    resolution returns a list that contains [s] and leaves the memo sound;
    on a memo miss, when the reply lists [s] with a null parent in every
    row that carries its id, the list contains the id of every row of the
    reply (all active subsidiaries, elimination entities included); and
    on a memo miss, when the reply is not a list, the result is exactly
    [[s]] and nothing is memoised. *)
Theorem hierarchy_resolution (ledger : Ledger)
    (cache : gmap string (list string)) (s : string) :
  memo_sound cache →
  ∃ ids cache',
    get_subsidiaries_in_hierarchy ledger cache s = Some (ids, cache')
    ∧ s ∈ ids
    ∧ memo_sound cache'
    ∧ (∀ rows,
         cache !! s = None →
         ledger SelectSubsidiaryHierarchy 0 = QRows rows →
         (∃ row, row ∈ rows ∧ row_id row = s) →
         (∀ row, row ∈ rows → row_id row = s → row_parent row = None) →
         ∀ row, row ∈ rows → row_id row ∈ ids)
    ∧ (cache !! s = None →
       is_list (ledger SelectSubsidiaryHierarchy 0) = false →
       ids = [s] ∧ cache' = cache).
Proof.
  intros Hsound. unfold get_subsidiaries_in_hierarchy.
  destruct (cache !! s) as [cached|] eqn:Ecache.
  { exists cached, cache. repeat split; eauto; intros; discriminate. }
  destruct (ledger SelectSubsidiaryHierarchy 0) as [result|e d|] eqn:Eledger.
  - destruct (hierarchy_of_rows_total s result) as (ids & Hids & Hin).
    rewrite Hids. exists ids, (<[s := ids]> cache).
    split; [done|]. split; [done|].
    split; [by apply memo_sound_insert|]. split; [|intros; discriminate].
    intros rows _ [= <-] Hex Hroot row Hrow.
    destruct (all_subs_root result s Hex Hroot) as (info & Hlook & Hnone).
    unfold hierarchy_of_rows in Hids.
    destruct (hierarchy_maps result) as [all_subs children_map] eqn:E.
    simpl in Hlook. rewrite Hlook in Hids.
    destruct info as [p e]. simpl in Hnone. subst p.
    injection Hids as <-.
    pose proof (all_subs_contains_rows result row Hrow) as Hk.
    by rewrite E in Hk.
  - exists [s], cache. repeat split; auto; try discriminate.
    apply list_elem_of_here.
  - exists [s], cache. repeat split; auto; try discriminate.
    apply list_elem_of_here.
Qed.

Example hierarchy_of_root :
  fst <$> get_subsidiaries_in_hierarchy sample_ledger ∅ "1"
  = Some ["1"; "2"; "3"; "4"].
Proof. vm_compute. reflexivity. Qed.

Example hierarchy_of_child :
  fst <$> get_subsidiaries_in_hierarchy sample_ledger ∅ "2" = Some ["2"; "3"].
Proof. vm_compute. reflexivity. Qed.

Lemma hierarchy_resolution_witness :
  memo_sound ∅
  ∧ ∃ ids cache',
      get_subsidiaries_in_hierarchy sample_ledger ∅ "1" = Some (ids, cache')
      ∧ "1" ∈ ids
      ∧ memo_sound cache'
      ∧ (∀ rows,
           (∅ : gmap string (list string)) !! "1" = None →
           sample_ledger SelectSubsidiaryHierarchy 0 = QRows rows →
           (∃ row, row ∈ rows ∧ row_id row = "1") →
           (∀ row, row ∈ rows → row_id row = "1" → row_parent row = None) →
           ∀ row, row ∈ rows → row_id row ∈ ids)
      ∧ ((∅ : gmap string (list string)) !! "1" = None →
         is_list (sample_ledger SelectSubsidiaryHierarchy 0) = false →
         ids = ["1"] ∧ cache' = ∅).
Proof.
  split.
  - intros k ids Hk. rewrite lookup_empty in Hk. discriminate.
  - apply (hierarchy_resolution sample_ledger ∅ "1").
    intros k ids Hk. rewrite lookup_empty in Hk. discriminate.
Defined.

(** ** Rate-limit retry *)

Lemma rate_limited_is_error r : rate_limited r = true → is_error r = true.
Proof. by destruct r. Qed.

(** Whatever the ledger replies, the loop executes the statement at most
    [remaining] times. *)
Lemma retry_loop_bounded ledger sql remaining attempt result trace :
  length (filter is_executed (snd (retry_loop ledger sql remaining attempt result trace)))
  ≤ length (filter is_executed trace) + remaining.
Proof.
  revert attempt result trace.
  induction remaining as [|n IH]; intros attempt result trace; simpl; [lia|].
  destruct (rate_limited (ledger sql attempt)).
  - etrans; [apply IH|].
    rewrite !filter_app, !length_app. simpl. lia.
  - simpl. rewrite filter_app, length_app. simpl. lia.
Qed.

Lemma query_with_retry_bounded ledger name sql :
  length (filter is_executed (snd (query_with_retry ledger name sql MAX_RETRIES))) ≤ 3.
Proof. apply (retry_loop_bounded ledger sql MAX_RETRIES 0 None []). Qed.

(** ** Derived metrics *)

Section DerivedFacts.
Context `{DateLib}.
Variable ledger : Ledger.
Variable default_subsidiary_id : option string.

Lemma read_component_yields name sql v :
  yields ledger sql v →
  read_component name (fst (retry_loop ledger sql MAX_RETRIES 0 None []))
  = (Some v, []).
Proof.
  intros (row & rest & -> & Hv). unfold read_component. by rewrite Hv.
Qed.


Lemma cta_collect_yields results query_errors name sql v :
  yields ledger sql v →
  cta_collect ledger (results, query_errors) (name, sql)
  = (<[name := v]> results, query_errors).
Proof.
  intros Hy. unfold cta_collect, query_with_retry.
  rewrite (read_component_yields name sql v Hy). simpl.
  by rewrite app_nil_r.
Qed.


(** C1. For every CTA request whose period is known and whose six
    component statements yield A, L, E, P, R and N, the call answers
    200 with value (A - L) - E - (P + R) - N, reports total_equity =
    A - L and retained_earnings = P + R among its components, and
    records no query error; and the Retained Earnings endpoint, on a
    request whose two statements yield P and R, answers with that same
    P + R. *)
Theorem cta_plug_formula
    (cache : gmap string (list string)) (period_name : string)
    (subsidiary : option string) (accountingbook : string) (fy : FyInfo)
    (A L E P R N : float) :
  let queries :=
    cta_request_queries default_subsidiary_id subsidiary accountingbook fy in
  yields ledger (statement queries "total_assets") A →
  yields ledger (statement queries "total_liabilities") L →
  yields ledger (statement queries "posted_equity") E →
  yields ledger (statement queries "prior_pl") P →
  yields ledger (statement queries "posted_re") R →
  yields ledger (statement queries "net_income") N →
  (∃ run,
     calculate_cta ledger default_subsidiary_id cache period_name subsidiary
       accountingbook (Some fy) = Some run
     ∧ cta_response run
       = Ok {| cta_value := (A - L - E - (P + R) - N)%float;
               cta_period := period_name;
               cta_components :=
                 {| total_assets := A;
                    total_liabilities := L;
                    total_equity := (A - L)%float;
                    posted_equity := E;
                    retained_earnings := (P + R)%float;
                    net_income := N |} |}
     ∧ cta_query_errors run = [])
  ∧ (∀ classId department location hierarchy_subs cache',
       get_subsidiaries_in_hierarchy ledger cache
         (re_target_sub default_subsidiary_id subsidiary)
       = Some (hierarchy_subs, cache') →
       let re_queries :=
         re_request_queries default_subsidiary_id hierarchy_subs subsidiary
           accountingbook classId department location fy in
       yields ledger (statement re_queries "prior_pl") P →
       yields ledger (statement re_queries "posted_re") R →
       ∃ run,
         calculate_retained_earnings ledger default_subsidiary_id cache
           period_name subsidiary accountingbook classId department location
           (Some fy) = Some run
         ∧ re_response run
           = Ok {| re_value := (P + R)%float;
                   re_period := period_name;
                   re_components :=
                     {| prior_years_pl := P; posted_re_adjustments := R |} |}
         ∧ re_query_errors run = []).
Proof.
  intros queries HA HL HE HP HR HN. split.
  - unfold calculate_cta.
    destruct (get_subsidiaries_in_hierarchy_total ledger cache
                (cta_target_sub default_subsidiary_id subsidiary))
      as (hs & cache' & ->).
    cbn [mbind option_bind].
    fold queries. revert HA HL HE HP HR HN.
    unfold queries, cta_request_queries, cta_queries, statement.
    cbn [ODict.lookup String.eqb Ascii.eqb Bool.eqb default fold_left].
    intros HA HL HE HP HR HN.
    rewrite (cta_collect_yields _ _ _ _ _ HA), (cta_collect_yields _ _ _ _ _ HL),
      (cta_collect_yields _ _ _ _ _ HE), (cta_collect_yields _ _ _ _ _ HP),
      (cta_collect_yields _ _ _ _ _ HR), (cta_collect_yields _ _ _ _ _ HN).
    eexists. split; [reflexivity|]. unfold component. simpl.
    by simplify_map_eq.
  - intros classId department location hierarchy_subs cache' Hh re_queries HP' HR'.
    unfold calculate_retained_earnings. rewrite Hh.
    cbn [mbind option_bind].
    revert HP' HR'.
    unfold re_queries, re_request_queries, statement, re_run_query,
      query_with_retry_re.
    cbn [ODict.lookup String.eqb Ascii.eqb Bool.eqb default lookup list_lookup fst snd].
    intros HP' HR'.
    rewrite (read_component_yields _ _ _ HP'), (read_component_yields _ _ _ HR').
    eexists. split; [reflexivity|]. by simpl.
Qed.

End DerivedFacts.

Ltac yields_by_computation :=
  eexists _, _; split; vm_compute; reflexivity.

Example cta_of_sample :
  cta_response <$> calculate_cta (H := sample_dates) sample_ledger (Some "1") ∅
    "Mar 2025" None "1" (Some sample_fy)
  = Some (Ok {| cta_value := 100;
                cta_period := "Mar 2025";
                cta_components :=
                  {| total_assets := 1000; total_liabilities := 400;
                     total_equity := 600; posted_equity := 250;
                     retained_earnings := 170; net_income := 80 |} |}).
Proof. vm_compute. reflexivity. Qed.

Lemma cta_plug_formula_witness :
  ∃ run,
    calculate_cta (H := sample_dates) sample_ledger (Some "1") ∅ "Mar 2025" None
      "1" (Some sample_fy) = Some run
    ∧ cta_response run
      = Ok {| cta_value := (1000 - 400 - 250 - (120 + 50) - 80)%float;
              cta_period := "Mar 2025";
              cta_components :=
                {| total_assets := 1000; total_liabilities := 400;
                   total_equity := (1000 - 400)%float; posted_equity := 250;
                   retained_earnings := (120 + 50)%float; net_income := 80 |} |}
    ∧ cta_query_errors run = [].
Proof.
  apply (cta_plug_formula (H := sample_dates) sample_ledger (Some "1") ∅
           "Mar 2025" None "1" sample_fy 1000 400 250 120 50 80);
    yields_by_computation.
Defined.

(** ** Statement builders: signs, consolidation period, date bounds *)

Lemma nonempty_false s : nonempty s = false → s = "".
Proof.
  unfold nonempty. destruct (String.eqb s "") eqn:E; [|done].
  intros _. by apply String.eqb_eq.
Qed.

Lemma existsb_app_false {A} (f : A → bool) (l1 l2 : list A) :
  existsb f l1 = false → existsb f l2 = false → existsb f (l1 ++ l2) = false.
Proof. intros H1 H2. by rewrite existsb_app, H1, H2. Qed.

(** The P&L builder follows the table for every P&L type and has no
    second, [Matching%] factor: its multiplier is the single [CASE]. *)
Lemma build_pl_query_sign accounts periods base_where target_sub join book t :
  mem t AccountType.PL_TYPES = true →
  Some (sign_multiplier
          (bq_sign (build_pl_query accounts periods base_where target_sub join book)) t)
  = spec_sign_table t.
Proof.
  unfold mem. intros Ht%bool_decide_eq_true.
  unfold AccountType.PL_TYPES in Ht.
  repeat (apply elem_of_cons in Ht as [->|Ht]; [vm_compute; reflexivity|]).
  by apply elem_of_nil in Ht.
Qed.

(** The multi-period Balance-Sheet builder flips liabilities and equity. *)
Lemma bs_multi_period_sign target_sub alias t :
  mem t AccountType.BS_TYPES = true →
  Some (sign_multiplier (snd (bs_multi_period_column target_sub alias)) t)
  = spec_sign_table t.
Proof.
  unfold mem. intros Ht%bool_decide_eq_true.
  unfold AccountType.BS_TYPES, AccountType.BS_ASSET_TYPES,
    AccountType.BS_LIABILITY_TYPES, AccountType.BS_EQUITY_TYPES in Ht.
  simpl in Ht.
  repeat (apply elem_of_cons in Ht as [->|Ht]; [vm_compute; reflexivity|]).
  by apply elem_of_nil in Ht.
Qed.

(** C2 (divergence). Whatever its arguments, the single-period
    Balance-Sheet builder writes no sign factor, so a liability or equity
    line reaches the caller multiplied by +1 where the table of §4.3, the
    comments of constants.py and the multi-period builder say -1. *)
Theorem bs_single_period_sign_divergence `{DateLib} (accounts : list string)
    (period_name : string) (info : PeriodInfo) (base_where : list cond)
    (target_sub : string) (needs_line_join : bool) (accountingbook : string)
    (t : string) :
  let q := build_bs_query_single_period accounts period_name info base_where
             target_sub needs_line_join accountingbook in
  bq_sign q = NoSign
  ∧ sign_multiplier (bq_sign q) t = 1%Z
  ∧ spec_sign_table "AcctPay" = Some (-1)%Z
  ∧ spec_sign_table "Equity" = Some (-1)%Z
  ∧ AccountType.needs_sign_flip "AcctPay" = true
  ∧ sign_multiplier (snd (bs_multi_period_column target_sub "p_2025_01")) "AcctPay"
    = (-1)%Z.
Proof. repeat split. Qed.

(** C3 (divergence). Asked for the cumulative balance of bank account
    1000 through Jan 2025, the single-balance handler classifies the
    account as Balance Sheet, emits a statement without lower date bound
    and hands [t.postingperiod] to BUILTIN.CONSOLIDATE, although the
    period is known to the ledger under id 101; the batch builder, given
    the same period, hands over that id. *)
Theorem bs_balance_consolidates_at_posting_period :
  ∃ run q,
    get_balance (H := sample_dates) (H0 := sample_lookups) sample_ledger
      (Some "1") ∅ (sample_balance_request "1000" "" "Jan 2025") = Some run
    ∧ bal_is_bs run = true
    ∧ bal_query run = Some q
    ∧ has_lower_bound q = false
    ∧ consolidate_period q = Some PostingPeriod
    ∧ consolidate_period
        (build_bs_query_single_period (H := sample_dates) ["1000"] "Jan 2025"
           {| info_enddate := "1/31/2025"; info_id := Some "101" |} [] "1" true "1")
      = Some (FixedPeriod "101").
Proof. eexists _, _. vm_compute. repeat split. Qed.

Section SingleBalanceFacts.
Context `{DateLib} `{Lookups}.
Variable ledger : Ledger.
Variable default_subsidiary_id : option string.

Lemma requested_to_nonempty req :
  nonempty (bal_to_period req) = true → nonempty (requested_to req) = true.
Proof.
  unfold requested_to. intros Hto. by destruct (is_year_only (bal_to_period req)).
Qed.

Lemma optional_clause_no_bound (b : bool) (c : cond) :
  is_lower_bound c = false →
  existsb is_lower_bound (if b then [c] else []) = false.
Proof. intros Hc. destruct b; simpl; by rewrite ?Hc. Qed.

(** The shape of what the handler emits: the classification is the one
    of the detection block and the only conjuncts that can bound the
    statement from below are those of the period cascade. *)
Lemma get_balance_shape cache req run :
  nonempty (bal_account req) = true →
  get_balance ledger default_subsidiary_id cache req = Some run →
  bal_is_bs run = detect_bs_account ledger (bal_account req)
  ∧ ∃ q, bal_query run = Some q
         ∧ bq_amount q
           = Consolidate
               (let subsidiary := convert_name_to_id "subsidiary" (bal_subsidiary req) in
                if nonempty subsidiary then subsidiary
                else or_else default_subsidiary_id "1") PostingPeriod
         ∧ bq_sign q = FlipTypes INCOME_TYPES_SQL
         ∧ has_lower_bound q
           = existsb is_lower_bound
               (period_clauses
                  (effective_from (detect_bs_account ledger (bal_account req)) req)
                  (requested_to req))
         ∧ ∀ c, c ∈ period_clauses
                      (effective_from (detect_bs_account ledger (bal_account req)) req)
                      (requested_to req) → c ∈ bq_where q.
Proof.
  intros Hacct. unfold get_balance. rewrite Hacct. cbn [negb].
  fold (requested_from req) (requested_to req).
  fold (effective_from (detect_bs_account ledger (bal_account req)) req).
  set (D := detect_bs_account ledger (bal_account req)).
  set (F := effective_from D req). set (T := requested_to req).
  set (sub := convert_name_to_id "subsidiary" (bal_subsidiary req)).
  set (P := period_clauses F T).
  assert (Htail :
    existsb is_lower_bound
      ((if nonempty (convert_name_to_id "class" (bal_class req))
        then [ClassEq (convert_name_to_id "class" (bal_class req))] else [])
       ++ (if nonempty (convert_name_to_id "department" (bal_department req))
           then [DepartmentEq (convert_name_to_id "department" (bal_department req))]
           else [])
       ++ (if nonempty (convert_name_to_id "location" (bal_location req))
           then [LocationEq (convert_name_to_id "location" (bal_location req))]
           else [])) = false).
  { apply existsb_app_false; [by apply optional_clause_no_bound|].
    apply existsb_app_false; by apply optional_clause_no_bound. }
  assert (Hfinish : ∀ subs : list cond,
    existsb is_lower_bound subs = false →
    existsb is_lower_bound
      ([TPosting; TalPosting;
        build_account_filter [bal_account req] "a.acctnumber";
        AccountingBook
          (if nonempty (bal_accounting_book req)
           then bal_accounting_book req else "1")]
       ++ subs ++ P
       ++ (if nonempty (convert_name_to_id "class" (bal_class req))
           then [ClassEq (convert_name_to_id "class" (bal_class req))] else [])
       ++ (if nonempty (convert_name_to_id "department" (bal_department req))
           then [DepartmentEq (convert_name_to_id "department" (bal_department req))]
           else [])
       ++ (if nonempty (convert_name_to_id "location" (bal_location req))
           then [LocationEq (convert_name_to_id "location" (bal_location req))]
           else []))
    = existsb is_lower_bound P).
  { intros subs Hsubs. cbn [app existsb]. unfold build_account_filter.
    cbn [is_lower_bound orb].
    rewrite !existsb_app in *. rewrite Hsubs, Htail. cbn [orb].
    by rewrite orb_false_r. }
  assert (Hmember : ∀ (subs : list cond) (c : cond),
    c ∈ P →
    c ∈ [TPosting; TalPosting;
         build_account_filter [bal_account req] "a.acctnumber";
         AccountingBook
           (if nonempty (bal_accounting_book req)
            then bal_accounting_book req else "1")]
        ++ subs ++ P
        ++ (if nonempty (convert_name_to_id "class" (bal_class req))
            then [ClassEq (convert_name_to_id "class" (bal_class req))] else [])
        ++ (if nonempty (convert_name_to_id "department" (bal_department req))
            then [DepartmentEq (convert_name_to_id "department" (bal_department req))]
            else [])
        ++ (if nonempty (convert_name_to_id "location" (bal_location req))
            then [LocationEq (convert_name_to_id "location" (bal_location req))]
            else [])).
  { intros subs c Hc. apply elem_of_app. right. apply elem_of_app. right.
    apply elem_of_app. by left. }
  destruct (nonempty sub) eqn:Esub.
  - destruct (String.eqb sub (default "None" default_subsidiary_id)
              && should_use_consolidated (bal_subsidiary req) sub) eqn:Eroot.
    + cbn [mbind option_bind]. intros [= <-]. cbn. split; [done|].
      eexists. split; [reflexivity|]. cbn. repeat split.
      { unfold has_lower_bound. cbn [bq_where]. by apply (Hfinish []). }
      apply (Hmember []).
    + destruct (should_use_consolidated (bal_subsidiary req) sub) eqn:Econs.
      * destruct (get_subsidiaries_in_hierarchy ledger cache sub)
          as [[hs cache']|] eqn:Eh; cbn [mbind option_bind]; [|discriminate].
        intros [= <-]. cbn. split; [done|].
        eexists. split; [reflexivity|]. cbn. repeat split.
        { unfold has_lower_bound. cbn [bq_where]. by apply (Hfinish [SubsidiaryIn hs]). }
        apply (Hmember [SubsidiaryIn hs]).
      * cbn [mbind option_bind]. intros [= <-]. cbn. split; [done|].
        eexists. split; [reflexivity|]. cbn. repeat split.
        { unfold has_lower_bound. cbn [bq_where]. by apply (Hfinish [SubsidiaryEq sub]). }
        apply (Hmember [SubsidiaryEq sub]).
  - cbn [mbind option_bind]. intros [= <-]. cbn. split; [done|].
    eexists. split; [reflexivity|]. cbn. repeat split.
    { unfold has_lower_bound. cbn [bq_where]. by apply (Hfinish []). }
    apply (Hmember []).
Qed.

Lemma existsb_filter_false {A} (f : A → bool) (P : A → Prop)
    `{∀ x, Decision (P x)} (l : list A) :
  existsb f l = false → existsb f (filter P l) = false.
Proof.
  induction l as [|x l IH]; [done|]. cbn [existsb].
  intros [Hx Hl]%orb_false_elim. rewrite filter_cons.
  destruct (decide (P x)); cbn [existsb]; rewrite ?Hx; auto.
Qed.

Lemma effective_from_bs req :
  nonempty (bal_to_period req) = true → effective_from true req = "".
Proof.
  intros Hto. unfold effective_from.
  rewrite (requested_to_nonempty req Hto). cbn [andb].
  destruct (nonempty (requested_from req)) eqn:E; [done|].
  by apply nonempty_false.
Qed.

Lemma period_clauses_cumulative to_period :
  nonempty to_period = true →
  period_clauses "" to_period
  = if isdigit to_period then [PostingPeriodLe to_period]
    else match get_period_dates_from_name to_period with
         | (_, to_end, _) =>
             if present to_end
             then [TrandateLe (to_iso_date (default "" to_end))]
             else [PeriodNameEq (escape_sql to_period)]
         end.
Proof. intros Hto. unfold period_clauses. cbn. by rewrite Hto. Qed.

Lemma period_clauses_start_only from_period :
  nonempty from_period = true →
  period_clauses from_period ""
  = if isdigit from_period then [PostingPeriodEq from_period]
    else [PeriodNameEq (escape_sql from_period)].
Proof. intros Hfrom. unfold period_clauses. rewrite Hfrom. by cbn. Qed.

Lemma period_clauses_range from_period to_period :
  nonempty from_period = true → nonempty to_period = true →
  period_clauses from_period to_period
  = if isdigit from_period && isdigit to_period
    then [PostingPeriodGe from_period; PostingPeriodLe to_period]
    else match get_period_dates_from_name from_period,
               get_period_dates_from_name to_period with
         | (from_start, _, _), (_, to_end, _) =>
             if present from_start && present to_end
             then [ApStartGe (default "" from_start); ApEndLe (default "" to_end)]
             else [PeriodNameEq (escape_sql from_period)]
         end.
Proof. intros Hfrom Hto. unfold period_clauses. by rewrite Hfrom, Hto. Qed.

(** A Balance-Sheet account asked with an end period: the start period
    does not reach the statement. *)
Lemma get_balance_ignores_from cache req :
  detect_bs_account ledger (bal_account req) = true →
  nonempty (bal_to_period req) = true →
  get_balance ledger default_subsidiary_id cache req
  = get_balance ledger default_subsidiary_id cache (without_from_period req).
Proof.
  intros Hd Hto. unfold get_balance, without_from_period.
  cbn [bal_account bal_subsidiary bal_from_period bal_to_period bal_class
       bal_department bal_location bal_accounting_book].
  cbv zeta. fold (requested_from req) (requested_to req).
  rewrite Hd, (requested_to_nonempty req Hto).
  change (is_year_only "") with false. cbn [andb nonempty String.eqb negb].
  destruct (nonempty (requested_from req)) eqn:E; [reflexivity|].
  apply nonempty_false in E. by rewrite E.
Qed.

Lemma is_balance_sheet_iff t :
  AccountType.is_balance_sheet t = true
  ↔ (t ∉ AccountType.PL_TYPES) ∧ (t ∉ AccountType.NON_FINANCIAL_TYPES).
Proof.
  unfold AccountType.is_balance_sheet, mem.
  rewrite andb_true_iff, !negb_true_iff, !bool_decide_eq_false. done.
Qed.

(** Classification and lower bounds: an account type is Balance Sheet
    iff it is in neither the P&L set nor the non-financial set, the
    single-balance handler classifies by the detection block, and which
    of its statements are bounded from below. *)
Lemma single_balance_floor
    (cache : gmap string (list string)) (req : BalanceRequest) (run : BalanceRun) :
  nonempty (bal_account req) = true →
  get_balance ledger default_subsidiary_id cache req = Some run →
  (∀ t, AccountType.is_balance_sheet t = true
        ↔ (t ∉ AccountType.PL_TYPES) ∧ (t ∉ AccountType.NON_FINANCIAL_TYPES))
  ∧ bal_is_bs run = detect_bs_account ledger (bal_account req)
  ∧ (∀ bs_accounts where_clauses target_sub join book period info,
       existsb is_lower_bound where_clauses = false →
       let q := batch_bs_query bs_accounts where_clauses target_sub join book
                  period info in
       has_lower_bound q = false
       ∧ TrandateLe (to_iso_date (info_enddate info)) ∈ bq_where q)
  ∧ (∀ pl_accounts periods base_where target_sub join book,
       PeriodNameIn (map escape_sql periods)
       ∈ bq_where (build_pl_query pl_accounts periods base_where target_sub join book))
  ∧ (bal_is_bs run = true → nonempty (bal_to_period req) = true →
     get_balance ledger default_subsidiary_id cache (without_from_period req)
     = Some run
     ∧ ∃ q, bal_query run = Some q
            ∧ (isdigit (requested_to req) = true
               ∨ present (snd (fst (get_period_dates_from_name (requested_to req))))
                 = true →
               has_lower_bound q = false))
  ∧ (bal_is_bs run = true → nonempty (bal_from_period req) = true →
     bal_to_period req = "" →
     ∃ q, bal_query run = Some q ∧ has_lower_bound q = true)
  ∧ (bal_is_bs run = false → nonempty (requested_from req) = true →
     nonempty (requested_to req) = true →
     ∃ q, bal_query run = Some q ∧ has_lower_bound q = true
          ∧ (isdigit (requested_from req) && isdigit (requested_to req) = true →
             PostingPeriodGe (requested_from req) ∈ bq_where q
             ∧ PostingPeriodLe (requested_to req) ∈ bq_where q)).
Proof.
  intros Hacct Hrun.
  destruct (get_balance_shape cache req run Hacct Hrun)
    as (Hbs & q & Hq & _ & _ & Hlow & Hmem).
  split; [apply is_balance_sheet_iff|]. split; [exact Hbs|].
  split.
  { intros bs_accounts where_clauses target_sub join book period info Hw q0.
    subst q0. unfold batch_bs_query, build_bs_query_single_period, has_lower_bound.
    cbn [bq_where]. split.
    - rewrite !existsb_app. rewrite (existsb_filter_false _ _ _ Hw).
      unfold build_account_filter. cbn. by destruct bs_accounts.
    - apply elem_of_app. right. set_solver. }
  split.
  { intros. unfold build_pl_query. cbn [bq_where]. apply elem_of_app. right.
    set_solver. }
  rewrite <- Hbs in Hlow, Hmem.
  split; [|split].
  - intros Hb Hto. split.
    + rewrite <- Hrun. symmetry. apply get_balance_ignores_from; [|done].
      by rewrite <- Hbs.
    + exists q. split; [done|]. intros Hres.
      rewrite Hlow, Hb, (effective_from_bs req Hto).
      rewrite (period_clauses_cumulative _ (requested_to_nonempty req Hto)).
      destruct Hres as [-> | Hres]; [done|].
      destruct (isdigit (requested_to req)); [done|].
      destruct (get_period_dates_from_name (requested_to req)) as [[s e] i].
      simpl in Hres. by rewrite Hres.
  - intros Hb Hfrom Hto. exists q. split; [done|].
    rewrite Hlow, Hb. unfold effective_from, requested_to.
    rewrite Hto. change (is_year_only "") with false. cbn [nonempty String.eqb negb].
    rewrite andb_false_r.
    assert (Hn : nonempty (requested_from req) = true).
    { unfold requested_from. by destruct (is_year_only (bal_from_period req)). }
    rewrite (period_clauses_start_only _ Hn).
    by destruct (isdigit (requested_from req)).
  - intros Hb Hfrom Hto. exists q. split; [done|].
    assert (Heff : effective_from (bal_is_bs run) req = requested_from req).
    { unfold effective_from. by rewrite Hb. }
    rewrite Heff in Hlow, Hmem. split.
    + rewrite Hlow, (period_clauses_range _ _ Hfrom Hto).
      destruct (isdigit (requested_from req) && isdigit (requested_to req)); [done|].
      destruct (get_period_dates_from_name (requested_from req)) as [[fs fe] fi].
      destruct (get_period_dates_from_name (requested_to req)) as [[ts te] ti].
      by destruct (present fs && present te).
    + intros Hdig. rewrite (period_clauses_range _ _ Hfrom Hto), Hdig in Hmem.
      split; apply Hmem; set_solver.
Qed.

End SingleBalanceFacts.

(** C5 as stated fails: asked for bank account 1000 with a start period
    and no end period, the handler classifies the account as Balance
    Sheet and still restricts the statement to the start period. *)
Lemma bs_start_period_not_ignored :
  ∃ run q,
    get_balance (H := sample_dates) (H0 := sample_lookups) sample_ledger
      (Some "1") ∅ (sample_balance_request "1000" "Jan 2025" "") = Some run
    ∧ bal_is_bs run = true
    ∧ bal_query run = Some q
    ∧ has_lower_bound q = true
    ∧ PeriodNameEq "Jan 2025" ∈ bq_where q.
Proof.
  eexists _, _. vm_compute. repeat split. set_solver.
Qed.

(** ** Batch balances: the cache test and the fresh path *)





Section BatchFacts.
Context `{DateLib} `{Lookups}.
Variable ledger : Ledger.
Variable default_subsidiary_id : option string.



End BatchFacts.

Example batch_served_from_cache :
  fst <$> batch_balance (H := sample_dates) (H0 := sample_lookups) batch_ledger
            (Some "1") sample_balance_cache (Some 0%Z) 1000000%Z ∅
            (sample_batch_request ["Jan 2025"])
  = Some (Ok {| balances := [("4010", [("Jan 2025", 12400000%float)]);
                             ("2000", [("Jan 2025", (-500)%float)])];
                from_cache := true |}).
Proof. vm_compute. reflexivity. Qed.

(** With one of the two requested periods missing from the cache, the
    whole batch goes to the ledger. *)
Example batch_one_key_missing :
  batch_balance (H := sample_dates) (H0 := sample_lookups) batch_ledger
    (Some "1") sample_balance_cache (Some 0%Z) 1000000%Z ∅
    (sample_batch_request ["Jan 2025"; "Feb 2025"])
  = batch_balance_fresh (H := sample_dates) (H0 := sample_lookups) batch_ledger
      (Some "1") ∅ (sample_batch_request ["Jan 2025"; "Feb 2025"]).
Proof. vm_compute. reflexivity. Qed.

(** ** Partial failure *)




Section PartialFailureFacts.
Context `{DateLib} `{Lookups}.
Variable ledger : Ledger.
Variable default_subsidiary_id : option string.






End PartialFailureFacts.


(** ** Full-year refresh *)

Lemma string_length_app (a b : string) :
  String.length (a +:+ b) = String.length a + String.length b.
Proof.
  induction a as [|c a IH]; [done|].
  change (String c a +:+ b) with (String c (a +:+ b)). cbn. by rewrite IH.
Qed.

Lemma string_app_inj_suffix (a a' s s' : string) :
  String.length s = String.length s' → a +:+ s = a' +:+ s' → a = a' ∧ s = s'.
Proof.
  revert a'. induction a as [|c a IH]; intros [|c' a'] Hlen E.
  - done.
  - change (s = String c' (a' +:+ s')) in E. subst s.
    cbn in Hlen. rewrite string_length_app in Hlen. lia.
  - change (String c (a +:+ s) = s') in E. subst s'.
    cbn in Hlen. rewrite string_length_app in Hlen. lia.
  - change (String c (a +:+ s) = String c' (a' +:+ s')) in E.
    injection E as -> E. destruct (IH a' Hlen E) as [-> ->]. done.
Qed.

Lemma period_of_length month_abbrev fiscal_year :
  month_abbrev ∈ month_order →
  String.length (period_of month_abbrev fiscal_year)
  = 4 + String.length (pretty fiscal_year).
Proof.
  intros Hm. unfold period_of. rewrite !string_length_app.
  unfold month_order in Hm. set_unfold in Hm.
  destruct Hm as [->|[->|[->|[->|[->|[->|[->|[->|[->|[->|[->|[->|[]]]]]]]]]]]]]; reflexivity.
Qed.

Lemma cache_key_inj account account' month_abbrev month_abbrev' fiscal_year fh :
  month_abbrev ∈ month_order → month_abbrev' ∈ month_order →
  cache_key account (period_of month_abbrev fiscal_year) fh
  = cache_key account' (period_of month_abbrev' fiscal_year) fh →
  account = account' ∧ month_abbrev = month_abbrev'.
Proof.
  intros Hm Hm' E. unfold cache_key in E.
  apply string_app_inj_suffix in E as [-> E].
  - split; [done|].
    apply (inj (String.app ":")) in E.
    apply string_app_inj_suffix in E as [E _]; [|done].
    unfold period_of in E.
    by apply string_app_inj_suffix in E as [E _].
  - rewrite !string_length_app, !period_of_length by done. done.
Qed.

Lemma add_months_total y fh account act months c b cache :
  (fold_left (add_month y fh account act) months (c, b, cache)).1.1
  = running_total c (activity_in act) (periods_of y months).
Proof.
  revert c b cache. induction months as [|m months IH]; intros c b cache; [done|].
  cbn [fold_left periods_of map]. unfold add_month at 2. rewrite IH. done.
Qed.

Lemma add_months_frame y fh account act months st k :
  (∀ m, m ∈ months → k ≠ cache_key account (period_of m y) fh) →
  (fold_left (add_month y fh account act) months st).2 !! k = st.2 !! k.
Proof.
  revert st. induction months as [|m months IH]; intros [[c b] cache] Hk; [done|].
  cbn [fold_left]. rewrite IH.
  - cbn. rewrite lookup_insert_ne; [done|]. intros E. eapply Hk; [|done]. left.
  - intros m' Hm'. apply Hk. by right.
Qed.

Lemma add_months_lookup y fh account act pre m post c b cache :
  m ∈ month_order →
  (∀ m', m' ∈ post → m' ∈ month_order ∧ m' ≠ m) →
  (fold_left (add_month y fh account act) (pre ++ m :: post) (c, b, cache)).2
    !! cache_key account (period_of m y) fh
  = Some (running_total c (activity_in act) (periods_of y (pre ++ [m]))).
Proof.
  intros Hm Hpost. rewrite fold_left_app. cbn [fold_left].
  rewrite add_months_frame.
  - pose proof (add_months_total y fh account act pre c b cache) as Ht.
    destruct (fold_left (add_month y fh account act) pre (c, b, cache))
      as [[c' b'] cache'].
    cbn in Ht. subst c'. cbn. rewrite lookup_insert_eq.
    unfold periods_of, running_total. rewrite map_app, fold_left_app. done.
  - intros m' Hm' E. destruct (Hpost m' Hm') as [Ho Hne].
    apply cache_key_inj in E as [_ E]; [|done..]. by subst.
Qed.

Lemma month_order_split pre m post :
  month_order = pre ++ m :: post →
  m ∈ month_order ∧ ∀ m', m' ∈ post → m' ∈ month_order ∧ m' ≠ m.
Proof.
  intros E.
  assert (NoDup month_order) as Hnd by (by apply (bool_decide_unpack _)).
  rewrite E in Hnd |- *. split; [set_solver|].
  intros m' Hm'. split; [set_solver|].
  apply NoDup_app in Hnd as (_ & _ & Hnd). apply NoDup_cons in Hnd as [Hnd _].
  intros ->. done.
Qed.

Lemma store_cumulative_frame y fh prior data st k :
  (∀ account m, account ∈ ODict.keys data → m ∈ month_order →
     k ≠ cache_key account (period_of m y) fh) →
  (store_cumulative y fh prior data st).2 !! k = st.2 !! k.
Proof.
  unfold store_cumulative. revert st.
  induction data as [|[account act] data IH]; intros [b cache] Hk; [done|].
  cbn [fold_left]. rewrite IH.
  - match goal with
    | |- context [fold_left (add_month y fh account act) month_order ?s] =>
        pose proof (add_months_frame y fh account act month_order s k) as Hf;
        destruct (fold_left (add_month y fh account act) month_order s)
          as [[c' b'] cache']
    end.
    cbn in Hf |- *. apply Hf. intros m Hm. apply Hk; [left|done].
  - intros account' m Ha Hm. apply Hk; [by right|done].
Qed.

Lemma store_cumulative_app y fh prior d1 d2 st :
  store_cumulative y fh prior (d1 ++ d2) st
  = store_cumulative y fh prior d2 (store_cumulative y fh prior d1 st).
Proof. unfold store_cumulative. apply fold_left_app. Qed.

Lemma store_cumulative_lookup y fh prior pre account act post st preM m postM :
  account ∉ ODict.keys post →
  month_order = preM ++ m :: postM →
  (store_cumulative y fh prior (pre ++ (account, act) :: post) st).2
    !! cache_key account (period_of m y) fh
  = Some (running_total (default 0%float (prior !! account)) (activity_in act)
            (periods_of y (preM ++ [m]))).
Proof.
  intros Hpost Hsplit.
  destruct (month_order_split _ _ _ Hsplit) as [Hm HpostM].
  rewrite store_cumulative_app.
  change ((account, act) :: post) with ([(account, act)] ++ post).
  rewrite store_cumulative_app, store_cumulative_frame.
  - destruct (store_cumulative y fh prior pre st) as [b cache].
    unfold store_cumulative. cbn [fold_left].
    match goal with
    | |- context [fold_left (add_month y fh account act) month_order (?c, ?b0, ?k0)] =>
        pose proof (add_months_lookup y fh account act preM m postM c b0 k0 Hm HpostM) as Hl;
        rewrite <- Hsplit in Hl;
        destruct (fold_left (add_month y fh account act) month_order (c, b0, k0))
          as [[c' b'] cache']
    end.
    exact Hl.
  - intros account' m' Ha Hm' E.
    apply cache_key_inj in E as [-> _]; done.
Qed.

Section ODictMore.
Context {V : Type}.
Implicit Types (d : list (string * V)) (k : string) (v : V).

Lemma odict_keys_set_in d k v :
  k ∈ ODict.keys d → ODict.keys (ODict.set k v d) = ODict.keys d.
Proof.
  unfold ODict.keys. induction d as [|[k' v'] d IH]; cbn; [by intros ?%elem_of_nil|].
  intros Hk. destruct (String.eqb k' k) eqn:E; cbn.
  - apply String.eqb_eq in E. by subst.
  - f_equal. apply IH. apply elem_of_cons in Hk as [->|Hk]; [|done].
    by rewrite String.eqb_refl in E.
Qed.

Lemma odict_keys_set_notin d k v :
  k ∉ ODict.keys d → ODict.keys (ODict.set k v d) = ODict.keys d ++ [k].
Proof.
  unfold ODict.keys. induction d as [|[k' v'] d IH]; cbn; [done|].
  intros Hk. destruct (String.eqb k' k) eqn:E; cbn.
  - apply String.eqb_eq in E. subst. exfalso. apply Hk. left.
  - f_equal. apply IH. intros Hin. apply Hk. by right.
Qed.

Lemma odict_set_nodup d k v :
  NoDup (ODict.keys d) → NoDup (ODict.keys (ODict.set k v d)).
Proof.
  intros Hnd. destruct (decide (k ∈ ODict.keys d)) as [Hin|Hout].
  - by rewrite odict_keys_set_in.
  - rewrite odict_keys_set_notin by done.
    apply NoDup_app. split_and!; [done| |apply NoDup_singleton].
    intros x Hx ->%list_elem_of_singleton. done.
Qed.

Lemma odict_lookup_split d k v :
  NoDup (ODict.keys d) → ODict.lookup k d = Some v →
  ∃ pre post, d = pre ++ (k, v) :: post ∧ k ∉ ODict.keys post.
Proof.
  unfold ODict.keys. induction d as [|[k' v'] d IH]; cbn; [done|].
  intros [Hk' Hnd]%NoDup_cons. destruct (String.eqb k' k) eqn:E.
  - apply String.eqb_eq in E. subst k'. intros [= ->]. by exists [], d.
  - intros Hl. destruct (IH Hnd Hl) as (pre & post & -> & Hpost).
    by exists ((k', v') :: pre), post.
Qed.
End ODictMore.

Lemma set_balance_nodup (b : Balances) account period amount :
  NoDup (ODict.keys b) → NoDup (ODict.keys (set_balance b account period amount)).
Proof. apply odict_set_nodup. Qed.

Lemma store_activity_rows_nodup `{DateLib} fh rows s d t c s' d' t' c' e :
  store_activity_rows fh rows (s, d, t, c) = ((s', d', t', c'), e) →
  NoDup (ODict.keys d) → NoDup (ODict.keys d').
Proof.
  revert s d t c. induction rows as [|row rows IH]; intros s d t c; cbn.
  - by intros [= <- <- <- <- <-].
  - destruct (float_or_zero row "amount") as [err|amount]; cbn.
    + by intros [= <- <- <- <- <-].
    + destruct (nonempty _ && nonempty _).
      * intros Hr Hnd. eapply IH; [exact Hr|]. by apply set_balance_nodup.
      * apply IH.
Qed.

Lemma store_activity_rows_data `{DateLib} fh rows s d t c s' t' c' :
  (store_activity_rows fh rows (s, d, t, c)).2
  = (store_activity_rows fh rows (s', d, t', c')).2
  ∧ (store_activity_rows fh rows (s, d, t, c)).1.1.1.2
    = (store_activity_rows fh rows (s', d, t', c')).1.1.1.2.
Proof.
  revert s d t c s' t' c'. induction rows as [|row rows IH]; intros s d t c s' t' c'; cbn.
  - done.
  - destruct (float_or_zero row "amount") as [err|amount]; cbn; [done|].
    destruct (nonempty _ && nonempty _); apply IH.
Qed.

Section FullYearFacts.
Context `{DateLib} `{Lookups}.
Variable ledger : Ledger.
Variable default_subsidiary_id : option string.
Variable build : Z → string → Filters → Sql.

Lemma refresh_bs_stage_cache y target filters book fh b t cache bs_items data :
  ledger (build y target filters) 0 = QRows bs_items →
  activity_data fh bs_items = Some data →
  (refresh_bs_stage ledger (Some build) y target filters book fh
     b t cache).1.1.2
  = (store_cumulative y fh
       (fetch_prior_year_balances ledger target book (ODict.keys data) (y - 1))
       data (b, cache)).2.
Proof.
  intros Hreply Hdata. unfold refresh_bs_stage, run_paginated_suiteql.
  rewrite Hreply. unfold activity_data in Hdata.
  pose proof (store_activity_rows_data fh bs_items ∅ [] t ∅ ∅ [] ∅) as [He Hd].
  destruct (store_activity_rows fh bs_items (∅, [], [], ∅))
    as [[[[s0 d0] t0] c0] e0].
  destruct (store_activity_rows fh bs_items (∅, [], t, ∅))
    as [[[[s1 d1] t1] c1] e1].
  cbn in He, Hd. subst e1 d1. destruct e0; [done|]. injection Hdata as ->.
  by destruct (store_cumulative _ _ _ _ _).
Qed.

(** What the Balance-Sheet stage is written to compute, in a module
    that does bind the builder: after a refresh that reads its activity
    without an exception, the balance cache holds, for every account of
    the activity data and every month m, the running total that starts at
    the prior-year balance fetched for the account (0 when none was), adds
    the activity of January through m in order, and is set to 0 after any
    month where its absolute value is below 0.01. *)
Lemma bound_builder_cumulative_balance caches now now_bs hierarchy_cache req
    body caches' hierarchy_cache' bs_items bs_activity_data account
    activity_by_period pre month_abbrev post :
  let fiscal_year := rq_year req in
  let target_sub := refresh_target_sub default_subsidiary_id req in
  let fh := refresh_fingerprint req in
  let prior_year_balances :=
    fetch_prior_year_balances ledger target_sub (rq_accountingbook req)
      (ODict.keys bs_activity_data) (fiscal_year - 1) in
  rq_skip_bs req = false →
  batch_full_year_refresh ledger default_subsidiary_id (Some build)
    caches now now_bs hierarchy_cache req
  = Some (Ok body, caches', hierarchy_cache') →
  ledger (build fiscal_year target_sub (refresh_filters req)) 0
  = QRows bs_items →
  activity_data fh bs_items = Some bs_activity_data →
  ODict.lookup account bs_activity_data = Some activity_by_period →
  month_order = pre ++ month_abbrev :: post →
  balance_cache caches' !! cache_key account (period_of month_abbrev fiscal_year) fh
  = Some (running_total (default 0%float (prior_year_balances !! account))
            (activity_in activity_by_period)
            (periods_of fiscal_year (pre ++ [month_abbrev]))).
Proof.
  intros fiscal_year target_sub fh prior Hskip Hrun Hreply Hdata Hacc Hmonths.
  unfold batch_full_year_refresh in Hrun. rewrite Hskip in Hrun.
  destruct (build_full_year_pl_query_pivoted _ _ _ _ _ _) as [[q hc]|];
    cbn [mbind option_bind] in Hrun; [|done].
  destruct (run_paginated_suiteql ledger (SelectPivotedYear q)) as [e|items];
    [done|].
  destruct (store_pivot_rows _ items [] []) as [e|[b t]]; [done|].
  pose proof (refresh_bs_stage_cache fiscal_year target_sub (refresh_filters req)
                (rq_accountingbook req) fh b t (cache_balances fh b ∅)
                bs_items bs_activity_data Hreply Hdata) as Hstage.
  fold fiscal_year in Hrun.
  change (if nonempty (convert_name_to_id "subsidiary" (rq_subsidiary req))
          then convert_name_to_id "subsidiary" (rq_subsidiary req)
          else or_else default_subsidiary_id "1") with target_sub in Hrun.
  destruct (refresh_bs_stage _ _ _ _ _ _ _ _ _ _) as [[[[b' t'] cache'] ac] aset].
  injection Hrun as _ <- _. cbn [balance_cache]. cbn in Hstage. subst cache'.
  assert (NoDup (ODict.keys bs_activity_data)) as Hnd.
  { unfold activity_data in Hdata.
    destruct (store_activity_rows fh bs_items (∅, [], [], ∅))
      as [[[[s0 d0] t0] c0] e0] eqn:Hrows.
    destruct e0; [done|]. injection Hdata as <-.
    eapply store_activity_rows_nodup; [exact Hrows|]. apply NoDup_nil_2. }
  destruct (odict_lookup_split _ _ _ Hnd Hacc) as (dpre & dpost & -> & Hpost).
  by apply store_cumulative_lookup with (postM := post).
Qed.
End FullYearFacts.

Example refresh_of_sample :
  (λ r, reported (fy_balances r) "1000" <$> ["Jan 2025"; "Feb 2025"; "Dec 2025"])
  <$> (match batch_full_year_refresh (H := sample_dates) (H0 := sample_lookups)
               refresh_ledger (Some "1") (Some sample_bs_builder) sample_old_caches
               10 20 ∅ (sample_refresh_request false) with
       | Some (Ok body, _, _) => Some body
       | _ => None
       end)
  = Some [Some 0%float; Some 50%float; Some 50%float].
Proof. vm_compute. reflexivity. Qed.

Example bound_builder_cumulative_balance_sample :
  ∃ body caches' hierarchy_cache',
    batch_full_year_refresh (H := sample_dates) (H0 := sample_lookups)
      refresh_ledger (Some "1") (Some sample_bs_builder) sample_old_caches 10 20 ∅
      (sample_refresh_request false)
    = Some (Ok body, caches', hierarchy_cache')
    ∧ balance_cache caches' !! "1000:Feb 2025::::"
      = Some (running_total 100
                (activity_in [("Jan 2025", (-99.9921875)%float);
                              ("Feb 2025", 50%float)])
                ["Jan 2025"; "Feb 2025"]).
Proof.
  assert (∃ body caches' hierarchy_cache',
            batch_full_year_refresh (H := sample_dates) (H0 := sample_lookups)
              refresh_ledger (Some "1") (Some sample_bs_builder) sample_old_caches
              10 20 ∅ (sample_refresh_request false)
            = Some (Ok body, caches', hierarchy_cache'))
    as (body & caches' & hierarchy_cache' & Hrun)
    by (eexists _, _, _; vm_compute; reflexivity).
  exists body, caches', hierarchy_cache'. split; [exact Hrun|].
  apply (bound_builder_cumulative_balance (H := sample_dates) (H0 := sample_lookups)
           refresh_ledger (Some "1") sample_bs_builder sample_old_caches 10 20 ∅
           (sample_refresh_request false) body caches' hierarchy_cache'
           [activity_row "1000" "2025-01" (-99.9921875);
            activity_row "1000" "2025-02" 50]
           [("1000", [("Jan 2025", (-99.9921875)%float); ("Feb 2025", 50%float)])]
           "1000" [("Jan 2025", (-99.9921875)%float); ("Feb 2025", 50%float)]
           ["Jan"] "Feb"
           ["Mar"; "Apr"; "May"; "Jun"; "Jul"; "Aug"; "Sep"; "Oct"; "Nov"; "Dec"]);
    first [exact Hrun | vm_compute; reflexivity].
Defined.

Lemma odict_elem_of_set {V} (d : list (string * V)) k v a w :
  (a, w) ∈ ODict.set k v d → (a, w) ∈ d ∨ (a, w) = (k, v).
Proof.
  induction d as [|[k' v'] d IH]; cbn.
  - intros ?%list_elem_of_singleton. by right.
  - destruct (String.eqb k' k).
    + intros [->|Hin]%elem_of_cons; [by right|]. left. by right.
    + intros [->|Hin]%elem_of_cons; [left; left|].
      destruct (IH Hin) as [?|?]; [left; by right|by right].
Qed.

Lemma odict_keys_set_elem {V} (d : list (string * V)) k v p :
  p ∈ ODict.keys (ODict.set k v d) → p ∈ ODict.keys d ∨ p = k.
Proof.
  unfold ODict.keys. intros ((a & w) & -> & Hin)%list_elem_of_fmap.
  destruct (odict_elem_of_set _ _ _ _ _ Hin) as [Hd|[= -> ->]]; [|by right].
  left. apply list_elem_of_fmap. by exists (a, w).
Qed.

Lemma month_mapping_periods fiscal_year p :
  p ∈ (month_mapping fiscal_year).*2 → year_period fiscal_year p.
Proof.
  unfold month_mapping. cbn [fmap list_fmap snd]. intros Hp.
  repeat (apply elem_of_cons in Hp as [->|Hp];
          [eexists; split; [|reflexivity]; unfold month_order; set_solver|]).
  by apply elem_of_nil in Hp.
Qed.

Lemma month_step_inl row cols e : fold_left (month_step row) cols (inl e) = inl e.
Proof. induction cols as [|[c n] cols IH]; [done|]. apply IH. Qed.

Lemma month_step_keys (P : string → Prop) row cols pd0 pd :
  (∀ p, p ∈ ODict.keys pd0 → P p) → (∀ p, p ∈ cols.*2 → P p) →
  fold_left (month_step row) cols (inr pd0) = inr pd →
  ∀ p, p ∈ ODict.keys pd → P p.
Proof.
  revert pd0. induction cols as [|[col_name period_name] cols IH];
    intros pd0 Hpd0 Hcols; cbn [fold_left].
  - by intros [= ->].
  - assert (∀ v p, p ∈ ODict.keys (ODict.set period_name v pd0) → P p) as Hset.
    { intros v p [Hp| ->]%odict_keys_set_elem; [by apply Hpd0|].
      apply Hcols. cbn. left. }
    assert (∀ p, p ∈ cols.*2 → P p) as Hcols'
      by (intros p Hp; apply Hcols; cbn; by right).
    unfold month_step at 2.
    destruct (get row col_name) as [|f|s]; cbn [float_of_cell].
    + apply IH; [apply Hset|done].
    + apply IH; [apply Hset|done].
    + by rewrite month_step_inl.
Qed.

Lemma read_month_columns_periods fiscal_year row periods_data p :
  read_month_columns fiscal_year row = inr periods_data →
  p ∈ ODict.keys periods_data → year_period fiscal_year p.
Proof.
  intros Hread. revert p.
  apply (month_step_keys _ row (month_mapping fiscal_year) []).
  - by intros ? ?%elem_of_nil.
  - apply month_mapping_periods.
  - exact Hread.
Qed.

Lemma store_pivot_rows_periods fiscal_year items b t b' t' :
  store_pivot_rows fiscal_year items b t = inr (b', t') →
  year_periods fiscal_year b → year_periods fiscal_year b'.
Proof.
  revert b t. induction items as [|row items IH]; intros b t; cbn [store_pivot_rows].
  - by intros [= <- <-].
  - destruct (nonempty _); [|apply IH].
    destruct (read_month_columns fiscal_year row) as [e|pd] eqn:Hread; [done|].
    intros Hrows Hb. eapply IH; [exact Hrows|].
    intros account pd' [Hin|[= -> ->]]%odict_elem_of_set p Hp.
    + by eapply Hb.
    + by eapply read_month_columns_periods.
Qed.

Lemma cache_balances_own fiscal_year fh b cache :
  year_periods fiscal_year b → own_keys fiscal_year fh cache →
  own_keys fiscal_year fh (cache_balances fh b cache).
Proof.
  unfold cache_balances. revert cache.
  induction b as [|[account pd] b IH]; intros cache Hb Hcache; [done|].
  cbn [fold_left]. apply IH.
  - intros a pd' Hin. apply (Hb a pd'). by right.
  - assert (∀ p, p ∈ ODict.keys pd → year_period fiscal_year p) as Hpd
      by (apply (Hb account pd); left).
    clear IH Hb. revert cache Hcache.
    induction pd as [|[period amount] pd IH]; intros cache Hcache; [done|].
    cbn [fold_left]. apply IH.
    + intros p Hp. apply Hpd. cbn. by right.
    + intros k [<-|[Hne Hk]]%lookup_insert_is_Some.
      * destruct (Hpd period) as (m & Hm & ->); [cbn; left|]. by exists account, m.
      * by apply Hcache.
Qed.

Lemma add_months_own fiscal_year fh account act months st :
  months ⊆ month_order → own_keys fiscal_year fh st.2 →
  own_keys fiscal_year fh (fold_left (add_month fiscal_year fh account act) months st).2.
Proof.
  revert st. induction months as [|m months IH]; intros [[c b] cache] Hsub Hown; [done|].
  cbn [fold_left]. apply IH; [set_solver|]. cbn.
  intros k [<-|[Hne Hk]]%lookup_insert_is_Some.
  - exists account, m. split; [set_solver|done].
  - by apply Hown.
Qed.

Lemma store_cumulative_own fiscal_year fh prior data st :
  own_keys fiscal_year fh st.2 →
  own_keys fiscal_year fh (store_cumulative fiscal_year fh prior data st).2.
Proof.
  unfold store_cumulative. revert st.
  induction data as [|[account act] data IH]; intros [b cache] Hown; [done|].
  cbn [fold_left]. apply IH.
  match goal with
  | |- context [fold_left (add_month fiscal_year fh account act) month_order ?s] =>
      pose proof (add_months_own fiscal_year fh account act month_order s) as Ho;
      destruct (fold_left (add_month fiscal_year fh account act) month_order s)
        as [[c' b'] cache']
  end.
  cbn in Ho |- *. by apply Ho.
Qed.

Section RefreshCacheFacts.
Context `{DateLib} `{Lookups}.
Variable ledger : Ledger.
Variable default_subsidiary_id : option string.
Variable build_full_year_bs_query : option (Z → string → Filters → Sql).

Lemma refresh_bs_stage_own y target filters book fh b t cache :
  own_keys y fh cache →
  own_keys y fh
    (refresh_bs_stage ledger build_full_year_bs_query y target filters book fh
       b t cache).1.1.2.
Proof.
  intros Hown. unfold refresh_bs_stage.
  destruct build_full_year_bs_query as [build|]; [|done].
  destruct (run_paginated_suiteql _ _) as [e|bs_items]; [done|].
  destruct (store_activity_rows _ _ _) as [[[[s d] t'] c] [e|]]; [done|].
  match goal with
  | |- context [store_cumulative y fh ?p d (b, cache)] =>
      pose proof (store_cumulative_own y fh p d (b, cache) Hown) as Ho;
      destruct (store_cumulative y fh p d (b, cache)) as [b' cache']
  end.
  exact Ho.
Qed.

Lemma build_full_year_pl_query_pivoted_total hierarchy_cache y target filters book :
  ∃ q hierarchy_cache',
    build_full_year_pl_query_pivoted ledger hierarchy_cache y target filters book
    = Some (q, hierarchy_cache').
Proof.
  unfold build_full_year_pl_query_pivoted.
  destruct (nonempty (flt_subsidiary filters)); [|by eexists _, _].
  destruct (flt_use_hierarchy filters); [|by eexists _, _].
  destruct (get_subsidiaries_in_hierarchy_total ledger hierarchy_cache
              (flt_subsidiary filters)) as (hs & cache' & ->).
  by eexists _, _.
Qed.

(** X2. A full-year refresh that answers 200 replaces the balance cache
    wholesale: the cache is stamped with the time of the refresh, every
    key it holds is built from an account, a month of the requested year
    and the request's filter fingerprint, and its content is the same
    whatever the caches held before; without skip_bs that is true of all
    five globals. *)
Theorem full_year_refresh_replaces_balance_cache caches now now_bs
    hierarchy_cache req body caches' hierarchy_cache' :
  batch_full_year_refresh ledger default_subsidiary_id build_full_year_bs_query
    caches now now_bs hierarchy_cache req
  = Some (Ok body, caches', hierarchy_cache') →
  balance_cache_timestamp caches' = Some now
  ∧ (∀ k, is_Some (balance_cache caches' !! k) →
       own_key (rq_year req) (refresh_fingerprint req) k)
  ∧ (∀ other, ∃ other',
       batch_full_year_refresh ledger default_subsidiary_id
         build_full_year_bs_query other now now_bs hierarchy_cache req
       = Some (Ok body, other', hierarchy_cache')
       ∧ balance_cache other' = balance_cache caches'
       ∧ (rq_skip_bs req = false → other' = caches')).
Proof.
  unfold batch_full_year_refresh.
  destruct (build_full_year_pl_query_pivoted _ _ _ _ _ _) as [[q hc]|];
    cbn [mbind option_bind]; [|done].
  destruct (run_paginated_suiteql ledger (SelectPivotedYear q)) as [e|items];
    [done|].
  destruct (store_pivot_rows _ items [] []) as [e|[b t]] eqn:Hrows; [done|].
  assert (own_keys (rq_year req) (refresh_fingerprint req)
            (cache_balances (refresh_fingerprint req) b ∅)) as Hpl.
  { apply cache_balances_own.
    - eapply store_pivot_rows_periods; [exact Hrows|].
      by intros ? ? ?%elem_of_nil.
    - intros k. rewrite lookup_empty. by intros [? ?]. }
  destruct (rq_skip_bs req).
  - intros [= <- <- <-]. cbn. split_and!; [done|exact Hpl|].
    intros other. eexists. split_and!; [reflexivity|done|done].
  - pose proof (refresh_bs_stage_own (rq_year req)
                  (refresh_target_sub default_subsidiary_id req)
                  (refresh_filters req) (rq_accountingbook req)
                  (refresh_fingerprint req) b t _ Hpl) as Hbs.
    change (if nonempty (convert_name_to_id "subsidiary" (rq_subsidiary req))
            then convert_name_to_id "subsidiary" (rq_subsidiary req)
            else or_else default_subsidiary_id "1")
      with (refresh_target_sub default_subsidiary_id req).
    change (filters_hash _ _ _ _) with (refresh_fingerprint req).
    destruct (refresh_bs_stage _ _ _ _ _ _ _ _ _ _) as [[[[b' t'] cache'] ac] aset].
    intros [= <- <- <-]. cbn. split_and!; [done|exact Hbs|].
    intros other. eexists. split_and!; [reflexivity|done|done].
Qed.

(** X3. A full-year refresh always answers.  When it answers with an
    error the caches are exactly what they were, and with skip_bs the
    BS activity cache, its timestamp and the set of Balance-Sheet
    accounts are left as they were. *)
Theorem full_year_refresh_untouched_caches caches now now_bs hierarchy_cache req :
  ∃ response caches' hierarchy_cache',
    batch_full_year_refresh ledger default_subsidiary_id build_full_year_bs_query
      caches now now_bs hierarchy_cache req
    = Some (response, caches', hierarchy_cache')
    ∧ (∀ status error, response = Failed status error → caches' = caches)
    ∧ (rq_skip_bs req = true →
         bs_activity_cache caches' = bs_activity_cache caches
         ∧ bs_activity_cache_timestamp caches' = bs_activity_cache_timestamp caches
         ∧ bs_account_set caches' = bs_account_set caches).
Proof.
  unfold batch_full_year_refresh.
  match goal with
  | |- context [build_full_year_pl_query_pivoted ledger ?hc ?y ?t ?f ?b] =>
      destruct (build_full_year_pl_query_pivoted_total hc y t f b)
        as (q & hc' & ->)
  end.
  cbn [mbind option_bind].
  destruct (run_paginated_suiteql ledger (SelectPivotedYear q)) as [e|items].
  { eexists _, _, _. split_and!; [reflexivity|done|done]. }
  destruct (store_pivot_rows _ items [] []) as [e|[b t]].
  { eexists _, _, _. split_and!; [reflexivity|done|done]. }
  destruct (rq_skip_bs req).
  - eexists _, _, _. split_and!; [reflexivity|done|done].
  - destruct (refresh_bs_stage _ _ _ _ _ _ _ _ _ _) as [[[[b' t'] cache'] ac] aset].
    eexists _, _, _. split_and!; [reflexivity|done|done].
Qed.
End RefreshCacheFacts.

Example refresh_drops_old_entries :
  (λ r, (balance_cache r.1.2 !! "9999:Jan 2024:7:::",
         bs_activity_cache r.1.2 !! "activity:9999:Jan 2024:7:::",
         bs_activity_cache r.1.2 !! "activity:1000:Jan 2025::::"))
  <$> batch_full_year_refresh (H := sample_dates) (H0 := sample_lookups)
        refresh_ledger (Some "1") server_build_full_year_bs_query sample_old_caches 10 20 ∅
        (sample_refresh_request false)
  = Some (None, None, None).
Proof. vm_compute. reflexivity. Qed.

Example refresh_skip_bs_keeps_activity :
  (λ r, (balance_cache r.1.2 !! "9999:Jan 2024:7:::",
         bs_activity_cache r.1.2 !! "activity:9999:Jan 2024:7:::",
         balance_cache r.1.2 !! "1000:Feb 2025::::"))
  <$> batch_full_year_refresh (H := sample_dates) (H0 := sample_lookups)
        refresh_ledger (Some "1") server_build_full_year_bs_query sample_old_caches 10 20 ∅
        (sample_refresh_request true)
  = Some (None, Some 1%float, None).
Proof. vm_compute. reflexivity. Qed.

Example refresh_failure_keeps_caches :
  batch_full_year_refresh (H := sample_dates) (H0 := sample_lookups)
    refresh_ledger_pl_down (Some "1") server_build_full_year_bs_query sample_old_caches 10 20 ∅
    (sample_refresh_request false)
  = Some (Failed 500 "NetSuite query failed: NetSuite API error: 500",
          sample_old_caches, ∅).
Proof. vm_compute. reflexivity. Qed.

Lemma full_year_refresh_replaces_balance_cache_witness :
  ∃ body caches' hierarchy_cache',
    batch_full_year_refresh (H := sample_dates) (H0 := sample_lookups)
      refresh_ledger (Some "1") server_build_full_year_bs_query sample_old_caches 10 20 ∅
      (sample_refresh_request false)
    = Some (Ok body, caches', hierarchy_cache')
    ∧ balance_cache_timestamp caches' = Some 10%Z
    ∧ (∀ k, is_Some (balance_cache caches' !! k) →
         own_key 2025
           (refresh_fingerprint (H := sample_lookups) (sample_refresh_request false))
           k)
    ∧ (∀ other, ∃ other',
         batch_full_year_refresh (H := sample_dates) (H0 := sample_lookups)
           refresh_ledger (Some "1") server_build_full_year_bs_query other 10 20 ∅
           (sample_refresh_request false)
         = Some (Ok body, other', hierarchy_cache')
         ∧ balance_cache other' = balance_cache caches'
         ∧ (rq_skip_bs (sample_refresh_request false) = false → other' = caches')).
Proof.
  assert (∃ body caches' hierarchy_cache',
            batch_full_year_refresh (H := sample_dates) (H0 := sample_lookups)
              refresh_ledger (Some "1") server_build_full_year_bs_query sample_old_caches
              10 20 ∅ (sample_refresh_request false)
            = Some (Ok body, caches', hierarchy_cache'))
    as (body & caches' & hierarchy_cache' & Hrun)
    by (eexists _, _, _; vm_compute; reflexivity).
  exists body, caches', hierarchy_cache'. split; [exact Hrun|].
  exact (full_year_refresh_replaces_balance_cache (H := sample_dates)
           (H0 := sample_lookups) refresh_ledger (Some "1") server_build_full_year_bs_query
           sample_old_caches 10 20 ∅ (sample_refresh_request false) body caches'
           hierarchy_cache' Hrun).
Defined.

(** ** Rate-limit retry: recovery *)

Lemma retry_loop_first_answer ledger sql remaining attempt result trace k :
  k < remaining →
  (∀ j, j < k → rate_limited (ledger sql (attempt + j)) = true) →
  rate_limited (ledger sql (attempt + k)) = false →
  retry_loop ledger sql remaining attempt result trace
  = (Some (ledger sql (attempt + k)),
     trace ++ throttled_events sql attempt k ++ [Executed sql (attempt + k)]).
Proof.
  revert attempt result trace k.
  induction remaining as [|n IH]; intros attempt result trace k Hk Hbefore Hat;
    [lia|].
  cbn [retry_loop]. destruct k as [|k].
  - rewrite Nat.add_0_r in Hat |- *. by rewrite Hat.
  - pose proof (Hbefore 0 ltac:(lia)) as H0. rewrite Nat.add_0_r in H0.
    rewrite H0, (IH (S attempt) _ _ k); [|lia| |].
    + cbn [throttled_events]. rewrite <- !app_assoc, Nat.add_succ_comm. done.
    + intros j Hj. rewrite Nat.add_succ_comm. apply Hbefore. lia.
    + by rewrite Nat.add_succ_comm.
Qed.

Lemma throttled_events_executed sql attempt k :
  length (filter is_executed (throttled_events sql attempt k)) = k.
Proof.
  revert attempt. induction k as [|k IH]; intros attempt; [done|].
  cbn [throttled_events]. rewrite filter_app, length_app, IH. done.
Qed.

Lemma throttled_events_waits sql attempt k :
  waits (throttled_events sql attempt k)
  = map (λ j, (Z.of_nat j + 1) * 2)%Z (seq attempt k).
Proof.
  revert attempt. induction k as [|k IH]; intros attempt; [done|].
  cbn [throttled_events seq map]. unfold waits in *. by rewrite omap_app, IH.
Qed.

(** X4. When the first [k] executions of a statement are answered with
    the rate-limit signal and the next one is not, with [k] below the
    number of attempts, the retry wrapper returns that next reply, having
    executed the statement [k + 1] times and slept 2, 4, ... seconds
    between the executions and not after the last. *)
Theorem retry_stops_at_first_answer (ledger : Ledger) (name : string) (sql : Sql)
    (max_retries k : nat) :
  k < max_retries →
  (∀ j, j < k → rate_limited (ledger sql j) = true) →
  rate_limited (ledger sql k) = false →
  let run := query_with_retry ledger name sql max_retries in
  fst run = Some (ledger sql k)
  ∧ snd run = throttled_events sql 0 k ++ [Executed sql k]
  ∧ length (filter is_executed (snd run)) = S k
  ∧ waits (snd run) = map (λ j, (Z.of_nat j + 1) * 2)%Z (seq 0 k)
  ∧ query_with_retry_re ledger name sql max_retries = run.
Proof.
  intros Hk Hbefore Hat run. subst run.
  unfold query_with_retry, query_with_retry_re.
  rewrite (retry_loop_first_answer ledger sql max_retries 0 None [] k Hk Hbefore Hat).
  cbn [fst snd app Nat.add]. split_and!; try done.
  - rewrite filter_app, length_app, throttled_events_executed.
    change (filter _ [Executed sql k]) with [Executed sql k]. cbn. lia.
  - unfold waits. rewrite omap_app. fold (waits (throttled_events sql 0 k)).
    rewrite throttled_events_waits. cbn. by rewrite app_nil_r.
Qed.

Lemma retry_stops_at_first_answer_witness :
  let run :=
    query_with_retry throttled_once_ledger "total_assets" (SelectOther "q") 3 in
  fst run = Some (QRows [value_row 7])
  ∧ snd run = [Executed (SelectOther "q") 0; Slept 2; Executed (SelectOther "q") 1]
  ∧ length (filter is_executed (snd run)) = 2
  ∧ waits (snd run) = [2%Z]
  ∧ query_with_retry_re throttled_once_ledger "total_assets" (SelectOther "q") 3
    = run.
Proof.
  apply (retry_stops_at_first_answer throttled_once_ledger "total_assets"
           (SelectOther "q") 3 1).
  - lia.
  - intros j Hj. assert (j = 0) as -> by lia. reflexivity.
  - reflexivity.
Defined.

(** ** Subsidiary hierarchy: the traversal *)

Section Traversal.
Variable children_map : gmap string (list string).
Variable target_id : string.

Lemma visit_child_spec (h q : list string) (c : string) :
  NoDup h →
  ∃ h' q', visit_child (h, q) c = (h', q')
    ∧ NoDup h' ∧ c ∈ h'
    ∧ (∀ x, x ∈ h → x ∈ h') ∧ (∀ x, x ∈ q → x ∈ q')
    ∧ (∀ x, x ∈ h' → x ∈ h ∨ (x = c ∧ x ∈ q'))
    ∧ (∀ x, x ∈ q' → x ∈ q ∨ x = c).
Proof.
  intros Hnd. unfold visit_child, mem. case_bool_decide as Hin.
  - exists h, q. split_and!; auto.
  - exists (h ++ [c]), (q ++ [c]). split_and!; [done| | | | | |].
    + apply NoDup_app. split_and!; [done| |apply NoDup_singleton].
      intros x Hx ->%list_elem_of_singleton. done.
    + apply elem_of_app. right. left.
    + intros x Hx. apply elem_of_app. by left.
    + intros x Hx. apply elem_of_app. by left.
    + intros x [Hx| ->%list_elem_of_singleton]%elem_of_app; [by left|].
      right. split; [done|]. apply elem_of_app. right. left.
    + intros x [Hx| ->%list_elem_of_singleton]%elem_of_app; [by left|by right].
Qed.

Lemma visit_children_spec (children h q : list string) :
  NoDup h →
  ∃ h' q', visit_children children (h, q) = (h', q')
    ∧ NoDup h' ∧ (∀ c, c ∈ children → c ∈ h')
    ∧ (∀ x, x ∈ h → x ∈ h') ∧ (∀ x, x ∈ q → x ∈ q')
    ∧ (∀ x, x ∈ h' → x ∈ h ∨ (x ∈ children ∧ x ∈ q'))
    ∧ (∀ x, x ∈ q' → x ∈ q ∨ x ∈ children).
Proof.
  revert h q. unfold visit_children.
  induction children as [|c children IH]; intros h q Hnd; cbn [fold_left].
  - exists h, q. split_and!; auto. by intros ? ?%elem_of_nil.
  - destruct (visit_child_spec h q c Hnd)
      as (h1 & q1 & -> & Hnd1 & Hc & Hh & Hq & Hnew & Hq1).
    destruct (IH h1 q1 Hnd1)
      as (h2 & q2 & -> & Hnd2 & Hcs & Hh2 & Hq2 & Hnew2 & Hq12).
    exists h2, q2. split_and!; [done|done| |auto|auto| |].
    + intros x [->|Hx]%elem_of_cons; auto.
    + intros x Hx. destruct (Hnew2 x Hx) as [Hx1|[Hx1 Hxq]].
      * destruct (Hnew x Hx1) as [?|[-> ?]]; [by left|].
        right. split; [left|auto].
      * right. split; [by right|done].
    + intros x Hx. destruct (Hq12 x Hx) as [Hx1|Hx1].
      * destruct (Hq1 x Hx1) as [?| ->]; [by left|right; left].
      * right. by right.
Qed.

Lemma descend_spec fuel (h q r : list string) :
  traversal_inv children_map target_id h q →
  descend fuel children_map h q = Some r →
  traversal_inv children_map target_id r [] ∧ ∀ x, x ∈ h → x ∈ r.
Proof.
  revert h q. induction fuel as [|fuel IH]; intros h q (Hnd & Hq & Hreach & Hclosed).
  - destruct q as [|current q]; cbn; [|done]. intros [= <-].
    split; [|done]. split_and!; auto; by intros ? ?%elem_of_nil.
  - destruct q as [|current q]; cbn [descend].
    { intros [= <-]. split; [|done]. split_and!; auto. }
    destruct (children_map !! current) as [children|] eqn:Ecur.
    + destruct (visit_children_spec children h q Hnd)
        as (h' & q' & -> & Hnd' & Hcs & Hh & Hqq & Hnew & Hq').
      intros Hr. destruct (IH h' q') as [Hinv Hsub]; [|exact Hr|].
      * split_and!; [done| | |].
        -- intros x Hx. destruct (Hq' x Hx) as [?|?]; [|by apply Hcs].
           apply Hh, Hq. by right.
        -- intros x Hx. destruct (Hnew x Hx) as [?|[Hc _]]; [by apply Hreach|].
           eapply rtc_r; [apply Hreach, Hq; left|]. by exists children.
        -- intros x Hx. destruct (Hnew x Hx) as [Hxh|[_ Hxq]]; [|by left].
           destruct (Hclosed x Hxh) as [[->|Hxq]%elem_of_cons|Hcl].
           ++ right. intros c (cs & Hcur & Hc). rewrite Ecur in Hcur.
              injection Hcur as <-. by apply Hcs.
           ++ left. by apply Hqq.
           ++ right. intros c Hc. by apply Hh, Hcl.
      * split; [done|]. intros x Hx. by apply Hsub, Hh.
    + intros Hr. destruct (IH h q) as [Hinv Hsub]; [|exact Hr|done].
      split_and!; [done| |done|].
      * intros x Hx. apply Hq. by right.
      * intros x Hx. destruct (Hclosed x Hx) as [[->|Hxq]%elem_of_cons|Hcl];
          [|by left|by right].
        right. intros c (cs & Hcur & Hc). by rewrite Ecur in Hcur.
Qed.

Lemma descend_from_target fuel (r : list string) :
  descend fuel children_map [target_id] [target_id] = Some r →
  NoDup r ∧ ∀ x, x ∈ r ↔ rtc (child_of children_map) target_id x.
Proof.
  intros Hr. destruct (descend_spec fuel [target_id] [target_id] r) as
    [(Hnd & _ & Hreach & Hclosed) Hsub]; [|exact Hr|].
  - split_and!; [apply NoDup_singleton|done| |].
    + by intros x ->%list_elem_of_singleton.
    + intros x Hx. by left.
  - split; [done|]. intros x. split; [apply Hreach|].
    revert x. apply rtc_ind_r; [apply Hsub; left|].
    intros y z _ Hyz IHr.
    destruct (Hclosed _ IHr) as [?%elem_of_nil|Hcl]; [done|]. by apply Hcl.
Qed.
End Traversal.

(** X5. On a memo miss, when the reply is a list that does not show the
    target as a root, hierarchy resolution returns, without duplicates,
    exactly the target and the subsidiaries reachable from it through the
    parent-to-children map of the reply, memoises that list under the
    target, and answers the next call for the target from the memo
    whatever the ledger then replies. *)
Theorem hierarchy_is_descendants (ledger : Ledger)
    (cache : gmap string (list string)) (s : string) (rows : list Row)
    (ids : list string) (cache' : gmap string (list string)) :
  cache !! s = None →
  ledger SelectSubsidiaryHierarchy 0 = QRows rows →
  not_root rows s →
  get_subsidiaries_in_hierarchy ledger cache s = Some (ids, cache') →
  NoDup ids
  ∧ (∀ x, x ∈ ids ↔ rtc (child_of (snd (hierarchy_maps rows))) s x)
  ∧ cache' = <[s := ids]> cache
  ∧ ∀ ledger', get_subsidiaries_in_hierarchy ledger' cache' s = Some (ids, cache').
Proof.
  intros Hmiss Hreply Hroot. unfold get_subsidiaries_in_hierarchy.
  rewrite Hmiss, Hreply.
  destruct (hierarchy_of_rows _ s rows) as [r|] eqn:Hr; [|done].
  intros [= <- <-].
  assert (descend (hierarchy_fuel rows) (snd (hierarchy_maps rows)) [s] [s] = Some r)
    as Hdesc.
  { unfold hierarchy_of_rows in Hr. unfold not_root in Hroot.
    destruct (hierarchy_maps rows) as [all_subs children_map]. cbn in *.
    destruct (ODict.lookup s all_subs) as [[[p|] e]|]; [done| |done].
    by destruct (Hroot _ eq_refl). }
  destruct (descend_from_target _ _ _ _ Hdesc) as [Hnd Hiff].
  split_and!; [done|done|done|].
  intros ledger'. by rewrite lookup_insert_eq.
Qed.

Lemma hierarchy_is_descendants_witness :
  NoDup ["2"; "3"]
  ∧ (∀ x, x ∈ ["2"; "3"]
       ↔ rtc (child_of (snd (hierarchy_maps sample_subsidiaries))) "2" x)
  ∧ <["2" := ["2"; "3"]]> ∅ = <["2" := ["2"; "3"]]> (∅ : gmap string (list string))
  ∧ ∀ ledger', get_subsidiaries_in_hierarchy ledger' (<["2" := ["2"; "3"]]> ∅) "2"
               = Some (["2"; "3"], <["2" := ["2"; "3"]]> ∅).
Proof.
  apply (hierarchy_is_descendants sample_ledger ∅ "2" sample_subsidiaries).
  - reflexivity.
  - reflexivity.
  - intros info. vm_compute. by intros [= <-].
  - vm_compute. reflexivity.
Defined.

(** ** Account-type tables (constants.py) *)

Lemma mem_true (s : string) (l : list string) : mem s l = true ↔ s ∈ l.
Proof. unfold mem. apply bool_decide_eq_true. Qed.

Lemma mem_false (s : string) (l : list string) : mem s l = false ↔ s ∉ l.
Proof. unfold mem. apply bool_decide_eq_false. Qed.

(** X6. The account-type tables are consistent: no type is both P&L and
    Balance Sheet; the non-financial types are neither; every listed
    Balance-Sheet type is classified Balance Sheet; the types that need a
    sign flip are exactly the liability and equity types, so they are
    Balance-Sheet types and never P&L; the income types are P&L types; and
    a type outside the P&L and non-financial tables, a misspelt or
    unknown one included, is classified Balance Sheet. *)
Theorem account_type_tables_consistent (accttype : string) :
  (AccountType.is_pl accttype = true →
     AccountType.is_balance_sheet accttype = false)
  ∧ (accttype ∈ AccountType.NON_FINANCIAL_TYPES →
       AccountType.is_pl accttype = false
       ∧ AccountType.is_balance_sheet accttype = false
       ∧ AccountType.needs_sign_flip accttype = false)
  ∧ (accttype ∈ AccountType.BS_TYPES →
       AccountType.is_balance_sheet accttype = true)
  ∧ (AccountType.needs_sign_flip accttype = true
       ↔ accttype ∈ AccountType.BS_LIABILITY_TYPES
         ∨ accttype ∈ AccountType.BS_EQUITY_TYPES)
  ∧ (AccountType.needs_sign_flip accttype = true →
       AccountType.is_balance_sheet accttype = true
       ∧ AccountType.is_pl accttype = false)
  ∧ (accttype ∈ INCOME_TYPES_SQL → AccountType.is_pl accttype = true)
  ∧ (accttype ∉ AccountType.PL_TYPES →
       accttype ∉ AccountType.NON_FINANCIAL_TYPES →
       AccountType.is_balance_sheet accttype = true).
Proof.
  assert (∀ l, accttype ∈ l → ∀ f, forallb f l = true → f accttype = true) as Hall.
  { intros l Hin f Hf. rewrite forallb_forall in Hf. apply Hf.
    by apply list_elem_of_In. }
  assert (AccountType.needs_sign_flip accttype = true →
          AccountType.is_balance_sheet accttype = true
          ∧ AccountType.is_pl accttype = false) as Hflip.
  { unfold AccountType.needs_sign_flip. intros Hin%mem_true.
    pose proof (Hall _ Hin (λ t, AccountType.is_balance_sheet t
                                 && negb (AccountType.is_pl t))
                  ltac:(vm_compute; reflexivity)) as Hb.
    apply andb_true_iff in Hb as [H1 H2]. by apply negb_true_iff in H2. }
  split_and!.
  - unfold AccountType.is_balance_sheet, AccountType.is_pl. by intros ->.
  - intros Hin.
    pose proof (Hall _ Hin (λ t, negb (AccountType.is_pl t)
                                 && negb (AccountType.is_balance_sheet t)
                                 && negb (AccountType.needs_sign_flip t))
                  ltac:(vm_compute; reflexivity)) as Hb.
    apply andb_true_iff in Hb as [[H1 H2]%andb_true_iff H3].
    by split_and!; apply negb_true_iff.
  - intros Hin.
    apply (Hall _ Hin AccountType.is_balance_sheet). vm_compute. reflexivity.
  - unfold AccountType.needs_sign_flip. rewrite mem_true, <- elem_of_app.
    reflexivity.
  - exact Hflip.
  - intros Hin. apply (Hall _ Hin AccountType.is_pl). vm_compute. reflexivity.
  - intros Hpl Hnf. unfold AccountType.is_balance_sheet.
    apply mem_false in Hpl, Hnf. by rewrite Hpl, Hnf.
Qed.

(** ** Quoting (escape_sql) *)

Lemma escape_sql_cons (c : ascii) (text : string) :
  escape_sql (String c text)
  = if Ascii.eqb c "'"%char
    then String "'"%char (String "'"%char (escape_sql text))
    else String c (escape_sql text).
Proof. unfold escape_sql. cbn [replace_char]. by destruct (Ascii.eqb c "'"). Qed.

(** X7. A text escaped by [escape_sql] and placed between quotes is read
    back by SQL as exactly that text: every quote of the result is half
    of a doubled quote, so none ends the literal.  Escaping distributes
    over concatenation and leaves a text without quotes as it is. *)
Theorem escape_sql_round_trip (text : string) :
  sql_literal_text (escape_sql text) = Some text
  ∧ (∀ more, escape_sql (text +:+ more) = escape_sql text +:+ escape_sql more)
  ∧ (contains "'" text = false → escape_sql text = text).
Proof.
  split_and!.
  - induction text as [|c text IH]; [done|].
    rewrite escape_sql_cons. destruct (Ascii.eqb c "'") eqn:E.
    + apply Ascii.eqb_eq in E. subst c. cbn. by rewrite IH.
    + cbn. by rewrite E, IH.
  - intros more. induction text as [|c text IH]; [done|].
    change (String c text +:+ more) with (String c (text +:+ more)).
    rewrite !escape_sql_cons, IH. by destruct (Ascii.eqb c "'").
  - induction text as [|c text IH]; [done|].
    rewrite escape_sql_cons. cbn [contains starts_with].
    rewrite andb_true_r. rewrite Ascii.eqb_sym.
    destruct (Ascii.eqb c "'"); [done|]. cbn. intros H. by rewrite IH.
Qed.

(** ** Paginated statements *)

Lemma map_seq_S {A} (f : nat → A) (n : nat) :
  map f (seq 0 (S n)) = f 0 :: map (λ j, f (S j)) (seq 0 n).
Proof. cbn [seq map]. by rewrite <- seq_shift, map_map. Qed.

Section Pagination.
Variable ledger : Ledger.
Variables sql_query order_by : string.
Variable page_size : Z.

Lemma paginate_pages (pages : nat → list Row) (k : nat) :
  ∀ fuel offset all_results offsets,
    k < fuel →
    (offset + Z.of_nat k * page_size ≤ PAGINATION_SAFETY_LIMIT)%Z →
    (∀ j, j ≤ k →
       ledger (paginated_query sql_query order_by
                 (offset + Z.of_nat j * page_size) page_size) 0
       = QRows (pages j)) →
    (∀ j, j < k → (page_size ≤ Z.of_nat (length (pages j)))%Z) →
    (Z.of_nat (length (pages k)) < page_size)%Z →
    paginate fuel ledger sql_query order_by page_size offset all_results offsets
    = Some (QRows (all_results ++ concat (map pages (seq 0 (S k)))),
            offsets
            ++ map (λ j, (offset + Z.of_nat j * page_size)%Z) (seq 0 (S k))).
Proof.
  revert pages. induction k as [|k IH];
    intros pages fuel offset all_results offsets Hfuel Hlimit Hpage Hfull Hshort;
    (destruct fuel as [|fuel]; [lia|]); cbn [paginate].
  - pose proof (Hpage 0 ltac:(lia)) as H0.
    replace (offset + Z.of_nat 0 * page_size)%Z with offset in H0 by lia.
    rewrite H0. apply Z.ltb_lt in Hshort. rewrite Hshort. cbn [seq map concat].
    rewrite !app_nil_r.
    by replace (offset + Z.of_nat 0 * page_size)%Z with offset by lia.
  - pose proof (Hpage 0 ltac:(lia)) as H0.
    replace (offset + Z.of_nat 0 * page_size)%Z with offset in H0 by lia.
    rewrite H0.
    pose proof (Hfull 0 ltac:(lia)) as Hf0. apply Z.ltb_ge in Hf0. rewrite Hf0.
    assert (0 ≤ page_size)%Z as Hp by lia.
    assert ((PAGINATION_SAFETY_LIMIT <? offset + page_size)%Z = false) as ->
      by (apply Z.ltb_ge; nia).
    rewrite (IH (λ j, pages (S j))); [| lia | nia | | |].
    + rewrite (map_seq_S pages (S k)),
        (map_seq_S (λ j, (offset + Z.of_nat j * page_size)%Z) (S k)).
      cbn [concat]. rewrite <- !app_assoc. cbn [app].
      replace (offset + Z.of_nat 0 * page_size)%Z with offset by lia.
      do 4 f_equal. apply map_ext. intros j. lia.
    + intros j Hj. rewrite <- (Hpage (S j)) by lia. do 2 f_equal. lia.
    + intros j Hj. apply (Hfull (S j)). lia.
    + exact Hshort.
Qed.

Lemma paginate_bounded fuel offset all_results offsets :
  (1 ≤ page_size)%Z → (0 ≤ offset ≤ PAGINATION_SAFETY_LIMIT)%Z →
  (PAGINATION_SAFETY_LIMIT - offset < Z.of_nat fuel * page_size)%Z →
  ∃ r offsets',
    paginate fuel ledger sql_query order_by page_size offset all_results offsets
    = Some (r, offsets')
    ∧ (Z.of_nat (length offsets') * page_size
       ≤ Z.of_nat (length offsets) * page_size
         + (PAGINATION_SAFETY_LIMIT - offset) + page_size)%Z.
Proof.
  intros Hp. revert offset all_results offsets.
  induction fuel as [|fuel IH]; intros offset all_results offsets Hoff Hfuel; [lia|].
  cbn [paginate].
  destruct (ledger _ 0) as [result|e d|].
  - destruct (Z.of_nat (length result) <? page_size)%Z.
    { eexists _, _. split; [done|]. rewrite length_app. cbn [length]. nia. }
    destruct (PAGINATION_SAFETY_LIMIT <? offset + page_size)%Z eqn:Hlim.
    { eexists _, _. split; [done|]. rewrite length_app. cbn [length]. nia. }
    apply Z.ltb_ge in Hlim.
    destruct (IH (offset + page_size)%Z (all_results ++ result) (offsets ++ [offset]))
      as (r & offsets' & -> & Hlen); [lia|nia|].
    eexists _, _. split; [done|]. rewrite length_app in Hlen. cbn [length] in Hlen.
    nia.
  - eexists _, _. split; [done|]. rewrite length_app. cbn [length]. nia.
  - eexists _, _. split; [done|]. rewrite length_app. cbn [length]. nia.
Qed.

Lemma paginate_stuck fuel all_results offsets rows :
  (page_size ≤ 0)%Z →
  (∀ offset, ledger (paginated_query sql_query order_by offset page_size) 0
             = QRows rows) →
  ∀ offset, (offset ≤ PAGINATION_SAFETY_LIMIT)%Z →
    paginate fuel ledger sql_query order_by page_size offset all_results offsets
    = None.
Proof.
  intros Hp Hrows.
  revert all_results offsets. induction fuel as [|fuel IH];
    intros all_results offsets offset Hoff; [done|].
  cbn [paginate]. rewrite Hrows.
  assert ((Z.of_nat (length rows) <? page_size)%Z = false) as ->
    by (apply Z.ltb_ge; lia).
  assert ((PAGINATION_SAFETY_LIMIT <? offset + page_size)%Z = false) as ->
    by (apply Z.ltb_ge; lia).
  apply IH. lia.
Qed.

Lemma paginate_error (pages : nat → list Row) (k : nat) error details :
  ∀ fuel offset all_results offsets,
    k < fuel →
    (offset + Z.of_nat k * page_size ≤ PAGINATION_SAFETY_LIMIT)%Z →
    (∀ j, j < k →
       ledger (paginated_query sql_query order_by
                 (offset + Z.of_nat j * page_size) page_size) 0
       = QRows (pages j)) →
    (∀ j, j < k → (page_size ≤ Z.of_nat (length (pages j)))%Z) →
    (0 ≤ page_size)%Z →
    ledger (paginated_query sql_query order_by
              (offset + Z.of_nat k * page_size) page_size) 0
    = QError error details →
    paginate fuel ledger sql_query order_by page_size offset all_results offsets
    = Some (QError error details,
            offsets
            ++ map (λ j, (offset + Z.of_nat j * page_size)%Z) (seq 0 (S k))).
Proof.
  revert pages. induction k as [|k IH];
    intros pages fuel offset all_results offsets Hfuel Hlimit Hpage Hfull Hp Herr;
    (destruct fuel as [|fuel]; [lia|]); cbn [paginate].
  - replace (offset + Z.of_nat 0 * page_size)%Z with offset in Herr by lia.
    rewrite Herr. cbn [seq map].
    by replace (offset + Z.of_nat 0 * page_size)%Z with offset by lia.
  - pose proof (Hpage 0 ltac:(lia)) as H0.
    replace (offset + Z.of_nat 0 * page_size)%Z with offset in H0 by lia.
    rewrite H0.
    pose proof (Hfull 0 ltac:(lia)) as Hf0. apply Z.ltb_ge in Hf0. rewrite Hf0.
    assert ((PAGINATION_SAFETY_LIMIT <? offset + page_size)%Z = false) as ->
      by (apply Z.ltb_ge; nia).
    rewrite (IH (λ j, pages (S j))); [| lia | nia | | |done|].
    + rewrite (map_seq_S (λ j, (offset + Z.of_nat j * page_size)%Z) (S k)).
      rewrite <- !app_assoc. cbn [app].
      replace (offset + Z.of_nat 0 * page_size)%Z with offset by lia.
      do 4 f_equal. apply map_ext. intros j. lia.
    + intros j Hj. rewrite <- (Hpage (S j)) by lia. do 2 f_equal. lia.
    + intros j Hj. apply (Hfull (S j)). lia.
    + rewrite <- Herr. do 2 f_equal. lia.
Qed.
End Pagination.

Lemma pagination_fuel (p : Z) (k : nat) :
  (1 ≤ p)%Z → (Z.of_nat k * p ≤ PAGINATION_SAFETY_LIMIT)%Z →
  k < S (Z.to_nat (PAGINATION_SAFETY_LIMIT / p)).
Proof.
  intros Hp Hk.
  assert (Z.of_nat k ≤ PAGINATION_SAFETY_LIMIT / p)%Z
    by (apply Z.div_le_lower_bound; lia).
  lia.
Qed.

(** X8. When the pages of a statement at offsets 0, p, ..., (k-1)p are
    full, the page at offset kp is short and kp is within the safety
    limit, where p is the page size capped at 1000, the paginated query
    asks for exactly those k+1 pages, in that order, and returns their
    rows concatenated. *)
Theorem paginated_reads_all_pages (ledger : Ledger) (sql_query order_by : string)
    (page_size : Z) (pages : nat → list Row) (k : nat) :
  let p := Z.min page_size 1000 in
  (Z.of_nat k * p ≤ PAGINATION_SAFETY_LIMIT)%Z →
  (∀ j, j ≤ k →
     ledger (paginated_query sql_query order_by (Z.of_nat j * p) p) 0
     = QRows (pages j)) →
  (∀ j, j < k → (p ≤ Z.of_nat (length (pages j)))%Z) →
  (Z.of_nat (length (pages k)) < p)%Z →
  query_netsuite_paginated ledger sql_query page_size order_by
  = Some (QRows (concat (map pages (seq 0 (S k)))),
          map (λ j, (Z.of_nat j * p)%Z) (seq 0 (S k))).
Proof.
  intros p Hlimit Hpage Hfull Hshort. unfold query_netsuite_paginated. fold p.
  rewrite (paginate_pages ledger sql_query order_by p pages k); [done|..].
  - apply pagination_fuel; lia.
  - lia.
  - intros j Hj. by rewrite Z.add_0_l, Hpage.
  - done.
  - done.
Qed.

Lemma paginated_reads_all_pages_witness :
  query_netsuite_paginated paged_ledger "SELECT v FROM t" 2 "1"
  = Some (QRows (concat (map (λ j, take 2 (drop (2 * j) paged_rows)) (seq 0 3))),
          map (λ j, (Z.of_nat j * Z.min 2 1000)%Z) (seq 0 3)).
Proof.
  apply (paginated_reads_all_pages paged_ledger "SELECT v FROM t" "1" 2
           (λ j, take 2 (drop (2 * j) paged_rows)) 2).
  - vm_compute. by intros [=].
  - intros j Hj.
    assert (j = 0 ∨ j = 1 ∨ j = 2) as [->|[->| ->]] by lia; vm_compute; reflexivity.
  - intros j Hj.
    assert (j = 0 ∨ j = 1) as [->| ->] by lia; vm_compute; by intros [=].
  - vm_compute. reflexivity.
Defined.

Example paginated_five_rows :
  query_netsuite_paginated paged_ledger "SELECT v FROM t" 2 "1"
  = Some (QRows paged_rows, [0; 2; 4]%Z).
Proof. vm_compute. reflexivity. Qed.

(** X9. With a page size of at least 1 the paginated query always
    returns, after at most 100000 / p + 1 requests, p being the page size
    capped at 1000 (101 requests at the default size).  With a page size
    of 0 or less, against a ledger that keeps answering with rows, it
    never returns, however many iterations it is given. *)
Theorem paginated_terminates_iff_positive_page (ledger : Ledger)
    (sql_query order_by : string) (page_size : Z) :
  let p := Z.min page_size 1000 in
  ((1 ≤ page_size)%Z →
     ∃ r offsets,
       query_netsuite_paginated ledger sql_query page_size order_by
       = Some (r, offsets)
       ∧ (Z.of_nat (length offsets) ≤ PAGINATION_SAFETY_LIMIT / p + 1)%Z)
  ∧ ((page_size ≤ 0)%Z →
       ∀ rows,
         (∀ offset, ledger (paginated_query sql_query order_by offset p) 0
                    = QRows rows) →
         ∀ fuel, paginate fuel ledger sql_query order_by p 0 [] [] = None).
Proof.
  intros p. split.
  - intros Hp. unfold query_netsuite_paginated. fold p.
    assert (1 ≤ p)%Z as Hp1 by (unfold p; lia).
    destruct (paginate_bounded ledger sql_query order_by p
                (S (Z.to_nat (PAGINATION_SAFETY_LIMIT / p))) 0 [] [] Hp1)
      as (r & offsets & -> & Hlen).
    + unfold PAGINATION_SAFETY_LIMIT. lia.
    + pose proof (Z.mul_succ_div_gt PAGINATION_SAFETY_LIMIT p ltac:(lia)).
      assert (0 ≤ PAGINATION_SAFETY_LIMIT / p)%Z by (apply Z.div_pos; unfold PAGINATION_SAFETY_LIMIT; lia).
      lia.
    + exists r, offsets. split; [done|]. cbn [length] in Hlen.
      assert (Z.of_nat (length offsets) - 1 ≤ PAGINATION_SAFETY_LIMIT / p)%Z;
        [apply Z.div_le_lower_bound; lia|lia].
  - intros Hp rows Hrows fuel.
    apply (paginate_stuck ledger sql_query order_by p fuel [] [] rows);
      [unfold p; lia|done|unfold PAGINATION_SAFETY_LIMIT; lia].
Qed.

(** X10. When the pages before offset kp are full and the page at kp
    comes back as an error dictionary, the paginated query returns that
    error dictionary: the rows read from the earlier pages are not
    returned. *)
Theorem paginated_error_drops_rows (ledger : Ledger) (sql_query order_by : string)
    (page_size : Z) (pages : nat → list Row) (k : nat) (error : string)
    (details : option string) :
  let p := Z.min page_size 1000 in
  (1 ≤ page_size)%Z →
  (Z.of_nat k * p ≤ PAGINATION_SAFETY_LIMIT)%Z →
  (∀ j, j < k →
     ledger (paginated_query sql_query order_by (Z.of_nat j * p) p) 0
     = QRows (pages j)) →
  (∀ j, j < k → (p ≤ Z.of_nat (length (pages j)))%Z) →
  ledger (paginated_query sql_query order_by (Z.of_nat k * p) p) 0
  = QError error details →
  query_netsuite_paginated ledger sql_query page_size order_by
  = Some (QError error details, map (λ j, (Z.of_nat j * p)%Z) (seq 0 (S k))).
Proof.
  intros p Hp Hlimit Hpage Hfull Herr. unfold query_netsuite_paginated. fold p.
  assert (1 ≤ p)%Z as Hp1 by (unfold p; lia).
  rewrite (paginate_error ledger sql_query order_by p pages k error details);
    [done|..].
  - by apply pagination_fuel.
  - lia.
  - intros j Hj. by rewrite Z.add_0_l, Hpage.
  - done.
  - lia.
  - by rewrite Z.add_0_l.
Qed.

Lemma paginated_error_drops_rows_witness :
  query_netsuite_paginated paged_ledger_third_down "SELECT v FROM t" 2 "1"
  = Some (QError "NetSuite error: 500" (Some "Search timed out"),
          map (λ j, (Z.of_nat j * Z.min 2 1000)%Z) (seq 0 3)).
Proof.
  apply (paginated_error_drops_rows paged_ledger_third_down "SELECT v FROM t" "1"
           2 (λ j, take 2 (drop (2 * j) paged_rows)) 2).
  - lia.
  - vm_compute. by intros [=].
  - intros j Hj.
    assert (j = 0 ∨ j = 1) as [->| ->] by lia; vm_compute; reflexivity.
  - intros j Hj.
    assert (j = 0 ∨ j = 1) as [->| ->] by lia; vm_compute; by intros [=].
  - vm_compute. reflexivity.
Defined.

(** ** Quarterly chunks *)

Example chunks_of_year :
  generate_quarterly_chunks "Jan 2025" "Dec 2025"
  = [("Jan 2025", "Mar 2025"); ("Apr 2025", "Jun 2025");
     ("Jul 2025", "Sep 2025"); ("Oct 2025", "Dec 2025")].
Proof. vm_compute. reflexivity. Qed.

Example chunks_across_years :
  generate_quarterly_chunks "november 2024" "Feb 2025"
  = [("Nov 2024", "Dec 2024"); ("Jan 2025", "Feb 2025")].
Proof. vm_compute. reflexivity. Qed.

Example chunks_reversed :
  generate_quarterly_chunks "Mar 2025" "Jan 2025" = [("Mar 2025", "Jan 2025")].
Proof. vm_compute. reflexivity. Qed.

Example chunks_unparsed :
  generate_quarterly_chunks "Q1 2025" "Dec 2025" = [("Q1 2025", "Dec 2025")].
Proof. vm_compute. reflexivity. Qed.

Example chunks_capped :
  length (generate_quarterly_chunks "Jan 2020" "Dec 2030") = 21
  ∧ last (generate_quarterly_chunks "Jan 2020" "Dec 2030")
    = Some ("Jan 2025", "Mar 2025").
Proof. vm_compute. split; reflexivity. Qed.

Lemma chunk_loop_ranges fuel cm cy tm ty chunks :
  chunk_loop fuel cm cy tm ty chunks
  = chunks ++ map format_range (chunk_ranges fuel (length chunks) cm cy tm ty).
Proof.
  revert cm cy chunks. induction fuel as [|fuel IH]; intros cm cy chunks;
    cbn [chunk_loop chunk_ranges]; [by rewrite app_nil_r|].
  destruct ((cy <? ty) || (cy =? ty) && (cm <=? tm))%Z; [|by rewrite app_nil_r].
  destruct ((ty <? cy) || (cy =? ty) && (tm <? Z.min (cm + 2) 12))%Z;
    rewrite length_app, Nat.add_1_r;
    (destruct (12 <? _ + 1)%Z;
     (destruct (20 <? S (length chunks)); [done|]);
     rewrite IH, length_app, Nat.add_1_r, <- app_assoc; done).
Qed.

Lemma next_start_cons start r rs :
  next_start start (r :: rs) = next_start (month_index (snd r) + 1) rs.
Proof. reflexivity. Qed.

Lemma chunk_ranges_spec fuel count cm cy tm ty :
  (1 ≤ cm ≤ 12)%Z → (1 ≤ tm ≤ 12)%Z →
  (month_index (cm, cy) ≤ month_index (tm, ty) + 1)%Z →
  let rs := chunk_ranges fuel count cm cy tm ty in
  chained (month_index (cm, cy)) rs
  ∧ count + length rs ≤ Nat.max (S count) 21
  ∧ (next_start (month_index (cm, cy)) rs ≤ month_index (tm, ty) + 1)%Z
  ∧ (21 ≤ fuel + count → count + length rs ≤ 20 →
       next_start (month_index (cm, cy)) rs = (month_index (tm, ty) + 1)%Z)
  ∧ ((month_index (cm, cy) ≤ month_index (tm, ty))%Z → 0 < fuel → rs ≠ []).
Proof.
  assert (∀ m y, month_index (m, y) = (12 * y + m)%Z) as Hidx by done.
  revert count cm cy. induction fuel as [|fuel IH]; intros count cm cy Hcm Htm Hle;
    cbn [chunk_ranges]; rewrite !Hidx in Hle.
  { cbn. rewrite !Hidx. split_and!; [done|lia|lia|lia|lia]. }
  destruct ((cy <? ty) || (cy =? ty) && (cm <=? tm))%Z eqn:Hcond.
  2:{ apply orb_false_iff in Hcond as [H1 H2].
      apply Z.ltb_ge in H1. apply andb_false_iff in H2.
      cbn. rewrite !Hidx. split_and!; [done|lia|lia| |];
        intros; destruct H2 as [H2%Z.eqb_neq|H2%Z.leb_gt]; lia. }
  assert (cy < ty ∨ cy = ty ∧ cm ≤ tm)%Z as Hin.
  { apply orb_true_iff in Hcond as [H1%Z.ltb_lt|[H1%Z.eqb_eq H2%Z.leb_le]%andb_true_iff];
      lia. }
  (* the chunk's last month [em] and the next start [(nm, ny)] *)
  assert (∀ em nm ny,
            (cm ≤ em ≤ 12)%Z → (em ≤ cm + 2)%Z →
            (12 * cy + em ≤ 12 * ty + tm)%Z →
            (1 ≤ nm ≤ 12)%Z → (12 * ny + nm = 12 * cy + em + 1)%Z →
            let rs :=
              if 20 <? S count then [((cm, cy), (em, cy))]
              else ((cm, cy), (em, cy))
                   :: chunk_ranges fuel (S count) nm ny tm ty in
            chained (month_index (cm, cy)) rs
            ∧ count + length rs ≤ Nat.max (S count) 21
            ∧ (next_start (month_index (cm, cy)) rs ≤ month_index (tm, ty) + 1)%Z
            ∧ (21 ≤ S fuel + count → count + length rs ≤ 20 →
                 next_start (month_index (cm, cy)) rs
                 = (month_index (tm, ty) + 1)%Z)
            ∧ ((month_index (cm, cy) ≤ month_index (tm, ty))%Z → 0 < S fuel →
                 rs ≠ [])) as Hstep.
  { intros em nm ny Hem Hem2 Hend Hnm Hnext.
    assert (chunk_ok (month_index (cm, cy)) ((cm, cy), (em, cy))) as Hok.
    { unfold chunk_ok. cbn [fst snd]. split_and!; try done; lia. }
    destruct (20 <? S count) eqn:Hcap; cbn zeta.
    - apply Nat.ltb_lt in Hcap. cbn [chained length]. rewrite next_start_cons.
      cbn [next_start fold_left snd]. rewrite !Hidx.
      split_and!; try done; lia.
    - apply Nat.ltb_ge in Hcap.
      destruct (IH (S count) nm ny) as (Hch & Hlen & Hnx & Hcov & _);
        [lia|lia|rewrite !Hidx; lia|].
      cbn [chained length]. rewrite next_start_cons. cbn [snd].
      assert (month_index (em, cy) + 1 = month_index (nm, ny))%Z as ->
        by (rewrite !Hidx; lia).
      unfold Range in *.
      split_and!; try done; try lia; intros Hf Hc; apply Hcov; lia. }
  destruct ((ty <? cy) || (cy =? ty) && (tm <? Z.min (cm + 2) 12))%Z eqn:Hclip.
  - assert (cy = ty ∧ tm < Z.min (cm + 2) 12)%Z as [-> Htm'].
    { apply orb_true_iff in Hclip as [H1%Z.ltb_lt|[H1%Z.eqb_eq H2%Z.ltb_lt]%andb_true_iff];
        lia. }
    destruct (12 <? tm + 1)%Z eqn:H12; [apply Z.ltb_lt in H12; lia|].
    apply (Hstep tm (tm + 1)%Z ty); lia.
  - assert (cy < ty ∨ cy = ty ∧ Z.min (cm + 2) 12 ≤ tm)%Z as Hnoclip.
    { apply orb_false_iff in Hclip as [H1%Z.ltb_ge H2].
      apply andb_false_iff in H2. destruct H2 as [H2%Z.eqb_neq|H2%Z.ltb_ge]; lia. }
    destruct (12 <? Z.min (cm + 2) 12 + 1)%Z eqn:H12.
    + apply Z.ltb_lt in H12. apply (Hstep (Z.min (cm + 2) 12) 1%Z (cy + 1)%Z); lia.
    + apply Z.ltb_ge in H12.
      apply (Hstep (Z.min (cm + 2) 12) (Z.min (cm + 2) 12 + 1)%Z cy); lia.
Qed.

Lemma month_map_range (name : string) (month : Z) :
  ODict.lookup name month_map = Some month → (1 ≤ month ≤ 12)%Z.
Proof.
  unfold month_map. cbn [ODict.lookup].
  repeat (destruct (String.eqb _ name); [intros [= <-]; lia|]). done.
Qed.

Lemma chained_span (start : Z) (rs : list Range) :
  chained start rs →
  (start + Z.of_nat (length rs) ≤ next_start start rs
   ≤ start + 3 * Z.of_nat (length rs))%Z.
Proof.
  revert start. induction rs as [|[[m y] [m' y']] rs IH]; intros start;
    [cbn; lia|].
  cbn [chained]. intros [(Hs & Hy & Hm & H12 & H3) Hrest].
  rewrite next_start_cons. specialize (IH _ Hrest).
  unfold month_index in *. cbn [fst snd length] in *. lia.
Qed.

Lemma generate_quarterly_chunks_parsed (from_period to_period : string)
    (from to : Z * Z) :
  parse_period from_period = Some from →
  parse_period to_period = Some to →
  generate_quarterly_chunks from_period to_period
  = match chunk_loop 21 (fst from) (snd from) (fst to) (snd to) [] with
    | [] => [(from_period, to_period)]
    | chunks => chunks
    end
  ∧ (1 ≤ fst from ≤ 12)%Z ∧ (1 ≤ fst to ≤ 12)%Z.
Proof.
  unfold parse_period, generate_quarterly_chunks.
  destruct (split from_period) as [|fn [|fy [|? ?]]]; try done.
  destruct (split to_period) as [|tn [|tyr [|? ?]]];
    try (by destruct (ODict.lookup _ month_map); [destruct (py_int fy)|]).
  destruct (ODict.lookup (String.substring 0 3 (lower fn)) month_map)
    as [fm|] eqn:Hfm; [|done].
  destruct (py_int fy) as [fyear|]; [|done]. cbn [mbind option_bind].
  intros [= <-].
  destruct (ODict.lookup (String.substring 0 3 (lower tn)) month_map)
    as [tm|] eqn:Htm; [|done].
  destruct (py_int tyr) as [tyear|]; cbn [mbind option_bind]; [|done].
  intros [= <-]. cbn [fst snd].
  split_and!; try done; eapply month_map_range; eassumption.
Qed.

(** X11. For two periods in ASCII, each shorter than 640 characters,
    that read as a month and a year, the first not after the second,
    [generate_quarterly_chunks] returns at least one and at most 21
    chunks that follow one another from the first month without gap or
    overlap, each within one calendar year and one to three months long.
    They end at the last month whenever there are 20 or fewer of them;
    they never reach past it, nor past 63 months, so a longer range is
    cut short. *)
Theorem quarterly_chunks_tile (from_period to_period : string)
    (from to : Z * Z) :
  isascii from_period = true → isascii to_period = true →
  String.length from_period < 640 → String.length to_period < 640 →
  parse_period from_period = Some from →
  parse_period to_period = Some to →
  (month_index from ≤ month_index to)%Z →
  ∃ rs : list Range,
    generate_quarterly_chunks from_period to_period = map format_range rs
    ∧ rs ≠ []
    ∧ chained (month_index from) rs
    ∧ length rs ≤ 21
    ∧ (next_start (month_index from) rs ≤ month_index to + 1)%Z
    ∧ (next_start (month_index from) rs ≤ month_index from + 63)%Z
    ∧ (length rs ≤ 20 →
       next_start (month_index from) rs = (month_index to + 1)%Z).
Proof.
  intros _ _ _ _ Hfrom Hto Hle.
  destruct (generate_quarterly_chunks_parsed _ _ _ _ Hfrom Hto) as (-> & Hfm & Htm).
  destruct from as [fm fy], to as [tm ty]. cbn [fst snd] in *.
  rewrite chunk_loop_ranges. cbn [app length].
  destruct (chunk_ranges_spec 21 0 fm fy tm ty Hfm Htm ltac:(lia))
    as (Hch & Hlen & Hnx & Hcov & Hne).
  specialize (Hne Hle ltac:(lia)).
  pose proof (chained_span _ _ Hch) as Hspan.
  exists (chunk_ranges 21 0 fm fy tm ty). unfold Range in *.
  split_and!; try done; try lia;
    try (intros Hc; apply Hcov; lia).
  by destruct (chunk_ranges 21 0 fm fy tm ty).
Qed.

Lemma quarterly_chunks_tile_witness :
  ∃ rs : list Range,
    generate_quarterly_chunks "November 2024" "Feb 2025" = map format_range rs
    ∧ rs ≠ []
    ∧ chained (month_index (11, 2024)%Z) rs
    ∧ length rs ≤ 21
    ∧ (next_start (month_index (11, 2024)%Z) rs ≤ month_index (2, 2025)%Z + 1)%Z
    ∧ (next_start (month_index (11, 2024)%Z) rs ≤ month_index (11, 2024)%Z + 63)%Z
    ∧ (length rs ≤ 20 →
       next_start (month_index (11, 2024)%Z) rs = (month_index (2, 2025)%Z + 1)%Z).
Proof.
  apply (quarterly_chunks_tile "November 2024" "Feb 2025" (11, 2024)%Z (2, 2025)%Z).
  - reflexivity.
  - reflexivity.
  - cbn. lia.
  - cbn. lia.
  - vm_compute. reflexivity.
  - vm_compute. reflexivity.
  - vm_compute. discriminate.
Defined.

Lemma generate_quarterly_chunks_unparsed (from_period to_period : string) :
  parse_period from_period = None ∨ parse_period to_period = None →
  generate_quarterly_chunks from_period to_period = [(from_period, to_period)].
Proof.
  unfold parse_period, generate_quarterly_chunks.
  destruct (split from_period) as [|fn [|fyr [|? ?]]]; try done;
    destruct (split to_period) as [|tn [|tyr [|? ?]]]; try done.
  generalize (ODict.lookup (String.substring 0 3 (lower fn)) month_map)
             (ODict.lookup (String.substring 0 3 (lower tn)) month_map)
             (py_int fyr) (py_int tyr).
  intros [fm|] [tm|] [fy|] [ty|] [H|H]; cbn [mbind option_bind] in H;
    try discriminate H; reflexivity.
Qed.

(** X12. For two periods in ASCII: when either does not read as a month
    and a year, or the first month is after the second,
    [generate_quarterly_chunks] returns the one pair of the two periods
    as they were given. *)
Theorem quarterly_chunks_fallback (from_period to_period : string) :
  isascii from_period = true → isascii to_period = true →
  match parse_period from_period, parse_period to_period with
  | Some from, Some to => (month_index to < month_index from)%Z
  | _, _ => True
  end →
  generate_quarterly_chunks from_period to_period = [(from_period, to_period)].
Proof.
  intros _ _.
  destruct (parse_period from_period) as [[fm fy]|] eqn:Hfrom;
    [|intros _; apply generate_quarterly_chunks_unparsed; by left].
  destruct (parse_period to_period) as [[tm ty]|] eqn:Hto;
    [|intros _; apply generate_quarterly_chunks_unparsed; by right].
  destruct (generate_quarterly_chunks_parsed _ _ _ _ Hfrom Hto)
    as (-> & Hfm & Htm).
  unfold month_index. cbn [fst snd chunk_loop] in *. intros Hlt.
  assert (((fy <? ty) || (fy =? ty) && (fm <=? tm))%Z = false) as ->; [|done].
  apply orb_false_iff. split; [apply Z.ltb_ge; lia|].
  destruct (fy =? ty)%Z eqn:E; [|done]. apply Z.eqb_eq in E.
  apply Z.leb_gt. lia.
Qed.

Lemma quarterly_chunks_fallback_witness :
  generate_quarterly_chunks "Mar 2025" "Jan 2025" = [("Mar 2025", "Jan 2025")].
Proof.
  apply (quarterly_chunks_fallback "Mar 2025" "Jan 2025");
    [reflexivity|reflexivity|].
  vm_compute. reflexivity.
Defined.

(** ** Classification of the accounts of a batch *)

Lemma classify_accounts_fold (rows : list Row) (pl bs : list string) :
  fold_left (λ '(pl_accounts, bs_accounts) row,
    let acct_num := str (get row "acctnumber") in
    let acct_type := get_str row "accttype" in
    if is_balance_sheet_account acct_type
    then (pl_accounts, bs_accounts ++ [acct_num])
    else (pl_accounts ++ [acct_num], bs_accounts)) rows (pl, bs)
  = (pl ++ map row_account
             (filter (λ row, is_balance_sheet_account (row_type row) = false) rows),
     bs ++ map row_account
             (filter (λ row, is_balance_sheet_account (row_type row) = true) rows)).
Proof.
  revert pl bs. induction rows as [|row rows IH]; intros pl bs; cbn [fold_left].
  - by rewrite filter_nil, !app_nil_r.
  - rewrite !filter_cons. fold (row_type row) (row_account row).
    destruct (is_balance_sheet_account (row_type row)) eqn:E; rewrite IH.
    + rewrite decide_False by done. rewrite decide_True by done.
      cbn [map]. by rewrite <- app_assoc.
    + rewrite decide_True by done. rewrite decide_False by done.
      cbn [map]. by rewrite <- app_assoc.
Qed.

(** X13. The classification of a type reply is a stable partition: the
    P&L list holds, in the order of the reply, the account numbers of the
    rows whose type is not a Balance-Sheet type, the Balance-Sheet list
    those of the other rows, so every row lands in exactly one list.  A
    row without a type, or with a type the tables do not know, goes to the
    Balance-Sheet list; a row of a non-financial type goes to the P&L
    list. *)
Theorem classify_accounts_partition (type_result : list Row) :
  let pl_accounts := fst (classify_accounts type_result) in
  let bs_accounts := snd (classify_accounts type_result) in
  pl_accounts
  = map row_account
      (filter (λ row, is_balance_sheet_account (row_type row) = false) type_result)
  ∧ bs_accounts
    = map row_account
        (filter (λ row, is_balance_sheet_account (row_type row) = true) type_result)
  ∧ pl_accounts ++ bs_accounts ≡ₚ map row_account type_result
  ∧ (∀ row, row ∈ type_result →
       row_type row ∉ AccountType.PL_TYPES →
       row_type row ∉ AccountType.NON_FINANCIAL_TYPES →
       row_account row ∈ bs_accounts)
  ∧ (∀ row, row ∈ type_result → row !! "accttype" = None →
       row_account row ∈ bs_accounts)
  ∧ (∀ row, row ∈ type_result →
       row_type row ∈ AccountType.PL_TYPES ++ AccountType.NON_FINANCIAL_TYPES →
       row_account row ∈ pl_accounts).
Proof.
  cbn zeta. unfold classify_accounts. rewrite classify_accounts_fold.
  cbn [fst snd app].
  assert (∀ row, row_type row ∉ AccountType.PL_TYPES →
                 row_type row ∉ AccountType.NON_FINANCIAL_TYPES →
                 is_balance_sheet_account (row_type row) = true) as Hbs.
  { intros row Hpl Hnf.
    unfold is_balance_sheet_account, AccountType.is_balance_sheet.
    apply mem_false in Hpl, Hnf. by rewrite Hpl, Hnf. }
  split_and!; [done|done| | | |].
  - induction type_result as [|row rows IH]; [done|].
    rewrite !filter_cons.
    destruct (is_balance_sheet_account (row_type row)) eqn:E.
    + rewrite decide_False by done. rewrite decide_True by done.
      cbn [map]. rewrite <- Permutation_middle. by f_equiv.
    + rewrite decide_True by done. rewrite decide_False by done.
      cbn [map app]. by f_equiv.
  - intros row Hin Hpl Hnf. apply list_elem_of_fmap. exists row.
    split; [done|]. apply list_elem_of_filter. split; [|done]. by apply Hbs.
  - intros row Hin Hnone. apply list_elem_of_fmap. exists row.
    split; [done|]. apply list_elem_of_filter. split; [|done].
    unfold row_type, get_str. rewrite Hnone. vm_compute. reflexivity.
  - intros row Hin [Hpl|Hnf]%elem_of_app; apply list_elem_of_fmap; exists row;
      (split; [done|]); apply list_elem_of_filter; (split; [|done]);
      unfold is_balance_sheet_account, AccountType.is_balance_sheet.
    + apply mem_true in Hpl. by rewrite Hpl.
    + apply mem_true in Hnf. rewrite Hnf. apply andb_false_r.
Qed.

(** ** Years as periods (is_year_only, expand_year_to_periods) *)

Lemma is_digit_cases (c : ascii) : is_digit c = true → c ∈ digit_chars.
Proof.
  destruct c as [[] [] [] [] [] [] [] []]; vm_compute; intros Hc;
    try discriminate Hc; clear Hc;
    repeat (first [apply list_elem_of_here | apply list_elem_of_further]).
Qed.

Lemma is_year_only_length (s : string) :
  is_year_only s = true → String.length s = 4.
Proof.
  unfold is_year_only. destruct (String.length s =? 4) eqn:E; [|done].
  intros _. by apply Nat.eqb_eq.
Qed.

Lemma is_year_only_four_digits (s : string) :
  is_year_only s = true → s ∈ four_digit_texts.
Proof.
  intros Hy. pose proof (is_year_only_length s Hy) as Hlen.
  destruct s as [|a [|b [|c [|d [|? ?]]]]]; try discriminate Hlen.
  unfold is_year_only, isdigit in Hy. cbn [String.length Nat.eqb andb nonempty] in Hy.
  destruct (forallb is_digit _) eqn:Hd in Hy; [|by rewrite andb_false_r in Hy].
  clear Hy. cbn [list_ascii_of_string forallb] in Hd.
  apply andb_true_iff in Hd as [Ha%is_digit_cases Hd].
  apply andb_true_iff in Hd as [Hb%is_digit_cases Hd].
  apply andb_true_iff in Hd as [Hc%is_digit_cases Hd].
  apply andb_true_iff in Hd as [Hd'%is_digit_cases _].
  unfold four_digit_texts.
  apply list_elem_of_bind. exists a. split; [|done].
  apply list_elem_of_bind. exists b. split; [|done].
  apply list_elem_of_bind. exists c. split; [|done].
  apply list_elem_of_bind. exists d. split; [|done].
  apply list_elem_of_here.
Qed.

Lemma expanded_not_year (prefix s : string) :
  String.length prefix = 4 → is_year_only s = true →
  is_year_only (prefix +:+ s) = false.
Proof.
  intros Hp Hs%is_year_only_length. unfold is_year_only.
  by rewrite string_length_app, Hp, Hs.
Qed.

(** X14. Among ASCII texts, the ones read as a year are exactly the
    decimal numerals of 1900 to 2100: four digits, so neither a shorter
    or longer text, nor a numeral with a sign or surrounding blanks, nor
    a year outside that range. *)
Theorem year_only_is_numeral_1900_2100 (period_str : string) :
  isascii period_str = true →
  (is_year_only period_str = true
   ↔ ∃ year : N, (1900 ≤ year ≤ 2100)%N ∧ period_str = pretty year).
Proof.
  intros _. split.
  - intros Hy. exists (int_of_digits period_str).
    pose proof (is_year_only_four_digits _ Hy) as Hin.
    assert (forallb (λ s, implb (is_year_only s)
                       ((1900 <=? int_of_digits s)%N
                        && (int_of_digits s <=? 2100)%N
                        && String.eqb s (pretty (int_of_digits s))))
              four_digit_texts = true) as Hall by (vm_compute; reflexivity).
    rewrite forallb_forall in Hall.
    specialize (Hall _ (proj1 (list_elem_of_In _ _) Hin)). rewrite Hy in Hall.
    cbn [implb] in Hall.
    apply andb_true_iff in Hall as [[H1%N.leb_le H2%N.leb_le]%andb_true_iff
                                      H3%String.eqb_eq].
    done.
  - intros (year & Hrange & ->).
    assert (forallb (λ k, is_year_only (pretty (1900 + N.of_nat k)%N))
              (seq 0 201) = true) as Hall by (vm_compute; reflexivity).
    rewrite forallb_forall in Hall.
    specialize (Hall (N.to_nat (year - 1900)%N)).
    replace (1900 + N.of_nat (N.to_nat (year - 1900)))%N with year in Hall by lia.
    apply Hall, in_seq. lia.
Qed.

Lemma year_only_is_numeral_1900_2100_witness :
  is_year_only "2025" = true
  ↔ ∃ year : N, (1900 ≤ year ≤ 2100)%N ∧ "2025" = pretty year.
Proof.
  apply (year_only_is_numeral_1900_2100 "2025"). reflexivity.
Defined.

Section YearShorthand.
Context `{DateLib} `{Lookups}.
Variable ledger : Ledger.
Variable default_subsidiary_id : option string.

(** X15. A balance request whose first or second period is a year is
    answered exactly as the request that names January of that year as
    the first period, or December as the second; a period expanded this
    way is not expanded again and is never compared with period ids. *)
Theorem year_shorthand_is_explicit_range
    (hierarchy_cache : gmap string (list string)) (req : BalanceRequest) :
  get_balance ledger default_subsidiary_id hierarchy_cache req
  = get_balance ledger default_subsidiary_id hierarchy_cache (expand_periods req)
  ∧ expand_periods (expand_periods req) = expand_periods req
  ∧ (is_year_only (bal_from_period req) = true →
       bal_from_period (expand_periods req)
       = fst (expand_year_to_periods (bal_from_period req))
       ∧ isdigit (bal_from_period (expand_periods req)) = false)
  ∧ (is_year_only (bal_to_period req) = true →
       bal_to_period (expand_periods req)
       = snd (expand_year_to_periods (bal_to_period req))
       ∧ isdigit (bal_to_period (expand_periods req)) = false).
Proof.
  assert (∀ prefix s, String.length prefix = 4 →
            is_year_only (if is_year_only s then prefix +:+ s else s) = false)
    as Hnot.
  { intros prefix s Hp. destruct (is_year_only s) eqn:E; [|done].
    by apply expanded_not_year. }
  split_and!.
  - unfold get_balance.
    cbn [expand_periods bal_account bal_subsidiary bal_from_period bal_to_period
         bal_class bal_department bal_location bal_accounting_book].
    rewrite (Hnot "Jan "), (Hnot "Dec ") by done.
    unfold expand_year_to_periods. cbn [fst snd]. reflexivity.
  - unfold expand_periods at 1.
    cbn [expand_periods bal_account bal_subsidiary bal_from_period bal_to_period
         bal_class bal_department bal_location bal_accounting_book].
    rewrite (Hnot "Jan "), (Hnot "Dec ") by done. reflexivity.
  - intros Hy. cbn [expand_periods bal_from_period]. rewrite Hy. done.
  - intros Hy. cbn [expand_periods bal_to_period]. rewrite Hy. done.
Qed.
End YearShorthand.

(** ** Full-year refresh: the Balance-Sheet stage as the repository runs it *)

Lemma store_activity_rows_keys `{DateLib} fh bs_items s d t c s' d' t' c' e :
  store_activity_rows fh bs_items (s, d, t, c) = ((s', d', t', c'), e) →
  (∀ k, is_Some (c !! k) → own_activity_key fh k) →
  ∀ k, is_Some (c' !! k) → own_activity_key fh k.
Proof.
  revert s d t c. induction bs_items as [|row bs_items IH]; intros s d t c.
  - cbn. by intros [= <- <- <- <- <-].
  - cbn [store_activity_rows].
    destruct (store_activity_row fh row (s, d, t, c)) as [err|[[[s1 d1] t1] c1]] eqn:Hrow.
    + by intros [= <- <- <- <- <-].
    + intros Hrest Hown. eapply IH; [exact Hrest|].
      unfold store_activity_row in Hrow.
      destruct (float_or_zero row "amount") as [err|amount]; [done|].
      destruct (nonempty _ && nonempty _); injection Hrow as <- <- <- <-; [|done].
      intros k [<-|[_ Hk]]%lookup_insert_is_Some; [by eexists _, _|by apply Hown].
Qed.

Section UnboundBuilder.
Context `{DateLib} `{Lookups}.
Variable default_subsidiary_id : option string.



(** The activity cache of a refresh that answers 200: left alone with
    skip_bs, otherwise stamped anew and holding keys of its own
    fingerprint only. *)
Lemma refresh_activity_cache ledger builder caches now now_bs hierarchy_cache req
    body caches' hierarchy_cache' :
  batch_full_year_refresh ledger default_subsidiary_id builder caches now now_bs
    hierarchy_cache req
  = Some (Ok body, caches', hierarchy_cache') →
  (rq_skip_bs req = true →
     bs_activity_cache caches' = bs_activity_cache caches
     ∧ bs_activity_cache_timestamp caches' = bs_activity_cache_timestamp caches
     ∧ bs_account_set caches' = bs_account_set caches)
  ∧ (rq_skip_bs req = false →
       bs_activity_cache_timestamp caches' = Some now_bs
       ∧ ∀ k, is_Some (bs_activity_cache caches' !! k) →
           own_activity_key (refresh_fingerprint req) k).
Proof.
  unfold batch_full_year_refresh.
  destruct (build_full_year_pl_query_pivoted _ _ _ _ _ _) as [[q hc]|];
    cbn [mbind option_bind]; [|done].
  destruct (run_paginated_suiteql ledger (SelectPivotedYear q)) as [e|items];
    [done|].
  destruct (store_pivot_rows _ items [] []) as [e|[b t]]; [done|].
  destruct (rq_skip_bs req).
  - intros [= <- <- <-]. by cbn.
  - change (filters_hash _ _ _ _) with (refresh_fingerprint req).
    unfold refresh_bs_stage. destruct builder as [build|].
    2:{ intros [= <- <- <-]. cbn. split; [done|]. intros _. split; [done|].
        intros k. rewrite lookup_empty. by intros [? ?]. }
    destruct (run_paginated_suiteql ledger (build _ _ _)) as [e|bs_items].
    { intros [= <- <- <-]. cbn. split; [done|]. intros _. split; [done|].
      intros k. rewrite lookup_empty. by intros [? ?]. }
    destruct (store_activity_rows _ bs_items _) as [[[[s d] t'] c] e] eqn:Hrows.
    assert (∀ k, is_Some (c !! k) → own_activity_key (refresh_fingerprint req) k)
      as Hown.
    { eapply store_activity_rows_keys; [exact Hrows|].
      intros k. rewrite lookup_empty. by intros [? ?]. }
    destruct e as [e|].
    + intros [= <- <- <-]. by cbn.
    + destruct (store_cumulative _ _ _ _ _) as [b' cache'].
      intros [= <- <- <-]. by cbn.
Qed.

End UnboundBuilder.


(** C9. A refresh of 2025, without skip_bs, against a ledger that holds
    bank account 1000 (100 at the end of 2024, -99.9921875 in January,
    +50 in February): the answer is 200 and names the income account
    only; account 1000 is absent from the answer, every key of the
    balance cache is one of account 4010, and the BS activity cache is
    empty.  In a
    module that binds the builder the same ledger gives account 1000 a
    balance for February. *)
Theorem full_year_refresh_stores_no_cumulative_balance :
  (∃ body caches' hierarchy_cache',
     batch_full_year_refresh (H := sample_dates) (H0 := sample_lookups)
       refresh_ledger (Some "1") server_build_full_year_bs_query
       sample_old_caches 10 20 ∅ (sample_refresh_request false)
     = Some (Ok body, caches', hierarchy_cache')
     ∧ ODict.keys (fy_balances body) = ["4010"]
     ∧ (∀ k v, balance_cache caches' !! k = Some v →
          starts_with "4010:" k = true)
     ∧ bs_activity_cache caches' = ∅)
  ∧ (λ r, balance_cache r.1.2 !! cache_key "1000" (period_of "Feb" 2025) ":::")
    <$> batch_full_year_refresh (H := sample_dates) (H0 := sample_lookups)
          refresh_ledger (Some "1") (Some sample_bs_builder)
          sample_old_caches 10 20 ∅ (sample_refresh_request false)
    = Some (Some 50%float).
Proof.
  split; [|vm_compute; reflexivity].
  eexists _, _, _. split; [vm_compute; reflexivity|]. cbn [balance_cache fy_balances
    bs_activity_cache].
  split_and!; [reflexivity| |reflexivity].
  apply (bool_decide_unpack (map_Forall (λ k _, starts_with "4010:" k = true) _)).
  vm_compute. reflexivity.
Qed.

Lemma string_app_assoc (a b c : string) : a +:+ (b +:+ c) = (a +:+ b) +:+ c.
Proof.
  induction a as [|x a IH]; [done|].
  change (String x (a +:+ (b +:+ c)) = String x ((a +:+ b) +:+ c)). by rewrite IH.
Qed.

(** The claim of C10 fails with skip_bs: the refresh answers 200 and
    the BS activity cache still holds the entry an earlier refresh wrote
    for 2024 under subsidiary 7, a key that does not carry the refresh's
    own fingerprint, with the earlier timestamp and account set. *)
Lemma full_year_refresh_keeps_activity_cache :
  ∃ body caches' hierarchy_cache',
    batch_full_year_refresh (H := sample_dates) (H0 := sample_lookups)
      refresh_ledger (Some "1") server_build_full_year_bs_query
      sample_old_caches 10 20 ∅ (sample_refresh_request true)
    = Some (Ok body, caches', hierarchy_cache')
    ∧ bs_activity_cache caches' !! "activity:9999:Jan 2024:7:::" = Some 1%float
    ∧ ¬ own_activity_key
          (refresh_fingerprint (H := sample_lookups) (sample_refresh_request true))
          "activity:9999:Jan 2024:7:::"
    ∧ bs_activity_cache caches' = bs_activity_cache sample_old_caches
    ∧ bs_activity_cache_timestamp caches' = Some 0%Z
    ∧ bs_account_set caches' = {[ "9999" ]}.
Proof.
  eexists _, _, _. split; [vm_compute; reflexivity|].
  cbn [bs_activity_cache bs_activity_cache_timestamp bs_account_set].
  split_and!; try reflexivity.
  change (refresh_fingerprint _) with ":::".
  intros (account & period_name & E). unfold activity_cache_key in E.
  change ("activity:9999:Jan 2024:7:::")
    with ("activity:9999:Jan 2024:" +:+ "7:::") in E.
  change (":" +:+ ":::") with "::::" in E.
  rewrite !string_app_assoc in E.
  by apply string_app_inj_suffix in E as [_ E].
Qed.

Section ReplacedCaches.
Context `{DateLib} `{Lookups}.
Variable ledger : Ledger.
Variable default_subsidiary_id : option string.
Variable build_full_year_bs_query : option (Z → string → Filters → Sql).

(** The balance cache of a refresh that answers 200. *)
Lemma refresh_balance_cache caches now now_bs hierarchy_cache req
    body caches' hierarchy_cache' :
  batch_full_year_refresh ledger default_subsidiary_id build_full_year_bs_query
    caches now now_bs hierarchy_cache req
  = Some (Ok body, caches', hierarchy_cache') →
  balance_cache_timestamp caches' = Some now
  ∧ own_keys (rq_year req) (refresh_fingerprint req) (balance_cache caches')
  ∧ ∀ other, ∃ other',
      batch_full_year_refresh ledger default_subsidiary_id
        build_full_year_bs_query other now now_bs hierarchy_cache req
      = Some (Ok body, other', hierarchy_cache')
      ∧ balance_cache other' = balance_cache caches'
      ∧ (rq_skip_bs req = false →
           bs_activity_cache other' = bs_activity_cache caches').
Proof.
  unfold batch_full_year_refresh.
  destruct (build_full_year_pl_query_pivoted _ _ _ _ _ _) as [[q hc]|];
    cbn [mbind option_bind]; [|done].
  destruct (run_paginated_suiteql ledger (SelectPivotedYear q)) as [e|items];
    [done|].
  destruct (store_pivot_rows _ items [] []) as [e|[b t]] eqn:Hrows; [done|].
  assert (own_keys (rq_year req) (refresh_fingerprint req)
            (cache_balances (refresh_fingerprint req) b ∅)) as Hpl.
  { apply cache_balances_own.
    - eapply store_pivot_rows_periods; [exact Hrows|].
      by intros ? ? ?%elem_of_nil.
    - intros k. rewrite lookup_empty. by intros [? ?]. }
  destruct (rq_skip_bs req).
  - intros [= <- <- <-]. cbn. split_and!; [done|exact Hpl|].
    intros other. eexists. split_and!; [reflexivity|done|done].
  - pose proof (refresh_bs_stage_own ledger build_full_year_bs_query (rq_year req)
                  (refresh_target_sub default_subsidiary_id req)
                  (refresh_filters req) (rq_accountingbook req)
                  (refresh_fingerprint req) b t _ Hpl) as Hbs.
    change (if nonempty (convert_name_to_id "subsidiary" (rq_subsidiary req))
            then convert_name_to_id "subsidiary" (rq_subsidiary req)
            else or_else default_subsidiary_id "1")
      with (refresh_target_sub default_subsidiary_id req).
    change (filters_hash _ _ _ _) with (refresh_fingerprint req).
    destruct (refresh_bs_stage _ _ _ _ _ _ _ _ _ _) as [[[[b' t'] cache'] ac] aset].
    intros [= <- <- <-]. cbn. split_and!; [done|exact Hbs|].
    intros other. eexists. split_and!; [reflexivity|done|done].
Qed.

(** C10 (amended). A full-year refresh that answers 200 replaces the
    balance cache wholesale: the cache is stamped with the time of the
    refresh, every key it holds carries the refresh's own filter
    fingerprint and a month of its fiscal year, no key of another
    fingerprint or year is left, and its content does not depend on what
    the caches held before.  Without skip_bs the BS activity cache is
    replaced in the same way: stamped anew, holding keys of the refresh's
    own fingerprint only, whatever it held before.  With skip_bs the BS
    activity cache, its timestamp and the set of Balance-Sheet accounts
    are left as they were. *)
Theorem full_year_refresh_replaces_caches caches now now_bs hierarchy_cache req
    body caches' hierarchy_cache' :
  batch_full_year_refresh ledger default_subsidiary_id build_full_year_bs_query
    caches now now_bs hierarchy_cache req
  = Some (Ok body, caches', hierarchy_cache') →
  let fh := refresh_fingerprint req in
  balance_cache_timestamp caches' = Some now
  ∧ (∀ k, is_Some (balance_cache caches' !! k) → own_key (rq_year req) fh k)
  ∧ (∀ k, ¬ own_key (rq_year req) fh k → balance_cache caches' !! k = None)
  ∧ (∀ other, ∃ other',
       batch_full_year_refresh ledger default_subsidiary_id
         build_full_year_bs_query other now now_bs hierarchy_cache req
       = Some (Ok body, other', hierarchy_cache')
       ∧ balance_cache other' = balance_cache caches'
       ∧ (rq_skip_bs req = false →
            bs_activity_cache other' = bs_activity_cache caches'))
  ∧ (rq_skip_bs req = false →
       bs_activity_cache_timestamp caches' = Some now_bs
       ∧ (∀ k, is_Some (bs_activity_cache caches' !! k) → own_activity_key fh k)
       ∧ (∀ k, ¬ own_activity_key fh k → bs_activity_cache caches' !! k = None))
  ∧ (rq_skip_bs req = true →
       bs_activity_cache caches' = bs_activity_cache caches
       ∧ bs_activity_cache_timestamp caches' = bs_activity_cache_timestamp caches
       ∧ bs_account_set caches' = bs_account_set caches).
Proof.
  intros Hrun fh.
  destruct (refresh_balance_cache _ _ _ _ _ _ _ _ Hrun) as (Hstamp & Hown & Hother).
  destruct (refresh_activity_cache _ _ _ _ _ _ _ _ _ _ _ Hrun) as [Hskip Hbs].
  split_and!; [done|exact Hown| |exact Hother| |exact Hskip].
  - intros k Hk. destruct (balance_cache caches' !! k) eqn:E; [|done].
    destruct Hk. apply Hown. by rewrite E.
  - intros Hno. destruct (Hbs Hno) as [Ht Hkeys]. split_and!; [done|exact Hkeys|].
    intros k Hk. destruct (bs_activity_cache caches' !! k) eqn:E; [|done].
    destruct Hk. apply Hkeys. by rewrite E.
Qed.
End ReplacedCaches.

Lemma full_year_refresh_replaces_caches_witness :
  ∃ body caches' hierarchy_cache',
    batch_full_year_refresh (H := sample_dates) (H0 := sample_lookups)
      refresh_ledger (Some "1") server_build_full_year_bs_query
      sample_old_caches 10 20 ∅ (sample_refresh_request false)
    = Some (Ok body, caches', hierarchy_cache')
    ∧ balance_cache_timestamp caches' = Some 10%Z
    ∧ (∀ k, ¬ own_key 2025
                (refresh_fingerprint (H := sample_lookups)
                   (sample_refresh_request false)) k →
         balance_cache caches' !! k = None).
Proof.
  assert (∃ body caches' hierarchy_cache',
            batch_full_year_refresh (H := sample_dates) (H0 := sample_lookups)
              refresh_ledger (Some "1") server_build_full_year_bs_query
              sample_old_caches 10 20 ∅ (sample_refresh_request false)
            = Some (Ok body, caches', hierarchy_cache'))
    as (body & caches' & hierarchy_cache' & Hrun)
    by (eexists _, _, _; vm_compute; reflexivity).
  exists body, caches', hierarchy_cache'. split; [exact Hrun|].
  destruct (full_year_refresh_replaces_caches (H := sample_dates)
              (H0 := sample_lookups) refresh_ledger (Some "1")
              server_build_full_year_bs_query sample_old_caches 10 20 ∅
              (sample_refresh_request false) body caches' hierarchy_cache' Hrun)
    as (Hstamp & _ & Hgone & _).
  by split.
Defined.

(** ** Rate-limit retry: what the handlers make of an exhausted statement *)

Lemma retry_loop_ext ledger ledger' s remaining attempt result trace :
  (∀ k, ledger' s k = ledger s k) →
  retry_loop ledger' s remaining attempt result trace
  = retry_loop ledger s remaining attempt result trace.
Proof.
  intros Hs. revert attempt result trace.
  induction remaining as [|n IH]; intros attempt result trace; [done|].
  cbn [retry_loop]. rewrite Hs. destruct (rate_limited _); [apply IH|done].
Qed.

Lemma read_component_exhausted ledger name sql :
  (∀ k, rate_limited (ledger sql k) = true) →
  ∃ msg, read_component name (fst (retry_loop ledger sql MAX_RETRIES 0 None []))
         = (Some 0%float, [name +:+ ": " +:+ msg]).
Proof.
  intros Hlimited. unfold MAX_RETRIES. cbn [retry_loop]. rewrite !Hlimited.
  cbn [fst]. pose proof (Hlimited 2) as H2.
  destruct (ledger sql 2) as [items|error details|]; try discriminate.
  by eexists.
Qed.

(** A component reads the same amount from a statement throttled to
    exhaustion as from the same statement answered with no rows. *)
Lemma read_component_muted ledger ledger' sql name s :
  (∀ k, rate_limited (ledger sql k) = true) →
  answers_empty_instead ledger ledger' sql →
  fst (read_component name (fst (retry_loop ledger' s MAX_RETRIES 0 None [])))
  = fst (read_component name (fst (retry_loop ledger s MAX_RETRIES 0 None []))).
Proof.
  intros Hlimited Hmuted. destruct (Hmuted s) as [Hsame|[-> Hempty]].
  - by rewrite (retry_loop_ext _ _ _ _ _ _ _ Hsame).
  - destruct (read_component_exhausted ledger name sql Hlimited) as [msg ->].
    unfold MAX_RETRIES. cbn [retry_loop]. by rewrite Hempty.
Qed.

Section ExhaustedFacts.
Context `{DateLib}.
Variable default_subsidiary_id : option string.

Lemma cta_collect_muted ledger ledger' sql queries st st' :
  (∀ k, rate_limited (ledger sql k) = true) →
  answers_empty_instead ledger ledger' sql →
  fst st' = fst st →
  fst (fold_left (cta_collect ledger') queries st')
  = fst (fold_left (cta_collect ledger) queries st).
Proof.
  intros Hlimited Hmuted. revert st st'.
  induction queries as [|[name s] queries IH]; intros [r e] [r' e'] Hst; [done|].
  cbn [fold_left]. apply IH. cbn in Hst. subst r'.
  unfold cta_collect, query_with_retry.
  pose proof (read_component_muted ledger ledger' sql name s Hlimited Hmuted) as Hv.
  destruct (read_component name (fst (retry_loop ledger' s _ _ _ _))) as [v' errs'].
  destruct (read_component name (fst (retry_loop ledger s _ _ _ _))) as [v errs].
  cbn in Hv. by subst v'.
Qed.

Lemma muted_hierarchy ledger ledger' sql cache s :
  sql ≠ SelectSubsidiaryHierarchy →
  answers_empty_instead ledger ledger' sql →
  get_subsidiaries_in_hierarchy ledger' cache s
  = get_subsidiaries_in_hierarchy ledger cache s.
Proof.
  intros Hne Hmuted. unfold get_subsidiaries_in_hierarchy.
  destruct (Hmuted SelectSubsidiaryHierarchy) as [Hsame|[E _]]; [|congruence].
  by rewrite Hsame.
Qed.

Lemma calculate_cta_muted ledger ledger' sql cache period_name subsidiary
    accountingbook fy_info :
  (∀ k, rate_limited (ledger sql k) = true) →
  sql ≠ SelectSubsidiaryHierarchy →
  answers_empty_instead ledger ledger' sql →
  cta_response <$> calculate_cta ledger' default_subsidiary_id cache period_name
                     subsidiary accountingbook fy_info
  = cta_response <$> calculate_cta ledger default_subsidiary_id cache period_name
                       subsidiary accountingbook fy_info.
Proof.
  intros Hlimited Hne Hmuted. unfold calculate_cta.
  destruct fy_info as [fy|]; [|done].
  rewrite (muted_hierarchy _ _ _ _ _ Hne Hmuted).
  destruct (get_subsidiaries_in_hierarchy ledger cache _) as [[hs cache']|];
    [|done].
  cbn [mbind option_bind].
  pose proof (cta_collect_muted ledger ledger' sql
                (cta_request_queries default_subsidiary_id subsidiary
                   accountingbook fy) (∅, []) (∅, []) Hlimited Hmuted eq_refl)
    as Hres.
  destruct (fold_left (cta_collect ledger') _ _) as [r' e'].
  destruct (fold_left (cta_collect ledger) _ _) as [r e].
  cbn in Hres. by subst r'.
Qed.

Lemma calculate_retained_earnings_muted ledger ledger' sql cache period_name
    subsidiary accountingbook classId department location fy_info :
  (∀ k, rate_limited (ledger sql k) = true) →
  sql ≠ SelectSubsidiaryHierarchy →
  answers_empty_instead ledger ledger' sql →
  re_response <$> calculate_retained_earnings ledger' default_subsidiary_id cache
                    period_name subsidiary accountingbook classId department
                    location fy_info
  = re_response <$> calculate_retained_earnings ledger default_subsidiary_id cache
                      period_name subsidiary accountingbook classId department
                      location fy_info.
Proof.
  intros Hlimited Hne Hmuted. unfold calculate_retained_earnings.
  destruct fy_info as [fy|]; [|done].
  rewrite (muted_hierarchy _ _ _ _ _ Hne Hmuted).
  destruct (get_subsidiaries_in_hierarchy ledger cache _) as [[hs cache']|];
    [|done].
  cbn [mbind option_bind]. unfold re_run_query, query_with_retry_re.
  by rewrite !(read_component_muted ledger ledger' sql _ _ Hlimited Hmuted).
Qed.

(** C6 (amended). When every execution of a component statement is
    answered with the rate-limit signal, both retry wrappers execute it
    three times and no more, sleep 2, 4 and 6 seconds after the first,
    second and third execution, and return the error dictionary of the
    third execution.  The collecting loop files that error under the
    component's name in [query_errors] and reads the component as 0: the
    CTA and Retained-Earnings answers are those of a ledger that answers
    the statement with no rows. *)
Theorem retry_exhaustion (ledger : Ledger) (name : string) (sql : Sql) :
  (∀ k, rate_limited (ledger sql k) = true) →
  let run := query_with_retry ledger name sql MAX_RETRIES in
  snd run = [Executed sql 0; Slept 2; Executed sql 1; Slept 4;
             Executed sql 2; Slept 6]
  ∧ length (filter is_executed (snd run)) = 3
  ∧ waits (snd run) = [2; 4; 6]%Z
  ∧ fst run = Some (ledger sql 2)
  ∧ is_error (ledger sql 2) = true
  ∧ query_with_retry_re ledger name sql MAX_RETRIES = run
  ∧ (∃ msg, read_component name (fst run)
            = (Some 0%float, [name +:+ ": " +:+ msg]))
  ∧ ∀ ledger',
      sql ≠ SelectSubsidiaryHierarchy →
      answers_empty_instead ledger ledger' sql →
      (∀ cache period_name subsidiary accountingbook fy_info,
         cta_response <$> calculate_cta ledger default_subsidiary_id cache
                            period_name subsidiary accountingbook fy_info
         = cta_response <$> calculate_cta ledger' default_subsidiary_id cache
                              period_name subsidiary accountingbook fy_info)
      ∧ (∀ cache period_name subsidiary accountingbook classId department
           location fy_info,
           re_response <$> calculate_retained_earnings ledger
                             default_subsidiary_id cache period_name subsidiary
                             accountingbook classId department location fy_info
           = re_response <$> calculate_retained_earnings ledger'
                               default_subsidiary_id cache period_name subsidiary
                               accountingbook classId department location
                               fy_info).
Proof.
  intros Hlimited run. subst run.
  split_and!.
  - unfold query_with_retry, MAX_RETRIES. cbn [retry_loop]. by rewrite !Hlimited.
  - unfold query_with_retry, MAX_RETRIES. cbn [retry_loop]. by rewrite !Hlimited.
  - unfold query_with_retry, MAX_RETRIES. cbn [retry_loop]. by rewrite !Hlimited.
  - unfold query_with_retry, MAX_RETRIES. cbn [retry_loop]. by rewrite !Hlimited.
  - by apply rate_limited_is_error.
  - done.
  - apply read_component_exhausted, Hlimited.
  - intros ledger' Hne Hmuted. split; intros.
    + symmetry. by apply calculate_cta_muted with (sql := sql).
    + symmetry. by apply calculate_retained_earnings_muted with (sql := sql).
Qed.
End ExhaustedFacts.

(** The claim of C6 fails where it says the exhausted statement does not
    end as a silent zero: with the liabilities statement throttled at
    every execution the CTA answer is 200, reports total_liabilities = 0
    and is the answer given when the statement returns no rows; the
    rate-limit error is in [query_errors] only. *)
Lemma rate_limit_exhaustion_reads_zero :
  (∀ q k, first_cond_types q = ["AcctPay"; "CredCard"; "OthCurrLiab";
                                "LongTermLiab"; "DeferRevenue"] →
     rate_limited (sample_ledger_liabilities_throttled (SelectBalance q) k) = true)
  ∧ ∃ throttled empty,
      calculate_cta (H := sample_dates) sample_ledger_liabilities_throttled
        (Some "1") ∅ "Mar 2025" None "1" (Some sample_fy) = Some throttled
      ∧ calculate_cta (H := sample_dates) sample_ledger_liabilities_empty
          (Some "1") ∅ "Mar 2025" None "1" (Some sample_fy) = Some empty
      ∧ cta_response throttled
        = Ok {| cta_value := (1000 - 0 - 250 - (120 + 50) - 80)%float;
                cta_period := "Mar 2025";
                cta_components :=
                  {| total_assets := 1000; total_liabilities := 0;
                     total_equity := (1000 - 0)%float; posted_equity := 250;
                     retained_earnings := (120 + 50)%float; net_income := 80 |} |}
      ∧ cta_response throttled = cta_response empty
      ∧ cta_query_errors throttled
        = ["total_liabilities: CONCURRENCY_LIMIT_EXCEEDED: Request limit exceeded"]
      ∧ cta_query_errors empty = [].
Proof.
  split.
  - intros q k Hq. cbn. rewrite Hq. reflexivity.
  - eexists _, _. repeat split; vm_compute; reflexivity.
Qed.

Lemma retry_exhaustion_witness :
  (∀ k, rate_limited (throttled_ledger (SelectOther "q") k) = true)
  ∧ snd (query_with_retry throttled_ledger "total_assets" (SelectOther "q") MAX_RETRIES)
    = [Executed (SelectOther "q") 0; Slept 2; Executed (SelectOther "q") 1;
       Slept 4; Executed (SelectOther "q") 2; Slept 6]
  ∧ ∃ msg, read_component "total_assets"
             (fst (query_with_retry throttled_ledger "total_assets"
                     (SelectOther "q") MAX_RETRIES))
           = (Some 0%float, ["total_assets" +:+ ": " +:+ msg]).
Proof.
  assert (∀ k, rate_limited (throttled_ledger (SelectOther "q") k) = true) as Hl
    by (intros k; vm_compute; reflexivity).
  split; [exact Hl|].
  destruct (retry_exhaustion (H := sample_dates) (Some "1") throttled_ledger
              "total_assets" (SelectOther "q") Hl) as (Ht & _ & _ & _ & _ & _ & Hm & _).
  by split.
Defined.

(** ** Single balance: the bounds in time *)

Lemma period_bounds_app (l1 l2 : list cond) :
  period_bounds (l1 ++ l2) = period_bounds l1 ++ period_bounds l2.
Proof. apply filter_app. Qed.

Lemma period_bounds_filter (P : cond → Prop) `{∀ c, Decision (P c)}
    (l : list cond) :
  period_bounds l = [] → period_bounds (filter P l) = [].
Proof.
  unfold period_bounds. induction l as [|c l IH]; [done|].
  rewrite !filter_cons. destruct (decide (_ = true)) as [Hc|Hc]; [done|].
  intros Hl. destruct (decide (P c)); [|by apply IH].
  rewrite filter_cons, decide_False by done. by apply IH.
Qed.

Lemma period_bounds_optional (b : bool) (c : cond) :
  is_lower_bound c || is_upper_bound c = false →
  period_bounds (if b then [c] else []) = [].
Proof.
  intros Hc. destruct b; [|done]. unfold period_bounds.
  rewrite filter_cons, decide_False; [done|]. by rewrite Hc.
Qed.

Section PeriodBoundFacts.
Context `{DateLib} `{Lookups}.
Variable ledger : Ledger.
Variable default_subsidiary_id : option string.

(** Every conjunct of the period cascade bounds the statement in time. *)
Lemma period_bounds_period_clauses from_period to_period :
  period_bounds (period_clauses from_period to_period)
  = period_clauses from_period to_period.
Proof.
  unfold period_clauses.
  destruct (nonempty from_period && nonempty to_period).
  { destruct (isdigit from_period && isdigit to_period); [done|].
    destruct (get_period_dates_from_name from_period) as [[fs fe] fi].
    destruct (get_period_dates_from_name to_period) as [[ts te] ti].
    by destruct (present fs && present te). }
  destruct (nonempty from_period).
  { by destruct (isdigit from_period). }
  destruct (nonempty to_period); [|done].
  destruct (isdigit to_period); [done|].
  destruct (get_period_dates_from_name to_period) as [[ts te] ti].
  by destruct (present te).
Qed.

(** The conjuncts of the emitted statement that bound it in time are
    those of the period cascade and no others. *)
Lemma get_balance_period_bounds cache req run :
  nonempty (bal_account req) = true →
  get_balance ledger default_subsidiary_id cache req = Some run →
  ∃ q, bal_query run = Some q
       ∧ period_bounds (bq_where q)
         = period_clauses
             (effective_from (detect_bs_account ledger (bal_account req)) req)
             (requested_to req).
Proof.
  intros Hacct. unfold get_balance. rewrite Hacct. cbn [negb].
  fold (requested_from req) (requested_to req).
  fold (effective_from (detect_bs_account ledger (bal_account req)) req).
  set (D := detect_bs_account ledger (bal_account req)).
  set (F := effective_from D req). set (T := requested_to req).
  set (sub := convert_name_to_id "subsidiary" (bal_subsidiary req)).
  set (P := period_clauses F T).
  assert (Hfinish : ∀ subs : list cond,
    period_bounds subs = [] →
    period_bounds
      ([TPosting; TalPosting;
        build_account_filter [bal_account req] "a.acctnumber";
        AccountingBook
          (if nonempty (bal_accounting_book req)
           then bal_accounting_book req else "1")]
       ++ subs ++ P
       ++ (if nonempty (convert_name_to_id "class" (bal_class req))
           then [ClassEq (convert_name_to_id "class" (bal_class req))] else [])
       ++ (if nonempty (convert_name_to_id "department" (bal_department req))
           then [DepartmentEq (convert_name_to_id "department" (bal_department req))]
           else [])
       ++ (if nonempty (convert_name_to_id "location" (bal_location req))
           then [LocationEq (convert_name_to_id "location" (bal_location req))]
           else []))
    = P).
  { intros subs Hsubs. rewrite !period_bounds_app, Hsubs.
    rewrite !period_bounds_optional by done.
    unfold P. rewrite period_bounds_period_clauses, app_nil_r. by cbn. }
  destruct (nonempty sub) eqn:Esub.
  - destruct (String.eqb sub (default "None" default_subsidiary_id)
              && should_use_consolidated (bal_subsidiary req) sub) eqn:Eroot.
    + cbn [mbind option_bind]. intros [= <-]. cbn [bal_query].
      eexists. split; [reflexivity|]. cbn [bq_where]. by apply (Hfinish []).
    + destruct (should_use_consolidated (bal_subsidiary req) sub) eqn:Econs.
      * destruct (get_subsidiaries_in_hierarchy ledger cache sub)
          as [[hs cache']|] eqn:Eh; cbn [mbind option_bind]; [|discriminate].
        intros [= <-]. cbn [bal_query].
        eexists. split; [reflexivity|]. cbn [bq_where].
        by apply (Hfinish [SubsidiaryIn hs]).
      * cbn [mbind option_bind]. intros [= <-]. cbn [bal_query].
        eexists. split; [reflexivity|]. cbn [bq_where].
        by apply (Hfinish [SubsidiaryEq sub]).
  - cbn [mbind option_bind]. intros [= <-]. cbn [bal_query].
    eexists. split; [reflexivity|]. cbn [bq_where]. by apply (Hfinish []).
Qed.

Lemma batch_bs_query_bounds bs_accounts where_clauses target_sub join book
    period info :
  period_bounds where_clauses = [] →
  period_bounds
    (bq_where (batch_bs_query bs_accounts where_clauses target_sub join book
                 period info))
  = [TrandateLe (to_iso_date (info_enddate info))].
Proof.
  intros Hw. unfold batch_bs_query, build_bs_query_single_period.
  cbn [bq_where]. rewrite !period_bounds_app.
  rewrite (period_bounds_filter _ _ Hw).
  unfold build_account_filter. by destruct bs_accounts.
Qed.

Lemma build_pl_query_bounds pl_accounts periods base_where target_sub join book :
  period_bounds base_where = [] →
  period_bounds
    (bq_where (build_pl_query pl_accounts periods base_where target_sub join book))
  = [PeriodNameIn (map escape_sql periods)].
Proof.
  intros Hw. unfold build_pl_query. cbn [bq_where].
  rewrite period_bounds_app, Hw.
  unfold build_account_filter. by destruct pl_accounts.
Qed.
End PeriodBoundFacts.

Section BalanceSheetSemantics.
Context `{DateLib} `{Lookups}.
Variable ledger : Ledger.
Variable default_subsidiary_id : option string.

(** C5 (amended). An account type is Balance Sheet iff it is in neither
    the P&L set nor the non-financial set, and the single-balance handler
    classifies by the detection block.  In a batch, the Balance-Sheet
    statement of a period has no lower date bound and its one bound in
    time is the period's end date; the one bound of the P&L statement is
    the list of the requested periods.  In a single-balance request, a
    Balance-Sheet account asked with an end period is answered as if no
    start period had been given: the statement's one bound in time is the
    end period, its id or the end date of the name the ledger resolves,
    so it has no lower bound then.  Asked with a start period only, its
    statement is restricted to that period.  An account that is not
    Balance Sheet, asked with both periods, gets a statement bounded from
    below by the start period and from above by the end period: the two
    period ids, or the start date of the first and the end date of the
    second name when the ledger resolves them, the start period's name
    alone when it does not. *)
Theorem balance_sheet_query_semantics
    (cache : gmap string (list string)) (req : BalanceRequest) (run : BalanceRun) :
  nonempty (bal_account req) = true →
  get_balance ledger default_subsidiary_id cache req = Some run →
  (∀ t, AccountType.is_balance_sheet t = true
        ↔ (t ∉ AccountType.PL_TYPES) ∧ (t ∉ AccountType.NON_FINANCIAL_TYPES))
  ∧ bal_is_bs run = detect_bs_account ledger (bal_account req)
  ∧ (∀ bs_accounts where_clauses target_sub join book period info,
       existsb is_lower_bound where_clauses = false →
       let q := batch_bs_query bs_accounts where_clauses target_sub join book
                  period info in
       has_lower_bound q = false
       ∧ TrandateLe (to_iso_date (info_enddate info)) ∈ bq_where q)
  ∧ (∀ pl_accounts periods base_where target_sub join book,
       PeriodNameIn (map escape_sql periods)
       ∈ bq_where (build_pl_query pl_accounts periods base_where target_sub join book))
  ∧ (bal_is_bs run = true → nonempty (bal_to_period req) = true →
     get_balance ledger default_subsidiary_id cache (without_from_period req)
     = Some run
     ∧ ∃ q, bal_query run = Some q
            ∧ (isdigit (requested_to req) = true
               ∨ present (snd (fst (get_period_dates_from_name (requested_to req))))
                 = true →
               has_lower_bound q = false))
  ∧ (bal_is_bs run = true → nonempty (bal_from_period req) = true →
     bal_to_period req = "" →
     ∃ q, bal_query run = Some q ∧ has_lower_bound q = true)
  ∧ (bal_is_bs run = false → nonempty (requested_from req) = true →
     nonempty (requested_to req) = true →
     ∃ q, bal_query run = Some q ∧ has_lower_bound q = true
          ∧ (isdigit (requested_from req) && isdigit (requested_to req) = true →
             PostingPeriodGe (requested_from req) ∈ bq_where q
             ∧ PostingPeriodLe (requested_to req) ∈ bq_where q))
  ∧ (∀ bs_accounts where_clauses target_sub join book period info,
       period_bounds where_clauses = [] →
       period_bounds
         (bq_where (batch_bs_query bs_accounts where_clauses target_sub join book
                      period info))
       = [TrandateLe (to_iso_date (info_enddate info))])
  ∧ (∀ pl_accounts periods base_where target_sub join book,
       period_bounds base_where = [] →
       period_bounds
         (bq_where (build_pl_query pl_accounts periods base_where target_sub
                      join book))
       = [PeriodNameIn (map escape_sql periods)])
  ∧ (bal_is_bs run = true → nonempty (bal_to_period req) = true →
     ∃ q, bal_query run = Some q
          ∧ period_bounds (bq_where q)
            = if isdigit (requested_to req)
              then [PostingPeriodLe (requested_to req)]
              else match get_period_dates_from_name (requested_to req) with
                   | (_, to_end, _) =>
                       if present to_end
                       then [TrandateLe (to_iso_date (default "" to_end))]
                       else [PeriodNameEq (escape_sql (requested_to req))]
                   end)
  ∧ (bal_is_bs run = true → nonempty (bal_from_period req) = true →
     bal_to_period req = "" →
     ∃ q, bal_query run = Some q
          ∧ period_bounds (bq_where q)
            = if isdigit (requested_from req)
              then [PostingPeriodEq (requested_from req)]
              else [PeriodNameEq (escape_sql (requested_from req))])
  ∧ (bal_is_bs run = false → nonempty (requested_from req) = true →
     nonempty (requested_to req) = true →
     ∃ q, bal_query run = Some q
          ∧ period_bounds (bq_where q)
            = if isdigit (requested_from req) && isdigit (requested_to req)
              then [PostingPeriodGe (requested_from req);
                    PostingPeriodLe (requested_to req)]
              else match get_period_dates_from_name (requested_from req),
                         get_period_dates_from_name (requested_to req) with
                   | (from_start, _, _), (_, to_end, _) =>
                       if present from_start && present to_end
                       then [ApStartGe (default "" from_start);
                             ApEndLe (default "" to_end)]
                       else [PeriodNameEq (escape_sql (requested_from req))]
                   end).
Proof.
  intros Hacct Hrun.
  pose proof (single_balance_floor ledger default_subsidiary_id cache req
                run Hacct Hrun) as (H1 & H2 & H3 & H4 & H5 & H6 & H7).
  destruct (get_balance_period_bounds ledger default_subsidiary_id cache req run
              Hacct Hrun) as (q & Hq & Hbounds).
  rewrite <- H2 in Hbounds.
  split_and!; try done.
  - intros. by apply batch_bs_query_bounds.
  - intros. by apply build_pl_query_bounds.
  - intros Hb Hto. exists q. split; [done|].
    rewrite Hbounds, Hb, (effective_from_bs req Hto).
    apply period_clauses_cumulative. by apply requested_to_nonempty.
  - intros Hb Hfrom Hto. exists q. split; [done|].
    rewrite Hbounds, Hb. unfold effective_from, requested_to.
    rewrite Hto. change (is_year_only "") with false.
    cbn [nonempty String.eqb negb]. rewrite andb_false_r.
    apply period_clauses_start_only.
    unfold requested_from. by destruct (is_year_only (bal_from_period req)).
  - intros Hb Hfrom Hto. exists q. split; [done|].
    rewrite Hbounds. unfold effective_from. rewrite Hb. cbn [andb].
    by apply period_clauses_range.
Qed.
End BalanceSheetSemantics.

Lemma balance_sheet_query_semantics_witness :
  ∃ run q,
    get_balance (H := sample_dates) (H0 := sample_lookups) sample_ledger
      (Some "1") ∅ (sample_balance_request "1000" "Dec 2024" "Jan 2025") = Some run
    ∧ bal_is_bs run = true
    ∧ bal_query run = Some q
    ∧ period_bounds (bq_where q) = [TrandateLe "1/31/2025"]
    ∧ has_lower_bound q = false.
Proof.
  assert (∃ run,
            get_balance (H := sample_dates) (H0 := sample_lookups) sample_ledger
              (Some "1") ∅ (sample_balance_request "1000" "Dec 2024" "Jan 2025")
            = Some run ∧ bal_is_bs run = true)
    as (run & Hrun & Hbs) by (eexists; split; vm_compute; reflexivity).
  destruct (balance_sheet_query_semantics (H := sample_dates)
              (H0 := sample_lookups) sample_ledger (Some "1") ∅
              (sample_balance_request "1000" "Dec 2024" "Jan 2025") run
              ltac:(reflexivity) Hrun)
    as (_ & _ & _ & _ & Hfloor & _ & _ & _ & _ & Hcum & _).
  destruct (Hcum Hbs ltac:(reflexivity)) as (q & Hq & Hbounds).
  destruct (Hfloor Hbs ltac:(reflexivity)) as (_ & q' & Hq' & Hlow).
  rewrite Hq in Hq'. injection Hq' as <-.
  exists run, q. split_and!; [done|done|done|exact Hbounds|].
  apply Hlow. right. reflexivity.
Defined.

(** ** Batch balances: what the fresh path stores *)




Lemma store_cells_app (cells1 cells2 : list Filled) (b : Balances) :
  store_cells (cells1 ++ cells2) b = store_cells cells2 (store_cells cells1 b).
Proof. apply fold_left_app. Qed.









Section FreshCells.
Context `{DateLib} `{Lookups}.
Variable ledger : Ledger.
Variable default_subsidiary_id : option string.
Variable pl_reply : QResult.
Variable bs_reply : PeriodInfo → QResult.
Hypothesis pl_replies :
  ∀ accounts periods base_where target_sub join book,
    ledger (SelectBalance
              (build_pl_query accounts periods base_where target_sub join book)) 0
    = pl_reply.
Hypothesis bs_replies :
  ∀ accounts period info base_where target_sub join book,
    ledger (SelectBalance
              (build_bs_query_single_period accounts period info base_where
                 target_sub join book)) 0
    = bs_reply info.



End FreshCells.

Section BatchRecomputed.
Context `{DateLib} `{Lookups}.
Variable ledger : Ledger.
Variable default_subsidiary_id : option string.


End BatchRecomputed.


